(** * Explorer API handlers (run/api/explorers.js)

    A shallow embedding of the route handlers of [run/api/explorers.js].
    Every handler is an [async] function that validates its request and
    then talks to collaborators that live outside the file: the
    persistence layer ([db]), the billing client ([stripe]), the RPC
    probe ([ProviderConnector] under [withTimeout]), the quota evaluator
    ([explorer.hasReachedTransactionQuota]), the process supervisor
    ([PM2]), the job queue and the logger.

    A handler is embedded as a finite interaction tree [prog]: each
    collaborator call is a [Call] node whose continuation receives the
    collaborator's [outcome] (a value, or a raised error),
    [throw new Error(m)] is [Throw m], and [try { } catch { }] is
    [try_catch].  Every call is [await]ed, except the one to the logger in
    the [catch] block of each handler, which is [invoke]d: the handler
    does not wait for what it returns.  The collaborators themselves are a
    parameter of [run], the way the repository's tests replace them by
    mocks.

    The middlewares in front of the routes (authentication, billing
    enabled, shared secret) are outside the file; a handler is run on the
    request they let through. *)

From Stdlib Require Import ZArith String Ascii List DecimalString Lia.
From Stdlib Require DecimalPos DecimalZ.
From stdpp Require Import base option strings list gmap.

Open Scope Z_scope.
Open Scope string_scope.

(** ** JavaScript values and strings *)

(** [!s] for a string-valued field that may be absent: absent ([undefined],
    [null]) and the empty string are falsy. *)
Definition truthy_str (o : option string) : bool :=
  match o with
  | Some s => negb (String.eqb s EmptyString)
  | None => false
  end.

(** [!n] for a number-valued field that may be absent: absent and [0] are
    falsy. *)
Definition truthy_num (o : option Z) : bool :=
  match o with
  | Some n => negb (Z.eqb n 0)
  | None => false
  end.

(** [!o] for an object-valued field: only [null]/[undefined] is falsy. *)
Definition present {A : Type} (o : option A) : bool :=
  match o with
  | Some _ => true
  | None => false
  end.

(** [s.endsWith(t)]. *)
Definition endsWith (s t : string) : bool :=
  let n := String.length s in
  let m := String.length t in
  Nat.leb m n && String.eqb (String.substring (n - m)%nat m s) t.

(** [s.split(sep)[0]] for a non-empty separator: the part of [s] before
    the first occurrence of [sep], or [s] itself when [sep] does not
    occur.  (The only separator the module uses starts with a dot.) *)
Fixpoint split_head (sep s : string) : string :=
  match s with
  | EmptyString => EmptyString
  | String c s' =>
      if String.prefix sep s then EmptyString else String c (split_head sep s')
  end.

(** Decimal rendering of an integer inside a template literal. *)
Definition show_int (n : Z) : string := NilZero.string_of_int (Z.to_int n).

(** The double-quote character, for the one message that contains it. *)
Definition dquote : string := String (ascii_of_nat 34) EmptyString.

(** ** Objects exchanged with the collaborators *)

Record Capabilities := {
  nativeToken : bool;
  totalSupply : bool;
  branding : bool;
  customDomain : bool
}.

Record StripePlan := {
  plan_id : Z;
  plan_slug : string;
  stripePriceId : string;
  public : bool;
  capabilities : Capabilities
}.

(** The local subscription record as it hangs off an explorer. *)
Record StripeSubscription := {
  stripeId : option string;
  isPendingCancelation : bool;
  stripePlan : StripePlan
}.

Record RpcHealthCheck := { isReachable : bool }.

(** A workspace as the persistence layer returns it; [ws_explorer] is the
    explorer linked to it ([workspace.explorer]), given by its id. *)
Record Workspace := {
  ws_id : Z;
  ws_name : string;
  ws_rpcServer : string;
  rpcHealthCheck : option RpcHealthCheck;
  ws_explorer : option Z
}.

Inductive Themes :=
| DefaultThemes
| CustomThemes (css : string).

Record Explorer := {
  ex_id : Z;
  slug : string;
  workspace : option Workspace;
  stripeSubscription : option StripeSubscription;
  token : string;
  ex_totalSupply : option string;
  themes : Themes
}.

Record User := {
  user_id : Z;
  firebaseUserId : string;
  stripeCustomerId : option string;
  canTrial : bool;
  canUseDemoPlan : bool;
  cryptoPaymentEnabled : bool;
  defaultDataRetentionLimit : Z
}.

(** Objects of the billing provider. *)
Record BillingCustomer := {
  cus_id : string;
  default_source : option string
}.

Record BillingSubscription := {
  sub_id : string;
  sub_customer : string;
  sub_items : list string
}.

Record SubscriptionParams := {
  sp_customer : option string;
  sp_price : string;
  sp_explorerId : Z;
  trial_period_days : option Z;
  cancel_on_missing_payment_method : bool;
  collection_method : option string;
  days_until_due : option Z
}.

Record SubscriptionUpdate := {
  cancel_at_period_end : bool;
  proration_behavior : option string;
  su_item : option (string * string)
}.

Record WorkspaceData := {
  wd_name : option string;
  wd_networkId : Z;
  wd_rpcServer : option string;
  wd_tracing : option string;
  wd_dataRetentionLimit : Z
}.

Record Pm2Process := { status : string }.

Record Job := {
  job_name : string;
  explorerSlug : string
}.

(** ** Requests

    [req.params.id], the query string and [req.body.data] as the handlers
    read them.  [data.user] is the account the auth middleware attached;
    [data.uid] its external id.  A field the handlers use as a string or
    as a number is modelled at that type; [None] is a field that is
    missing ([undefined] or [null]). *)
Record Request := {
  params_id : string;
  query_startSubscription : bool;
  query_domain : option string;
  uid : string;
  user : User;
  stripePlanSlug : option string;
  newStripePlanSlug : option string;
  workspaceId : option Z;
  rpcServer : option string;
  name : option string;
  tracing : option string;
  plan : option string;
  domain : option string;
  data_workspace : option string;
  page : option Z;
  itemsPerPage : option Z;
  order : option string;
  orderBy : option string
}.

(** Environment-derived configuration ([lib/env], [lib/flags]). *)
Record Config := {
  appDomain : string;
  defaultPlanSlug : string;
  defaultExplorerTrialDays : Z;
  stripeEnabled : bool
}.

(** ** Responses *)

Inductive Body :=
| StatusText
| Text (msg : string)
| JsonStatus (st : string)
| JsonExplorer (e : Explorer)
| JsonExplorers (l : list Explorer)
| JsonPlans (l : list StripePlan).

Record Response := {
  code : Z;
  body : Body
}.

Definition sendStatus (c : Z) : Response := {| code := c; body := StatusText |}.
Definition send (c : Z) (b : Body) : Response := {| code := c; body := b |}.

(** ** Collaborator calls *)

Inductive event : Type -> Type :=
(* persistence layer *)
| GetUser (uid : string) (attributes : list string) : event (option User)
| GetExplorerById (userId : Z) (id : string) (flag : bool) : event (option Explorer)
| GetStripePlan (slug : string) : event (option StripePlan)
| CreateExplorerSubscription (userId explorerId planId : Z)
    (snapshot : option (BillingSubscription * BillingCustomer)) : event unit
| DisableUserTrial (userId : Z) : event unit
| StopExplorerSync (explorerId : Z) : event unit
| StartExplorerSync (explorerId : Z) : event unit
| RevertExplorerSubscriptionCancelation (userId explorerId : Z) : event unit
| UpdateExplorerSubscription (userId explorerId planId : Z)
    (snapshot : option BillingSubscription) : event unit
| CancelExplorerSubscription (userId explorerId : Z) : event unit
| DeleteExplorer (userId : Z) (id : string) : event unit
| GetExplorerPlans : event (list StripePlan)
| CreateExplorerDomain (explorerId : Z) (domain : string) : event unit
| UpdateExplorerBranding (explorerId : Z) (data : Request) : event unit
| GetWorkspaceByName (uid : string) (name : string) : event (option Workspace)
| UpdateExplorerWorkspace (explorerId workspaceId : Z) : event unit
| UpdateExplorerSettings (explorerId : Z) (data : Request) : event unit
| GetWorkspaceById (id : Z) : event (option Workspace)
| CreateExplorerFromWorkspace (userId workspaceId : Z) : event (option Explorer)
| CreateExplorerWithWorkspace (userId : Z) (data : WorkspaceData) : event (option Explorer)
| GetPublicExplorerParamsBySlug (slug : string) : event (option Explorer)
| GetPublicExplorerParamsByDomain (domain : string) : event (option Explorer)
| GetUserExplorers (userId : Z) (page itemsPerPage : option Z)
    (order orderBy : option string) : event (list Explorer)
| ExplorerFindAll : event (list Explorer)
(* job queue *)
| BulkEnqueue (queue : string) (jobs : list Job) : event unit
(* billing provider *)
| SubscriptionsCreate (params : SubscriptionParams) : event (option BillingSubscription)
| SubscriptionsRetrieve (id : string) (expandCustomer : bool) : event BillingSubscription
| SubscriptionsUpdate (id : string) (params : SubscriptionUpdate) : event unit
| CustomersRetrieve (id : option string) : event BillingCustomer
(* RPC probe, quota evaluator, process supervisor, logger *)
| FetchNetworkId (rpcServer : option string) : event (option Z)
| HasReachedTransactionQuota (explorerId : Z) : event bool
| Pm2Find (slug : string) : event (option Pm2Process)
| LoggerError (message location : string) : event unit.

(** What a collaborator call gives back to the handler: a value, or an
    error carrying its message.  For an [await]ed call the value is what
    the call returns or its promise resolves to, and the error is what the
    call throws or its promise rejects with.  For a call that is not
    awaited (the logger's), [Ok] is the call returning, whatever it
    returns, and [Raised] is the call itself throwing: a promise it hands
    back is dropped, so its rejection never reaches the handler. *)
Inductive outcome (A : Type) :=
| Ok (a : A)
| Raised (msg : string).
Arguments Ok {A} a.
Arguments Raised {A} msg.

(** ** Handler programs *)

Inductive prog (R : Type) : Type :=
| Ret (r : R)
| Throw (msg : string)
| Call {A : Type} (e : event A) (k : outcome A -> prog R).
Arguments Ret {R} r.
Arguments Throw {R} msg.
Arguments Call {R A} e k.

Fixpoint bind {R S : Type} (p : prog R) (f : R -> prog S) : prog S :=
  match p with
  | Ret r => f r
  | Throw m => Throw m
  | Call e k => Call e (fun o => bind (k o) f)
  end.

Notation "x <- p ;; q" := (bind p (fun x => q))
  (at level 100, p at next level, right associativity).
Notation "p ;;; q" := (bind p (fun _ => q))
  (at level 100, right associativity).

(** [await call]: a rejection is rethrown in the caller. *)
Definition await {A : Type} (e : event A) : prog A :=
  Call e (fun o => match o with Ok a => Ret a | Raised m => Throw m end).

(** [call] as a statement, without [await]: the caller goes on as soon as
    the call has returned and does not look at what it returned; only an
    exception thrown by the call itself is raised in the caller. *)
Definition invoke {A : Type} (e : event A) : prog unit :=
  Call e (fun o => match o with Ok _ => Ret tt | Raised m => Throw m end).

(** [try { p } catch (error) { h error.message }]. *)
Fixpoint try_catch {R : Type} (p : prog R) (h : string -> prog R) : prog R :=
  match p with
  | Ret r => Ret r
  | Throw m => h m
  | Call e k => Call e (fun o => try_catch (k o) h)
  end.

(** [if (c) throw new Error(m)]. *)
Definition throw_if (c : bool) (m : string) : prog unit :=
  if c then Throw m else Ret tt.

(** [if (!x) throw new Error(m)] for a possibly absent string, keeping the
    string for later use. *)
Definition require_str (o : option string) (m : string) : prog string :=
  match o with
  | Some s => if String.eqb s EmptyString then Throw m else Ret s
  | None => Throw m
  end.

(** [if (!x) throw new Error(m)] for a possibly null object. *)
Definition require {A : Type} (o : option A) (m : string) : prog A :=
  match o with
  | Some a => Ret a
  | None => Throw m
  end.

(** Reading property [p] of a value that is [null] or [undefined]: the
    engine throws a [TypeError] that names which of the two it was. *)
Definition type_error (v p : string) : string :=
  "Cannot read properties of " ++ v ++ " (reading '" ++ p ++ "')".

(** [o.p] for an object [o] a lookup may have resolved to [null]. *)
Definition deref {A : Type} (o : option A) (p : string) : prog A :=
  require o (type_error "null" p).

(** [a[0].p] for an array [a] that may be empty: [a[0]] is then
    [undefined]. *)
Definition deref_first {A : Type} (a : list A) (p : string) : prog A :=
  require (head a) (type_error "undefined" p).

(** The boundary every handler shares:
    [catch(error) { logger.error(error.message, { location }); res.status(400).send(error.message) }].
    The logger is called without [await]. *)
Definition handler (location : string) (p : prog Response) : prog Response :=
  try_catch p (fun m =>
    invoke (LoggerError m location) ;;;
    Ret (send 400 (Text m))).

(** ** The handlers

    One definition per route, in the order of the source file.  The
    configuration getters ([getAppDomain()], [getDefaultPlanSlug()],
    [getDefaultExplorerTrialDays()], [isStripeEnabled()]) read the process
    environment and are taken from [cfg]. *)

Section Handlers.

Variable cfg : Config.

(** [router.post('/:id/startTrial')] *)
Definition startTrial (req : Request) : prog Response :=
  handler "post.api.explorers.startTrial" (
    planSlug <- require_str (stripePlanSlug req) "Missing parameter" ;;
    found <- await (GetUser (uid req) ["stripeCustomerId"; "canTrial"]) ;;
    user <- require found "Could not find user." ;;
    throw_if (negb (canTrial user)) "You've already used your trial." ;;;
    found <- await (GetExplorerById (user_id user) (params_id req) false) ;;
    explorer <- require found "Could not find explorer." ;;
    found <- await (GetStripePlan planSlug) ;;
    plan <- require found "Could not find plan." ;;
    created <- await (SubscriptionsCreate
      {| sp_customer := stripeCustomerId user;
         sp_price := stripePriceId plan;
         sp_explorerId := ex_id explorer;
         trial_period_days := Some (defaultExplorerTrialDays cfg);
         cancel_on_missing_payment_method := true;
         collection_method := None;
         days_until_due := None |}) ;;
    subscription <- require created "Error while starting trial. Please try again." ;;
    customer <- await (CustomersRetrieve (Some (sub_customer subscription))) ;;
    await (CreateExplorerSubscription (user_id user) (ex_id explorer) (plan_id plan)
             (Some (subscription, customer))) ;;;
    await (DisableUserTrial (user_id user)) ;;;
    Ret (sendStatus 200)).

(** [router.post('/syncExplorers')] *)
Definition syncExplorers (req : Request) : prog Response :=
  handler "post.api.explorers.syncExplorers" (
    explorers <- await ExplorerFindAll ;;
    let jobs := map (fun explorer =>
      {| job_name := "updateExplorerSyncingProcess-" ++ show_int (ex_id explorer);
         explorerSlug := slug explorer |}) explorers in
    await (BulkEnqueue "updateExplorerSyncingProcess" jobs) ;;;
    Ret (sendStatus 200)).

(** [router.put('/:id/stopSync')] *)
Definition stopSync (req : Request) : prog Response :=
  handler "put.api.explorers.id.stopSync" (
    throw_if (String.eqb (params_id req) EmptyString) "Missing parameters" ;;;
    found <- await (GetExplorerById (user_id (user req)) (params_id req) false) ;;
    explorer <- require found "Couldn't find explorer." ;;
    await (StopExplorerSync (ex_id explorer)) ;;;
    Ret (sendStatus 200)).

(** [router.put('/:id/startSync')] *)
Definition startSync (req : Request) : prog Response :=
  handler "put.api.explorers.id.startSync" (
    throw_if (String.eqb (params_id req) EmptyString) "Missing parameters" ;;;
    found <- await (GetExplorerById (user_id (user req)) (params_id req) false) ;;
    explorer <- require found "Couldn't find explorer." ;;
    require (stripeSubscription explorer) "No active subscription for this explorer." ;;;
    reached <- await (HasReachedTransactionQuota (ex_id explorer)) ;;
    throw_if reached "Transaction quota reached. Upgrade your plan to resume sync." ;;;
    ws <- deref (workspace explorer) "rpcServer" ;;
    try_catch (await (FetchNetworkId (Some (ws_rpcServer ws))) ;;; Ret tt)
      (fun _ => Throw "This explorer's RPC is not reachable. Please update it in order to start syncing.") ;;;
    await (StartExplorerSync (ex_id explorer)) ;;;
    Ret (sendStatus 200)).

(** [router.get('/:id/syncStatus')] *)
Definition syncStatus (req : Request) : prog Response :=
  handler "get.api.explorers.id.syncStatus" (
    throw_if (String.eqb (params_id req) EmptyString) "Missing parameters" ;;;
    found <- await (GetExplorerById (user_id (user req)) (params_id req) false) ;;
    explorer <- require found "Can't find explorer." ;;
    ws <- deref (workspace explorer) "rpcHealthCheck" ;;
    st <- match rpcHealthCheck ws with
          | Some {| isReachable := false |} => Ret "unreachable"
          | _ =>
              reached <- await (HasReachedTransactionQuota (ex_id explorer)) ;;
              if reached : bool then Ret "transactionQuotaReached"
              else
                pm2Process <- await (Pm2Find (slug explorer)) ;;
                Ret (match pm2Process with
                     | Some p => status p
                     | None => "stopped"
                     end)
          end ;;
    Ret (send 200 (JsonStatus st))).

(** [router.put('/:id/subscription')], the specification's
    [changeSubscription]. *)
Definition updateSubscription (req : Request) : prog Response :=
  handler "post.api.explorers.id.updateSubscription" (
    newSlug <- require_str (newStripePlanSlug req) "Missing parameters." ;;
    found <- await (GetExplorerById (user_id (user req)) (params_id req) false) ;;
    explorer <- require found "Can't find explorer." ;;
    current <- require (stripeSubscription explorer) "Can't find explorer." ;;
    throw_if (negb (String.eqb (plan_slug (stripePlan current)) newSlug)
              && isPendingCancelation current)
      "Revert plan cancelation before choosing a new plan." ;;;
    found <- await (GetStripePlan newSlug) ;;
    target <- require found "Can't find plan." ;;
    throw_if (negb (public target)) "Can't find plan." ;;;
    subscription <-
      (if truthy_str (stripeId current) then
         retrieved <- await (SubscriptionsRetrieve (default EmptyString (stripeId current)) true) ;;
         item <- deref_first (sub_items retrieved) "id" ;;
         await (SubscriptionsUpdate (sub_id retrieved)
                  {| cancel_at_period_end := false;
                     proration_behavior := Some "always_invoice";
                     su_item := Some (item, stripePriceId target) |}) ;;;
         Ret (Some retrieved)
       else Ret None) ;;
    (if isPendingCancelation current then
       await (RevertExplorerSubscriptionCancelation (user_id (user req)) (ex_id explorer))
     else
       await (UpdateExplorerSubscription (user_id (user req)) (ex_id explorer)
                (plan_id target) subscription)) ;;;
    Ret (sendStatus 200)).

(** [router.delete('/:id/subscription')], the specification's
    [cancelSubscription]. *)
Definition cancelSubscription (req : Request) : prog Response :=
  handler "post.api.explorers.id.cancelSubscription" (
    found <- await (GetExplorerById (user_id (user req)) (params_id req) false) ;;
    explorer <- require found "Can't find explorer." ;;
    current <- require (stripeSubscription explorer) "Can't find explorer." ;;
    (if truthy_str (stripeId current) then
       retrieved <- await (SubscriptionsRetrieve (default EmptyString (stripeId current)) false) ;;
       await (SubscriptionsUpdate (sub_id retrieved)
                {| cancel_at_period_end := true;
                   proration_behavior := None;
                   su_item := None |})
     else Ret tt) ;;;
    await (CancelExplorerSubscription (user_id (user req)) (ex_id explorer)) ;;;
    Ret (sendStatus 200)).

(** [router.post('/:id/cryptoSubscription')] *)
Definition startCryptoSubscription (req : Request) : prog Response :=
  handler "post.api.explorers.id.startCryptoSubscription" (
    planSlug <- require_str (stripePlanSlug req) "Missing parameter" ;;
    throw_if (negb (cryptoPaymentEnabled (user req)))
      "Crypto payment is not available for your account. Please reach out to contact@tryethernal.com if you'd like to enable it." ;;;
    found <- await (GetExplorerById (user_id (user req)) (params_id req) true) ;;
    explorer <- require found "Can't find explorer." ;;
    found <- await (GetStripePlan planSlug) ;;
    target <- require found "Can't find plan." ;;
    throw_if (negb (public target)) "Can't find plan." ;;;
    await (SubscriptionsCreate
      {| sp_customer := stripeCustomerId (user req);
         sp_price := stripePriceId target;
         sp_explorerId := ex_id explorer;
         trial_period_days := None;
         cancel_on_missing_payment_method := false;
         collection_method := Some "send_invoice";
         days_until_due := Some (defaultExplorerTrialDays cfg) |}) ;;;
    Ret (sendStatus 200)).

(** [router.delete('/:id')] *)
Definition deleteExplorer (req : Request) : prog Response :=
  handler "delete.api.explorers.id" (
    await (DeleteExplorer (user_id (user req)) (params_id req)) ;;;
    Ret (sendStatus 200)).

(** [router.get('/plans')] *)
Definition getPlans (req : Request) : prog Response :=
  handler "get.api.explorers.plans" (
    plans <- await GetExplorerPlans ;;
    Ret (send 200 (JsonPlans plans))).

(** [router.post('/:id/domains')] *)
Definition createDomain (req : Request) : prog Response :=
  handler "post.api.explorers.id.domains" (
    newDomain <- require_str (domain req) "Missing parameter" ;;
    throw_if (endsWith newDomain (appDomain cfg))
      ("You can only have one " ++ appDomain cfg
        ++ " domain. If you'd like a different one, update the "
        ++ dquote ++ "Ethernal Domain" ++ dquote ++ " field, in the "
        ++ dquote ++ "Settings" ++ dquote ++ " panel.") ;;;
    found <- await (GetExplorerById (user_id (user req)) (params_id req) false) ;;
    explorer <- require found "Could not find explorer." ;;
    await (CreateExplorerDomain (ex_id explorer) newDomain) ;;;
    Ret (sendStatus 200)).

(** [router.post('/:id/branding')] *)
Definition updateBranding (req : Request) : prog Response :=
  handler "post.api.explorers.id.branding" (
    found <- await (GetExplorerById (user_id (user req)) (params_id req) false) ;;
    explorer <- require found "Could not find explorer." ;;
    await (UpdateExplorerBranding (ex_id explorer) req) ;;;
    Ret (sendStatus 200)).

(** [router.post('/:id/settings')] *)
Definition updateSettings (req : Request) : prog Response :=
  handler "post.api.explorers.settings" (
    found <- await (GetExplorerById (user_id (user req)) (params_id req) false) ;;
    explorer <- require found "Could not find explorer." ;;
    ws <- require (workspace explorer) "Could not find explorer." ;;
    (if truthy_str (data_workspace req)
        && negb (String.eqb (default EmptyString (data_workspace req)) (ws_name ws))
     then
       found <- await (GetWorkspaceByName (uid req) (default EmptyString (data_workspace req))) ;;
       target <- require found "Invalid workspace." ;;
       await (UpdateExplorerWorkspace (ex_id explorer) (ws_id target))
     else Ret tt) ;;;
    await (UpdateExplorerSettings (ex_id explorer) req) ;;;
    Ret (sendStatus 200)).

(** The probe failure message shared by both creation paths. *)
Definition rpc_unreachable : string :=
  "Our servers can't query this rpc, please use a rpc that is reachable from the internet.".

Definition payment_method_missing : string :=
  "There doesn't seem to be a payment method associated to your account. If you never subscribed to an explorer plan, please start your first one using the dashboard. You can also reach out to support on Discord or at contact@tryethernal.com.".

(** The [if (data.workspaceId) { ... }] branch of [router.post('/')]:
    attach an explorer to an existing workspace.  [found] is what
    [db.getUser] resolved to; it is only dereferenced when the explorer is
    created. *)
Definition createFromWorkspace (found : option User) (wid : Z) : prog (option Explorer) :=
  lookedUp <- await (GetWorkspaceById wid) ;;
  ws <- require lookedUp "Invalid workspace." ;;
  throw_if (present (ws_explorer ws)) "This workspace already has an explorer." ;;;
  try_catch (await (FetchNetworkId (Some (ws_rpcServer ws))) ;;; Ret tt)
    (fun _ => Throw rpc_unreachable) ;;;
  user <- deref found "id" ;;
  await (CreateExplorerFromWorkspace (user_id user) (ws_id ws)).

(** The [else { ... }] branch: create a workspace and its explorer. *)
Definition createWithWorkspace (found : option User) (req : Request) : prog (option Explorer) :=
  networkId <- try_catch (await (FetchNetworkId (rpcServer req))) (fun _ => Ret None) ;;
  throw_if (negb (truthy_num networkId)) rpc_unreachable ;;;
  user <- deref found "defaultDataRetentionLimit" ;;
  await (CreateExplorerWithWorkspace (user_id user)
    {| wd_name := name req;
       wd_networkId := default 0 networkId;
       wd_rpcServer := rpcServer req;
       wd_tracing := tracing req;
       wd_dataRetentionLimit := defaultDataRetentionLimit user |}).

(** The subscription step that follows a successful creation. *)
Definition setupSubscription (req : Request) (user : User) (explorer : Explorer) : prog unit :=
  if negb (stripeEnabled cfg) || canUseDemoPlan user then
    found <- await (GetStripePlan (defaultPlanSlug cfg)) ;;
    stripePlan <- require found
      "Can't setup explorer. Make sure you've run npx sequelize-cli db:seed:all" ;;
    await (CreateExplorerSubscription (user_id user) (ex_id explorer) (plan_id stripePlan) None)
  else if query_startSubscription req then
    planSlug <- require_str (plan req) "Missing plan parameter." ;;
    found <- await (GetStripePlan planSlug) ;;
    stripePlan <- require found "Can't find plan." ;;
    throw_if (negb (public stripePlan)) "Can't find plan." ;;;
    let stripeParams :=
      {| sp_customer := stripeCustomerId user;
         sp_price := stripePriceId stripePlan;
         sp_explorerId := ex_id explorer;
         trial_period_days := None;
         cancel_on_missing_payment_method := false;
         collection_method := None;
         days_until_due := None |} in
    stripeParams <-
      (if negb (cryptoPaymentEnabled user) then
         stripeCustomer <- await (CustomersRetrieve (stripeCustomerId user)) ;;
         throw_if (negb (truthy_str (default_source stripeCustomer))) payment_method_missing ;;;
         Ret stripeParams
       else
         Ret {| sp_customer := sp_customer stripeParams;
                sp_price := sp_price stripeParams;
                sp_explorerId := sp_explorerId stripeParams;
                trial_period_days := None;
                cancel_on_missing_payment_method := false;
                collection_method := Some "send_invoice";
                days_until_due := Some 7 |}) ;;
    await (SubscriptionsCreate stripeParams) ;;;
    Ret tt
  else Ret tt.

(** [router.post('/')], the specification's [create]. *)
Definition createExplorer (req : Request) : prog Response :=
  handler "post.api.explorers" (
    throw_if (negb (truthy_num (workspaceId req))
              && negb (truthy_str (rpcServer req) && truthy_str (name req)))
      "Missing parameters." ;;;
    found <- await (GetUser (uid req) ["stripeCustomerId"; "canUseDemoPlan"]) ;;
    created <-
      (if truthy_num (workspaceId req)
       then createFromWorkspace found (default 0 (workspaceId req))
       else createWithWorkspace found req) ;;
    explorer <- require created "Could not create explorer." ;;
    user <- deref found "canUseDemoPlan" ;;
    setupSubscription req user explorer ;;;
    Ret (send 200 (JsonExplorer explorer))).

(** The capability filter of the public lookup. *)
Definition filterByCapabilities (caps : Capabilities) (explorer : Explorer) : Explorer :=
  {| ex_id := ex_id explorer;
     slug := slug explorer;
     workspace := workspace explorer;
     stripeSubscription := stripeSubscription explorer;
     token := if nativeToken caps then token explorer else "ether";
     ex_totalSupply := if totalSupply caps then ex_totalSupply explorer else None;
     themes := if branding caps then themes explorer else DefaultThemes |}.

(** [router.get('/search')], the specification's [publicLookup]. *)
Definition search (req : Request) : prog Response :=
  handler "get.api.explorers.search" (
    queried <- require_str (query_domain req) "Missing parameters." ;;
    if String.eqb queried ("app." ++ appDomain cfg) then Ret (sendStatus 200)
    else
      bySlug <-
        (if endsWith queried (appDomain cfg) then
           await (GetPublicExplorerParamsBySlug
                    (split_head ("." ++ appDomain cfg) queried))
         else Ret None) ;;
      found <-
        match bySlug with
        | Some explorer => Ret (Some explorer)
        | None => await (GetPublicExplorerParamsByDomain queried)
        end ;;
      explorer <- require found "Couldn't find explorer." ;;
      subscription <- require (stripeSubscription explorer) "This explorer is not active." ;;
      Ret (send 200 (JsonExplorer
        (filterByCapabilities (capabilities (stripePlan subscription)) explorer)))).

(** [router.get('/:id')] *)
Definition getExplorer (req : Request) : prog Response :=
  handler "get.api.explorers.id" (
    throw_if (String.eqb (params_id req) EmptyString) "Missing parameters." ;;;
    found <- await (GetExplorerById (user_id (user req)) (params_id req) false) ;;
    explorer <- require found "Could not find explorer." ;;
    Ret (send 200 (JsonExplorer explorer))).

(** [router.get('/')]; the request fields are those of the merged object
    [{ ...req.body.data, ...req.query }]. *)
Definition listExplorers (req : Request) : prog Response :=
  handler "get.api.explorers" (
    explorers <- await (GetUserExplorers (user_id (user req)) (page req)
                          (itemsPerPage req) (order req) (orderBy req)) ;;
    Ret (send 200 (JsonExplorers explorers))).

End Handlers.

(** ** Running a handler against its collaborators

    [env] answers each call and threads the collaborators' state [W].
    [run] returns what the handler did (a response, or an error that
    escaped it), the final state, and the list of calls it made with their
    outcomes. *)

Inductive interaction :=
| Interaction {A : Type} (e : event A) (o : outcome A).

Inductive result (R : Type) :=
| Responded (r : R)
| Unhandled (msg : string).
Arguments Responded {R} r.
Arguments Unhandled {R} msg.

Definition environment (W : Type) : Type :=
  forall A : Type, event A -> W -> outcome A * W.

Section Run.

Context {W : Type}.
Variable env : environment W.

Fixpoint run {R : Type} (p : prog R) (w : W) : result R * W * list interaction :=
  match p with
  | Ret r => (Responded r, w, [])
  | Throw m => (Unhandled m, w, [])
  | Call e k =>
      let '(o, w1) := env _ e w in
      let '(r, w2, t) := run (k o) w1 in
      (r, w2, Interaction e o :: t)
  end.

Definition response_of {R : Type} (x : result R * W * list interaction) : result R :=
  fst (fst x).
Definition state_of {R : Type} (x : result R * W * list interaction) : W :=
  snd (fst x).
Definition trace_of {R : Type} (x : result R * W * list interaction) : list interaction :=
  snd x.

End Run.

(** *** Classifying calls *)

(** Calls to the billing provider. *)
Definition is_billing {A : Type} (e : event A) : bool :=
  match e with
  | SubscriptionsCreate _ | SubscriptionsRetrieve _ _
  | SubscriptionsUpdate _ _ | CustomersRetrieve _ => true
  | _ => false
  end.

(** Calls that change persisted records. *)
Definition is_write {A : Type} (e : event A) : bool :=
  match e with
  | CreateExplorerSubscription _ _ _ _ | DisableUserTrial _
  | StopExplorerSync _ | StartExplorerSync _
  | RevertExplorerSubscriptionCancelation _ _
  | UpdateExplorerSubscription _ _ _ _ | CancelExplorerSubscription _ _
  | DeleteExplorer _ _ | CreateExplorerDomain _ _ | UpdateExplorerBranding _ _
  | UpdateExplorerWorkspace _ _ | UpdateExplorerSettings _ _
  | CreateExplorerFromWorkspace _ _ | CreateExplorerWithWorkspace _ _ => true
  | _ => false
  end.

(** Calls that create an explorer (and, for the second, its workspace). *)
Definition is_create_explorer {A : Type} (e : event A) : bool :=
  match e with
  | CreateExplorerFromWorkspace _ _ | CreateExplorerWithWorkspace _ _ => true
  | _ => false
  end.

(** Calls that create a subscription, locally or at the billing provider. *)
Definition is_create_subscription {A : Type} (e : event A) : bool :=
  match e with
  | CreateExplorerSubscription _ _ _ _ | SubscriptionsCreate _ => true
  | _ => false
  end.

Definition is_logger {A : Type} (e : event A) : bool :=
  match e with
  | LoggerError _ _ => true
  | _ => false
  end.

Definition calls (P : forall A : Type, event A -> bool) (t : list interaction) : bool :=
  existsb (fun i => match i with Interaction e _ => P _ e end) t.

(** A call that resolved (did not reject). *)
Definition resolved (i : interaction) : bool :=
  match i with
  | Interaction _ (Ok _) => true
  | Interaction _ (Raised _) => false
  end.

(** [commits P t]: the trace contains a resolved call of class [P]. *)
Definition commits (P : forall A : Type, event A -> bool) (t : list interaction) : bool :=
  existsb (fun i => match i with Interaction e _ => P _ e && resolved i end) t.

(** ** Error kinds

    The handlers signal every failure as status 400 with the error's
    message; the specification names the failures by kind.  [kind_of]
    gives the kind of the fixed messages the handlers of this module
    throw themselves.  (['Invalid workspace.'] is left out: the
    specification files it under two kinds, depending on the route.) *)

Inductive ErrorKind :=
| InvalidInput | NotFound | Forbidden | Conflict | UpstreamUnreachable
| QuotaExceeded | NoActiveSubscription | Inactive | PaymentMethodMissing.

Definition kind_table : list (string * ErrorKind) :=
  [ ("Missing parameter", InvalidInput);
    ("Missing parameters", InvalidInput);
    ("Missing parameters.", InvalidInput);
    ("Missing plan parameter.", InvalidInput);
    ("Could not find user.", NotFound);
    ("Could not find explorer.", NotFound);
    ("Couldn't find explorer.", NotFound);
    ("Can't find explorer.", NotFound);
    ("Could not find plan.", NotFound);
    ("Can't find plan.", NotFound);
    ("You've already used your trial.", Forbidden);
    ("This workspace already has an explorer.", Conflict);
    ("Revert plan cancelation before choosing a new plan.", Conflict);
    (rpc_unreachable, UpstreamUnreachable);
    ("This explorer's RPC is not reachable. Please update it in order to start syncing.",
       UpstreamUnreachable);
    ("Transaction quota reached. Upgrade your plan to resume sync.", QuotaExceeded);
    ("No active subscription for this explorer.", NoActiveSubscription);
    ("This explorer is not active.", Inactive);
    (payment_method_missing, PaymentMethodMissing) ].

Definition kind_of (m : string) : option ErrorKind :=
  snd <$> find (fun entry => String.eqb (fst entry) m) kind_table.

(** A failure response of kind [k]: status 400 carrying a message of that
    kind. *)
Definition fails_with (k : ErrorKind) (r : result Response) : Prop :=
  exists m, r = Responded (send 400 (Text m)) /\ kind_of m = Some k.

(** ** Reference collaborators

    Modelled from the spec: the persistence layer ([lib/firebase]), the
    billing provider, the RPC probe, the quota evaluator, the process
    supervisor and the queue are not part of the module.  [World] is an
    in-memory stand-in that follows the specification's data model (§3)
    and the names of the operations the handlers call.  It is used to run
    the handlers on concrete inputs and to state what is persisted; the
    handler-level theorems hold for every [environment]. *)

Record WorkspaceRow := {
  w_userId : Z;
  w_name : string;
  w_rpcServer : string;
  w_networkId : Z;
  w_tracing : option string;
  w_dataRetentionLimit : Z;
  w_health : option RpcHealthCheck
}.

Record ExplorerRow := {
  e_userId : Z;
  e_workspaceId : Z;
  e_slug : string;
  e_shouldSync : bool;
  e_domains : list string;
  e_token : string;
  e_totalSupply : option string;
  e_themes : Themes
}.

Record SubscriptionRow := {
  s_planId : Z;
  s_stripeId : option string;
  s_isPendingCancelation : bool
}.

(** A subscription as the billing provider holds it. *)
Record ProviderSubscription := {
  ps_subscription : BillingSubscription;
  ps_price : string;
  ps_cancel_at_period_end : bool;
  ps_params : SubscriptionParams
}.

Record World := {
  users : list User;
  plans : list StripePlan;
  workspaces : gmap Z WorkspaceRow;
  explorers : gmap Z ExplorerRow;
  subscriptions : gmap Z SubscriptionRow;
  nextId : Z;
  customers : list BillingCustomer;
  provider : list ProviderSubscription;
  networks : list (string * option Z);
  overQuota : list Z;
  processes : list (string * Pm2Process);
  enqueued : list Job;
  logged : list (string * string);
  outages : list string
}.

Definition set_users (f : list User -> list User) (w : World) : World :=
  {| users := f (users w); plans := plans w; workspaces := workspaces w;
     explorers := explorers w; subscriptions := subscriptions w; nextId := nextId w;
     customers := customers w; provider := provider w; networks := networks w;
     overQuota := overQuota w; processes := processes w; enqueued := enqueued w;
     logged := logged w; outages := outages w |}.

Definition set_workspaces (f : gmap Z WorkspaceRow -> gmap Z WorkspaceRow) (w : World) : World :=
  {| users := users w; plans := plans w; workspaces := f (workspaces w);
     explorers := explorers w; subscriptions := subscriptions w; nextId := nextId w;
     customers := customers w; provider := provider w; networks := networks w;
     overQuota := overQuota w; processes := processes w; enqueued := enqueued w;
     logged := logged w; outages := outages w |}.

Definition set_explorers (f : gmap Z ExplorerRow -> gmap Z ExplorerRow) (w : World) : World :=
  {| users := users w; plans := plans w; workspaces := workspaces w;
     explorers := f (explorers w); subscriptions := subscriptions w; nextId := nextId w;
     customers := customers w; provider := provider w; networks := networks w;
     overQuota := overQuota w; processes := processes w; enqueued := enqueued w;
     logged := logged w; outages := outages w |}.

Definition set_subscriptions (f : gmap Z SubscriptionRow -> gmap Z SubscriptionRow)
    (w : World) : World :=
  {| users := users w; plans := plans w; workspaces := workspaces w;
     explorers := explorers w; subscriptions := f (subscriptions w); nextId := nextId w;
     customers := customers w; provider := provider w; networks := networks w;
     overQuota := overQuota w; processes := processes w; enqueued := enqueued w;
     logged := logged w; outages := outages w |}.

Definition set_nextId (n : Z) (w : World) : World :=
  {| users := users w; plans := plans w; workspaces := workspaces w;
     explorers := explorers w; subscriptions := subscriptions w; nextId := n;
     customers := customers w; provider := provider w; networks := networks w;
     overQuota := overQuota w; processes := processes w; enqueued := enqueued w;
     logged := logged w; outages := outages w |}.

Definition set_provider (f : list ProviderSubscription -> list ProviderSubscription)
    (w : World) : World :=
  {| users := users w; plans := plans w; workspaces := workspaces w;
     explorers := explorers w; subscriptions := subscriptions w; nextId := nextId w;
     customers := customers w; provider := f (provider w); networks := networks w;
     overQuota := overQuota w; processes := processes w; enqueued := enqueued w;
     logged := logged w; outages := outages w |}.

Definition set_enqueued (f : list Job -> list Job) (w : World) : World :=
  {| users := users w; plans := plans w; workspaces := workspaces w;
     explorers := explorers w; subscriptions := subscriptions w; nextId := nextId w;
     customers := customers w; provider := provider w; networks := networks w;
     overQuota := overQuota w; processes := processes w; enqueued := f (enqueued w);
     logged := logged w; outages := outages w |}.

Definition set_logged (f : list (string * string) -> list (string * string))
    (w : World) : World :=
  {| users := users w; plans := plans w; workspaces := workspaces w;
     explorers := explorers w; subscriptions := subscriptions w; nextId := nextId w;
     customers := customers w; provider := provider w; networks := networks w;
     overQuota := overQuota w; processes := processes w; enqueued := enqueued w;
     logged := f (logged w); outages := outages w |}.

(** The name under which the module calls each collaborator operation. *)
Definition op_name {A : Type} (e : event A) : string :=
  match e with
  | GetUser _ _ => "db.getUser"
  | GetExplorerById _ _ _ => "db.getExplorerById"
  | GetStripePlan _ => "db.getStripePlan"
  | CreateExplorerSubscription _ _ _ _ => "db.createExplorerSubscription"
  | DisableUserTrial _ => "db.disableUserTrial"
  | StopExplorerSync _ => "db.stopExplorerSync"
  | StartExplorerSync _ => "db.startExplorerSync"
  | RevertExplorerSubscriptionCancelation _ _ => "db.revertExplorerSubscriptionCancelation"
  | UpdateExplorerSubscription _ _ _ _ => "db.updateExplorerSubscription"
  | CancelExplorerSubscription _ _ => "db.cancelExplorerSubscription"
  | DeleteExplorer _ _ => "db.deleteExplorer"
  | GetExplorerPlans => "db.getExplorerPlans"
  | CreateExplorerDomain _ _ => "db.createExplorerDomain"
  | UpdateExplorerBranding _ _ => "db.updateExplorerBranding"
  | GetWorkspaceByName _ _ => "db.getWorkspaceByName"
  | UpdateExplorerWorkspace _ _ => "db.updateExplorerWorkspace"
  | UpdateExplorerSettings _ _ => "db.updateExplorerSettings"
  | GetWorkspaceById _ => "db.getWorkspaceById"
  | CreateExplorerFromWorkspace _ _ => "db.createExplorerFromWorkspace"
  | CreateExplorerWithWorkspace _ _ => "db.createExplorerWithWorkspace"
  | GetPublicExplorerParamsBySlug _ => "db.getPublicExplorerParamsBySlug"
  | GetPublicExplorerParamsByDomain _ => "db.getPublicExplorerParamsByDomain"
  | GetUserExplorers _ _ _ _ _ => "db.getUserExplorers"
  | ExplorerFindAll => "Explorer.findAll"
  | BulkEnqueue _ _ => "bulkEnqueue"
  | SubscriptionsCreate _ => "stripe.subscriptions.create"
  | SubscriptionsRetrieve _ _ => "stripe.subscriptions.retrieve"
  | SubscriptionsUpdate _ _ => "stripe.subscriptions.update"
  | CustomersRetrieve _ => "stripe.customers.retrieve"
  | FetchNetworkId _ => "provider.fetchNetworkId"
  | HasReachedTransactionQuota _ => "explorer.hasReachedTransactionQuota"
  | Pm2Find _ => "pm2.find"
  | LoggerError _ _ => "logger.error"
  end.

(** *** Views: the objects the persistence layer hands out *)

Definition parse_id (s : string) : option Z :=
  Z.of_int <$> NilZero.int_of_string s.

Definition find_plan (w : World) (slug : string) : option StripePlan :=
  find (fun p => String.eqb (plan_slug p) slug) (plans w).

Definition find_plan_by_id (w : World) (pid : Z) : option StripePlan :=
  find (fun p => Z.eqb (plan_id p) pid) (plans w).

Definition find_user (w : World) (uid : string) : option User :=
  find (fun u => String.eqb (firebaseUserId u) uid) (users w).

Definition find_user_by_id (w : World) (id : Z) : option User :=
  find (fun u => Z.eqb (user_id u) id) (users w).

(** The explorer linked to workspace [wid], if any. *)
Definition explorer_of_workspace (w : World) (wid : Z) : option Z :=
  fst <$> find (fun kr => Z.eqb (e_workspaceId (snd kr)) wid) (map_to_list (explorers w)).

Definition workspace_view (w : World) (wid : Z) : option Workspace :=
  row ← workspaces w !! wid;
  Some {| ws_id := wid;
          ws_name := w_name row;
          ws_rpcServer := w_rpcServer row;
          rpcHealthCheck := w_health row;
          ws_explorer := explorer_of_workspace w wid |}.

Definition subscription_view (w : World) (eid : Z) : option StripeSubscription :=
  row ← subscriptions w !! eid;
  p ← find_plan_by_id w (s_planId row);
  Some {| stripeId := s_stripeId row;
          isPendingCancelation := s_isPendingCancelation row;
          stripePlan := p |}.

Definition explorer_view (w : World) (eid : Z) (row : ExplorerRow) : Explorer :=
  {| ex_id := eid;
     slug := e_slug row;
     workspace := workspace_view w (e_workspaceId row);
     stripeSubscription := subscription_view w eid;
     token := e_token row;
     ex_totalSupply := e_totalSupply row;
     themes := e_themes row |}.

Definition all_explorers (w : World) : list Explorer :=
  map (fun kr => explorer_view w (fst kr) (snd kr)) (map_to_list (explorers w)).

Definition has_custom_domain (e : Explorer) : bool :=
  match stripeSubscription e with
  | Some s => customDomain (capabilities (stripePlan s))
  | None => false
  end.

(** *** Row updates *)

Definition disable_trial (u : User) : User :=
  {| user_id := user_id u; firebaseUserId := firebaseUserId u;
     stripeCustomerId := stripeCustomerId u; canTrial := false;
     canUseDemoPlan := canUseDemoPlan u;
     cryptoPaymentEnabled := cryptoPaymentEnabled u;
     defaultDataRetentionLimit := defaultDataRetentionLimit u |}.

Definition with_shouldSync (b : bool) (r : ExplorerRow) : ExplorerRow :=
  {| e_userId := e_userId r; e_workspaceId := e_workspaceId r; e_slug := e_slug r;
     e_shouldSync := b; e_domains := e_domains r; e_token := e_token r;
     e_totalSupply := e_totalSupply r; e_themes := e_themes r |}.

Definition with_workspace (wid : Z) (r : ExplorerRow) : ExplorerRow :=
  {| e_userId := e_userId r; e_workspaceId := wid; e_slug := e_slug r;
     e_shouldSync := e_shouldSync r; e_domains := e_domains r; e_token := e_token r;
     e_totalSupply := e_totalSupply r; e_themes := e_themes r |}.

Definition with_domain (d : string) (r : ExplorerRow) : ExplorerRow :=
  {| e_userId := e_userId r; e_workspaceId := e_workspaceId r; e_slug := e_slug r;
     e_shouldSync := e_shouldSync r; e_domains := d :: e_domains r; e_token := e_token r;
     e_totalSupply := e_totalSupply r; e_themes := e_themes r |}.

Definition with_pending (b : bool) (r : SubscriptionRow) : SubscriptionRow :=
  {| s_planId := s_planId r; s_stripeId := s_stripeId r; s_isPendingCancelation := b |}.

Definition new_explorer_row (userId wid eid : Z) : ExplorerRow :=
  {| e_userId := userId; e_workspaceId := wid;
     e_slug := "explorer-" ++ show_int eid;
     e_shouldSync := false; e_domains := []; e_token := "ether";
     e_totalSupply := None; e_themes := DefaultThemes |}.

Definition update_provider (id : string) (params : SubscriptionUpdate)
    (p : ProviderSubscription) : ProviderSubscription :=
  if String.eqb (sub_id (ps_subscription p)) id then
    {| ps_subscription := ps_subscription p;
       ps_price := match su_item params with
                   | Some (_, price) => price
                   | None => ps_price p
                   end;
       ps_cancel_at_period_end := cancel_at_period_end params;
       ps_params := ps_params p |}
  else p.

(** *** The answer to each call *)

Definition answer {A : Type} (e : event A) (w : World) : outcome A * World :=
  match e in event T return outcome T * World with
  | GetUser uid _ => (Ok (find_user w uid), w)
  | GetExplorerById userId id _ =>
      (Ok (eid ← parse_id id;
           row ← explorers w !! eid;
           if Z.eqb (e_userId row) userId then Some (explorer_view w eid row) else None), w)
  | GetStripePlan slug => (Ok (find_plan w slug), w)
  | CreateExplorerSubscription _ explorerId planId snapshot =>
      (Ok tt, set_subscriptions
         (insert explorerId
            {| s_planId := planId;
               s_stripeId := (fun sc => sub_id (fst sc)) <$> snapshot;
               s_isPendingCancelation := false |}) w)
  | DisableUserTrial userId =>
      (Ok tt, set_users
         (map (fun u => if Z.eqb (user_id u) userId then disable_trial u else u)) w)
  | StopExplorerSync explorerId =>
      (Ok tt, set_explorers (alter (with_shouldSync false) explorerId) w)
  | StartExplorerSync explorerId =>
      (Ok tt, set_explorers (alter (with_shouldSync true) explorerId) w)
  | RevertExplorerSubscriptionCancelation _ explorerId =>
      (Ok tt, set_subscriptions (alter (with_pending false) explorerId) w)
  | UpdateExplorerSubscription _ explorerId planId snapshot =>
      (Ok tt, set_subscriptions
         (alter (fun r =>
            {| s_planId := planId;
               s_stripeId := match snapshot with
                             | Some s => Some (sub_id s)
                             | None => s_stripeId r
                             end;
               s_isPendingCancelation := s_isPendingCancelation r |}) explorerId) w)
  | CancelExplorerSubscription _ explorerId =>
      (Ok tt, set_subscriptions (alter (with_pending true) explorerId) w)
  | DeleteExplorer userId id =>
      match parse_id id with
      | Some eid =>
          match explorers w !! eid with
          | Some row =>
              if Z.eqb (e_userId row) userId then
                (Ok tt, set_subscriptions (delete eid) (set_explorers (delete eid) w))
              else (Ok tt, w)
          | None => (Ok tt, w)
          end
      | None => (Ok tt, w)
      end
  | GetExplorerPlans => (Ok (List.filter public (plans w)), w)
  | CreateExplorerDomain explorerId d =>
      (Ok tt, set_explorers (alter (with_domain d) explorerId) w)
  | UpdateExplorerBranding _ _ => (Ok tt, w)
  | GetWorkspaceByName uid n =>
      (Ok (u ← find_user w uid;
           kr ← find (fun kr => Z.eqb (w_userId (snd kr)) (user_id u)
                                && String.eqb (w_name (snd kr)) n)
                  (map_to_list (workspaces w));
           workspace_view w (fst kr)), w)
  | UpdateExplorerWorkspace explorerId wid =>
      (Ok tt, set_explorers (alter (with_workspace wid) explorerId) w)
  | UpdateExplorerSettings _ _ => (Ok tt, w)
  | GetWorkspaceById id => (Ok (workspace_view w id), w)
  | CreateExplorerFromWorkspace userId wid =>
      match workspaces w !! wid with
      | Some row =>
          if Z.eqb (w_userId row) userId then
            let eid := nextId w in
            let w1 := set_nextId (eid + 1)
                        (set_explorers (insert eid (new_explorer_row userId wid eid)) w) in
            (Ok (Some (explorer_view w1 eid (new_explorer_row userId wid eid))), w1)
          else (Ok None, w)
      | None => (Ok None, w)
      end
  | CreateExplorerWithWorkspace userId d =>
      let wid := nextId w in
      let eid := nextId w + 1 in
      let row := {| w_userId := userId;
                    w_name := default EmptyString (wd_name d);
                    w_rpcServer := default EmptyString (wd_rpcServer d);
                    w_networkId := wd_networkId d;
                    w_tracing := wd_tracing d;
                    w_dataRetentionLimit := wd_dataRetentionLimit d;
                    w_health := None |} in
      let w1 := set_nextId (eid + 1)
                  (set_explorers (insert eid (new_explorer_row userId wid eid))
                     (set_workspaces (insert wid row) w)) in
      (Ok (Some (explorer_view w1 eid (new_explorer_row userId wid eid))), w1)
  | GetPublicExplorerParamsBySlug s =>
      (Ok (find (fun x => String.eqb (slug x) s) (all_explorers w)), w)
  | GetPublicExplorerParamsByDomain d =>
      (Ok (find (fun x => has_custom_domain x) 
             (map (fun kr => explorer_view w (fst kr) (snd kr))
                (List.filter (fun kr => existsb (String.eqb d) (e_domains (snd kr)))
                   (map_to_list (explorers w))))), w)
  | GetUserExplorers userId _ _ _ _ =>
      (Ok (map (fun kr => explorer_view w (fst kr) (snd kr))
             (List.filter (fun kr => Z.eqb (e_userId (snd kr)) userId)
                (map_to_list (explorers w)))), w)
  | ExplorerFindAll => (Ok (all_explorers w), w)
  | BulkEnqueue _ jobs => (Ok tt, set_enqueued (fun q => List.app q jobs) w)
  | SubscriptionsCreate params =>
      match sp_customer params with
      | Some c =>
          if existsb (fun x => String.eqb (cus_id x) c) (customers w) then
            let s := {| sub_id := "sub_" ++ show_int (nextId w);
                        sub_customer := c;
                        sub_items := ["si_" ++ show_int (nextId w)] |} in
            (Ok (Some s),
             set_nextId (nextId w + 1)
               (set_provider (cons {| ps_subscription := s;
                                      ps_price := sp_price params;
                                      ps_cancel_at_period_end := false;
                                      ps_params := params |}) w))
          else (Raised ("No such customer: " ++ c), w)
      | None => (Raised "Missing required param: customer.", w)
      end
  | SubscriptionsRetrieve id _ =>
      match find (fun p => String.eqb (sub_id (ps_subscription p)) id) (provider w) with
      | Some p => (Ok (ps_subscription p), w)
      | None => (Raised ("No such subscription: " ++ id), w)
      end
  | SubscriptionsUpdate id params =>
      match find (fun p => String.eqb (sub_id (ps_subscription p)) id) (provider w) with
      | Some _ => (Ok tt, set_provider (map (update_provider id params)) w)
      | None => (Raised ("No such subscription: " ++ id), w)
      end
  | CustomersRetrieve id =>
      match id with
      | Some c =>
          match find (fun x => String.eqb (cus_id x) c) (customers w) with
          | Some x => (Ok x, w)
          | None => (Raised ("No such customer: " ++ c), w)
          end
      | None => (Raised "Missing required param: customer.", w)
      end
  | FetchNetworkId server =>
      match server with
      | Some url =>
          match find (fun x => String.eqb (fst x) url) (networks w) with
          | Some x => (Ok (snd x), w)
          | None => (Raised "Timed out.", w)
          end
      | None => (Raised "Timed out.", w)
      end
  | HasReachedTransactionQuota explorerId =>
      (Ok (existsb (Z.eqb explorerId) (overQuota w)), w)
  | Pm2Find s =>
      (Ok (snd <$> find (fun x => String.eqb (fst x) s) (processes w)), w)
  | LoggerError m loc => (Ok tt, set_logged (cons (m, loc)) w)
  end.

(** An operation listed in [outages] fails without any effect: its call
    raises an error in the handler. *)
Definition world : environment World :=
  fun A e w =>
    if existsb (String.eqb (op_name e)) (outages w)
    then (Raised ("unavailable: " ++ op_name e), w)
    else answer e w.

(** ** A concrete deployment, for running the handlers *)

Module Sample.

Definition cfg : Config :=
  {| appDomain := "tryethernal.com";
     defaultPlanSlug := "self-hosted";
     defaultExplorerTrialDays := 7;
     stripeEnabled := true |}.

Definition caps (b : bool) : Capabilities :=
  {| nativeToken := b; totalSupply := b; branding := b; customDomain := b |}.

Definition selfHosted : StripePlan :=
  {| plan_id := 1; plan_slug := "self-hosted"; stripePriceId := "price_0";
     public := false; capabilities := caps true |}.

Definition explorer150 : StripePlan :=
  {| plan_id := 2; plan_slug := "explorer-150"; stripePriceId := "price_150";
     public := true; capabilities := caps false |}.

Definition explorer500 : StripePlan :=
  {| plan_id := 3; plan_slug := "explorer-500"; stripePriceId := "price_500";
     public := true; capabilities := caps true |}.

Definition alice : User :=
  {| user_id := 1; firebaseUserId := "alice"; stripeCustomerId := Some "cus_1";
     canTrial := true; canUseDemoPlan := false; cryptoPaymentEnabled := false;
     defaultDataRetentionLimit := 0 |}.

Definition bob : User :=
  {| user_id := 2; firebaseUserId := "bob"; stripeCustomerId := Some "cus_2";
     canTrial := false; canUseDemoPlan := false; cryptoPaymentEnabled := false;
     defaultDataRetentionLimit := 0 |}.

Definition workspaceRow (owner : Z) (n url : string) (h : option RpcHealthCheck) : WorkspaceRow :=
  {| w_userId := owner; w_name := n; w_rpcServer := url; w_networkId := 1;
     w_tracing := None; w_dataRetentionLimit := 0; w_health := h |}.

Definition sub1 : BillingSubscription :=
  {| sub_id := "sub_1"; sub_customer := "cus_1"; sub_items := ["si_1"] |}.

(** Alice owns workspace 10 with explorer 20 (slug [demo], subscribed to
    [explorer-150]), workspace 11 whose RPC answers the probe with a null
    network id, and workspace 12 whose RPC is fine; neither 11 nor 12 has
    an explorer.  Explorer 21 (on workspace 13) has no subscription.  Bob
    has no payment method and has used his trial. *)
Definition w0 : World :=
  {| users := [alice; bob];
     plans := [selfHosted; explorer150; explorer500];
     workspaces :=
       <[10 := workspaceRow 1 "main" "https://x" None]>
       (<[11 := workspaceRow 1 "second" "https://y" None]>
       (<[12 := workspaceRow 1 "third" "https://x" None]>
       (<[13 := workspaceRow 1 "fourth" "https://x"
                  (Some {| isReachable := false |})]> ∅)));
     explorers :=
       <[20 := {| e_userId := 1; e_workspaceId := 10; e_slug := "demo";
                  e_shouldSync := true; e_domains := ["explorer.example.org"];
                  e_token := "ETH"; e_totalSupply := Some "1000";
                  e_themes := CustomThemes "dark" |}]>
       (<[21 := {| e_userId := 1; e_workspaceId := 13; e_slug := "idle";
                   e_shouldSync := false; e_domains := [];
                   e_token := "ETH"; e_totalSupply := None;
                   e_themes := DefaultThemes |}]> ∅);
     subscriptions :=
       <[20 := {| s_planId := 2; s_stripeId := Some "sub_1";
                  s_isPendingCancelation := false |}]> ∅;
     nextId := 100;
     customers := [ {| cus_id := "cus_1"; default_source := Some "card_1" |};
                    {| cus_id := "cus_2"; default_source := None |} ];
     provider := [ {| ps_subscription := sub1; ps_price := "price_150";
                      ps_cancel_at_period_end := false;
                      ps_params := {| sp_customer := Some "cus_1"; sp_price := "price_150";
                                      sp_explorerId := 20; trial_period_days := None;
                                      cancel_on_missing_payment_method := false;
                                      collection_method := None;
                                      days_until_due := None |} |} ];
     networks := [("https://x", Some 1); ("https://y", None)];
     overQuota := [];
     processes := [("demo", {| status := "online" |})];
     enqueued := [];
     logged := [];
     outages := [] |}.

(** The same deployment while operation [op] is failing. *)
Definition failing (op : string) (w : World) : World :=
  {| users := users w; plans := plans w; workspaces := workspaces w;
     explorers := explorers w; subscriptions := subscriptions w; nextId := nextId w;
     customers := customers w; provider := provider w; networks := networks w;
     overQuota := overQuota w; processes := processes w; enqueued := enqueued w;
     logged := logged w; outages := op :: outages w |}.

(** A request by [u] with every optional field absent. *)
Definition request (u : User) (id : string) : Request :=
  {| params_id := id; query_startSubscription := false; query_domain := None;
     uid := firebaseUserId u; user := u;
     stripePlanSlug := None; newStripePlanSlug := None;
     workspaceId := None; rpcServer := None; name := None; tracing := None;
     plan := None; domain := None; data_workspace := None;
     page := None; itemsPerPage := None; order := None; orderBy := None |}.

Definition with_create (wid : option Z) (url n : option string) (start : bool)
    (p : option string) (r : Request) : Request :=
  {| params_id := params_id r; query_startSubscription := start;
     query_domain := query_domain r; uid := uid r; user := user r;
     stripePlanSlug := stripePlanSlug r; newStripePlanSlug := newStripePlanSlug r;
     workspaceId := wid; rpcServer := url; name := n; tracing := tracing r;
     plan := p; domain := domain r; data_workspace := data_workspace r;
     page := page r; itemsPerPage := itemsPerPage r; order := order r;
     orderBy := orderBy r |}.

Definition with_slugs (trial new : option string) (r : Request) : Request :=
  {| params_id := params_id r; query_startSubscription := query_startSubscription r;
     query_domain := query_domain r; uid := uid r; user := user r;
     stripePlanSlug := trial; newStripePlanSlug := new;
     workspaceId := workspaceId r; rpcServer := rpcServer r; name := name r;
     tracing := tracing r; plan := plan r; domain := domain r;
     data_workspace := data_workspace r;
     page := page r; itemsPerPage := itemsPerPage r; order := order r;
     orderBy := orderBy r |}.

Definition with_query_domain (d : string) (r : Request) : Request :=
  {| params_id := params_id r; query_startSubscription := query_startSubscription r;
     query_domain := Some d; uid := uid r; user := user r;
     stripePlanSlug := stripePlanSlug r; newStripePlanSlug := newStripePlanSlug r;
     workspaceId := workspaceId r; rpcServer := rpcServer r; name := name r;
     tracing := tracing r; plan := plan r; domain := domain r;
     data_workspace := data_workspace r;
     page := page r; itemsPerPage := itemsPerPage r; order := order r;
     orderBy := orderBy r |}.

End Sample.

(** ** Vocabulary of the properties *)

(** [answers env e w o w']: in state [w] the collaborators answer call
    [e] with [o] and move to [w']. *)
Definition answers {W A : Type} (env : environment W) (e : event A) (w : W)
    (o : outcome A) (w' : W) : Prop :=
  env A e w = (o, w').

(** [every_run p Q]: [Q] holds of the trace and the result of [p] whatever
    the collaborators answer. *)
Fixpoint every_run {R : Type} (p : prog R)
    (Q : list interaction -> result R -> Prop) : Prop :=
  match p with
  | Ret r => Q [] (Responded r)
  | Throw m => Q [] (Unhandled m)
  | Call e k => forall o, every_run (k o) (fun t r => Q (Interaction e o :: t) r)
  end.

(** *** Further classes of calls and outcomes *)

(** The two steps that end [startTrial]: persisting the local subscription
    record and flipping the user's trial flag. *)
Definition is_subscription_record {A : Type} (e : event A) : bool :=
  match e with
  | CreateExplorerSubscription _ _ _ _ => true
  | _ => false
  end.

Definition is_trial_flip {A : Type} (e : event A) : bool :=
  match e with
  | DisableUserTrial _ => true
  | _ => false
  end.

(** [rejects P t]: the trace contains a call of class [P] that rejected. *)
Definition rejects (P : forall A : Type, event A -> bool) (t : list interaction) : bool :=
  existsb (fun i => match i with Interaction e _ => P _ e && negb (resolved i) end) t.

(** The handler reported success (status 200). *)
Definition succeeded (r : result Response) : bool :=
  match r with
  | Responded x => Z.eqb (code x) 200
  | Unhandled _ => false
  end.


(** The call is a user lookup that resolved to a user who can no longer
    start a trial. *)
Definition used_trial_seen (i : interaction) : bool :=
  match i with
  | Interaction e o =>
      match e in event T return outcome T -> bool with
      | GetUser _ _ => fun o =>
          match o with
          | Ok (Some u) => negb (canTrial u)
          | _ => false
          end
      | _ => fun _ => false
      end o
  end.

(** The call is a plan lookup that resolved to a public plan. *)
Definition public_plan_found (i : interaction) : bool :=
  match i with
  | Interaction e o =>
      match e in event T return outcome T -> bool with
      | GetStripePlan _ => fun o =>
          match o with
          | Ok (Some p) => public p
          | _ => false
          end
      | _ => fun _ => false
      end o
  end.

(** The one call of the module that removes an explorer. *)
Definition is_delete {A : Type} (e : event A) : bool :=
  match e with
  | DeleteExplorer _ _ => true
  | _ => false
  end.

(** *** Messages *)

(** The messages of the public lookup. *)
Definition explorer_not_found : string := "Couldn't find explorer.".
Definition explorer_inactive : string := "This explorer is not active.".
Definition search_location : string := "get.api.explorers.search".


Definition trial_used_message : string := "You've already used your trial.".

Definition plan_not_found : string := "Can't find plan.".


(** *** Predicates on requests, answers and states *)

(** The cached health check of a workspace says its RPC is not reachable. *)
Definition unreachable (ws : Workspace) : bool :=
  match rpcHealthCheck ws with
  | Some h => negb (isReachable h)
  | None => false
  end.


(** What [search] does from state [w1] on, once the slug lookup (if any)
    has come back empty: [prefix] is the trace so far, [w] the state the
    handler started in.  The custom-domain lookup decides. *)
Definition custom_domain_fallback {W : Type} (env : environment W) (cfg : Config)
    (req : Request) (queried : string) (w w1 : W) (prefix : list interaction) : Prop :=
  let byDomain := GetPublicExplorerParamsByDomain queried in
  (forall w2 w3 : W,
     answers env byDomain w1 (Ok None) w2 ->
     answers env (LoggerError explorer_not_found search_location) w2 (Ok tt) w3 ->
     run env (search cfg req) w =
       (Responded (send 400 (Text explorer_not_found)), w3,
        List.app prefix
          [Interaction byDomain (Ok None);
           Interaction (LoggerError explorer_not_found search_location) (Ok tt)]))
  /\ (forall (explorer : Explorer) (w2 w3 : W),
        answers env byDomain w1 (Ok (Some explorer)) w2 ->
        stripeSubscription explorer = None ->
        answers env (LoggerError explorer_inactive search_location) w2 (Ok tt) w3 ->
        run env (search cfg req) w =
          (Responded (send 400 (Text explorer_inactive)), w3,
           List.app prefix
             [Interaction byDomain (Ok (Some explorer));
              Interaction (LoggerError explorer_inactive search_location) (Ok tt)]))
  /\ (forall (explorer : Explorer) (subscription : StripeSubscription) (w2 : W),
        answers env byDomain w1 (Ok (Some explorer)) w2 ->
        stripeSubscription explorer = Some subscription ->
        run env (search cfg req) w =
          (Responded (send 200 (JsonExplorer
             (filterByCapabilities (capabilities (stripePlan subscription)) explorer))),
           w2,
           List.app prefix [Interaction byDomain (Ok (Some explorer))])).





(** Every route of the module, by name. *)
Definition routes (cfg : Config) : list (string * (Request -> prog Response)) :=
  [ ("startTrial", startTrial cfg);
    ("syncExplorers", syncExplorers);
    ("stopSync", stopSync);
    ("startSync", startSync);
    ("syncStatus", syncStatus);
    ("updateSubscription", updateSubscription);
    ("cancelSubscription", cancelSubscription);
    ("startCryptoSubscription", startCryptoSubscription cfg);
    ("deleteExplorer", deleteExplorer);
    ("getPlans", getPlans);
    ("createDomain", createDomain cfg);
    ("updateBranding", updateBranding);
    ("updateSettings", updateSettings);
    ("createExplorer", createExplorer cfg);
    ("search", search cfg);
    ("getExplorer", getExplorer);
    ("listExplorers", listExplorers) ].

(** The user with id [id] exists and can no longer start a trial. *)
Definition trial_used (w : World) (id : Z) : Prop :=
  canTrial <$> find_user_by_id w id = Some false.


(** A probe answer the fresh-workspace path rejects: a rejection (error or
    timeout), or a null or zero network id. *)
Definition probe_failed (o : outcome (option Z)) : Prop :=
  match o with
  | Ok networkId => truthy_num networkId = false
  | Raised _ => True
  end.

(** ** Scenarios on the sample deployment *)

(** Explorer 21 of the sample deployment: its workspace's health check
    says unreachable. *)
Definition idleWorkspace : Workspace :=
  {| ws_id := 13; ws_name := "fourth"; ws_rpcServer := "https://x";
     rpcHealthCheck := Some {| isReachable := false |};
     ws_explorer := Some 21 |}.

Definition idleExplorer : Explorer :=
  {| ex_id := 21; slug := "idle"; workspace := Some idleWorkspace;
     stripeSubscription := None; token := "ETH"; ex_totalSupply := None;
     themes := DefaultThemes |}.



(** Alice asks for a trial of [explorer-150] on her explorer 21. *)
Definition trialRequest : Request :=
  Sample.with_slugs (Some "explorer-150") None (Sample.request Sample.alice "21").

(** The sample deployment after Alice has cancelled the subscription of
    explorer 20: the record is pending cancelation. *)
Definition w0_cancelled : World :=
  set_subscriptions (alter (with_pending true) 20) Sample.w0.

Definition demoWorkspace : Workspace :=
  {| ws_id := 10; ws_name := "main"; ws_rpcServer := "https://x";
     rpcHealthCheck := None; ws_explorer := Some 20 |}.

Definition demoSubscription (pending : bool) : StripeSubscription :=
  {| stripeId := Some "sub_1"; isPendingCancelation := pending;
     stripePlan := Sample.explorer150 |}.

Definition demoExplorer (pending : bool) : Explorer :=
  {| ex_id := 20; slug := "demo"; workspace := Some demoWorkspace;
     stripeSubscription := Some (demoSubscription pending);
     token := "ETH"; ex_totalSupply := Some "1000"; themes := CustomThemes "dark" |}.

(** Alice asks to move explorer 20 to plan [slug]. *)
Definition changeTo (slug : string) : Request :=
  Sample.with_slugs None (Some slug) (Sample.request Sample.alice "20").

(** A public lookup of [d]. *)
Definition lookup (d : string) : Request :=
  Sample.with_query_domain d (Sample.request Sample.alice EmptyString).


(** Bob, who has used his trial, asks for one on explorer 21. *)
Definition secondTrial : Request :=
  Sample.with_slugs (Some "explorer-150") None (Sample.request Sample.bob "21").



(** Alice asks for an explorer on her workspace 11, whose RPC answers the
    probe with a null network id; and for an explorer with a fresh
    workspace on that same RPC. *)
Definition attachNullProbe : Request :=
  Sample.with_create (Some 11) None None false None
    (Sample.request Sample.alice EmptyString).

Definition freshNullProbe : Request :=
  Sample.with_create None (Some "https://y") (Some "other") false None
    (Sample.request Sample.alice EmptyString).

Definition secondWorkspace : Workspace :=
  {| ws_id := 11; ws_name := "second"; ws_rpcServer := "https://y";
     rpcHealthCheck := None; ws_explorer := None |}.

Definition attachedExplorer : Explorer :=
  {| ex_id := 100; slug := "explorer-100";
     workspace := Some {| ws_id := 11; ws_name := "second"; ws_rpcServer := "https://y";
                          rpcHealthCheck := None; ws_explorer := Some 100 |};
     stripeSubscription := None; token := "ether"; ex_totalSupply := None;
     themes := DefaultThemes |}.

(** The sample configuration with billing switched off. *)
Definition cfgNoBilling : Config :=
  {| appDomain := "tryethernal.com"; defaultPlanSlug := "self-hosted";
     defaultExplorerTrialDays := 7; stripeEnabled := false |}.

(** Alice creates an explorer with a fresh workspace on a reachable RPC. *)
Definition createFresh : Request :=
  Sample.with_create None (Some "https://x") (Some "demo") false None
    (Sample.request Sample.alice EmptyString).

(** ** Vocabulary of the module-wide properties *)

(** Further classes of calls. *)
Definition is_supervisor {A : Type} (e : event A) : bool :=
  match e with
  | Pm2Find _ => true
  | _ => false
  end.

Definition is_enqueue {A : Type} (e : event A) : bool :=
  match e with
  | BulkEnqueue _ _ => true
  | _ => false
  end.

Definition is_probe {A : Type} (e : event A) : bool :=
  match e with
  | FetchNetworkId _ => true
  | _ => false
  end.

Definition is_quota {A : Type} (e : event A) : bool :=
  match e with
  | HasReachedTransactionQuota _ => true
  | _ => false
  end.

Definition is_start_sync {A : Type} (e : event A) : bool :=
  match e with
  | StartExplorerSync _ => true
  | _ => false
  end.

(** The call is a quota evaluation that answered [false]. *)
Definition quota_cleared (i : interaction) : bool :=
  match i with
  | Interaction e o =>
      match e in event T return outcome T -> bool with
      | HasReachedTransactionQuota _ => fun o =>
          match o with
          | Ok b => negb b
          | Raised _ => false
          end
      | _ => fun _ => false
      end o
  end.

(** The call is an explorer lookup that resolved to an explorer with, or
    without, a subscription. *)
Definition explorer_seen (subscribed : bool) (i : interaction) : bool :=
  match i with
  | Interaction e o =>
      match e in event T return outcome T -> bool with
      | GetExplorerById _ _ _ => fun o =>
          match o with
          | Ok (Some x) => Bool.eqb (present (stripeSubscription x)) subscribed
          | _ => false
          end
      | _ => fun _ => false
      end o
  end.

(** How a run ends.  Either the handler answers 200 and the logger has
    not been called; or it answers 400 with a message, and the last call
    of the run is the logger's, with that message, and it returned; or an
    error escapes the handler, and it is the error the logger call itself
    threw. *)
Definition reported (t : list interaction) (r : result Response) : Prop :=
  match r with
  | Responded x =>
      (code x = 200 /\ calls (@is_logger) t = false)
      \/ (exists m loc : string,
            x = send 400 (Text m)
            /\ list.last t = Some (Interaction (LoggerError m loc) (Ok tt)))
  | Unhandled m =>
      exists m0 loc : string,
        list.last t = Some (Interaction (LoggerError m0 loc) (Raised m))
  end.

(** The routes behind [GET]. *)
Definition read_routes (cfg : Config) : list (string * (Request -> prog Response)) :=
  [ ("syncStatus", syncStatus);
    ("getPlans", getPlans);
    ("search", search cfg);
    ("getExplorer", getExplorer);
    ("listExplorers", listExplorers) ].

(** The messages of [startSync]. *)
Definition no_active_subscription : string := "No active subscription for this explorer.".
Definition quota_reached : string :=
  "Transaction quota reached. Upgrade your plan to resume sync.".
Definition sync_rpc_unreachable : string :=
  "This explorer's RPC is not reachable. Please update it in order to start syncing.".

(** Alice asks to start, and to stop, the sync of an explorer. *)
Definition syncRequest (id : string) : Request := Sample.request Sample.alice id.

Definition is_local_cancel {A : Type} (e : event A) : bool :=
  match e with
  | CancelExplorerSubscription _ _ => true
  | _ => false
  end.

Definition is_subscription_update {A : Type} (e : event A) : bool :=
  match e with
  | SubscriptionsUpdate _ _ => true
  | _ => false
  end.

(** [P] holds of the parameters of the call if it is an update of an
    external subscription. *)
Definition update_with (P : SubscriptionUpdate -> bool) (i : interaction) : bool :=
  match i with
  | Interaction e _ =>
      match e with
      | SubscriptionsUpdate _ params => P params
      | _ => true
      end
  end.

(** [P] holds of the parameters of the call if it creates an external
    subscription. *)
Definition create_with (P : SubscriptionParams -> bool) (i : interaction) : bool :=
  match i with
  | Interaction e _ =>
      match e with
      | SubscriptionsCreate params => P params
      | _ => true
      end
  end.

(** The number of calls of class [P] in a trace. *)
Definition count_calls (P : forall A : Type, event A -> bool) (t : list interaction) : nat :=
  length (List.filter (fun i => match i with Interaction e _ => P _ e end) t).

(** An update that only schedules the cancelation at the period's end. *)
Definition schedules_cancelation (p : SubscriptionUpdate) : bool :=
  cancel_at_period_end p && negb (present (proration_behavior p))
  && negb (present (su_item p)).

(** An update that clears a scheduled cancelation, invoices the proration
    at once and swaps the billed item's price. *)
Definition swaps_price (p : SubscriptionUpdate) : bool :=
  negb (cancel_at_period_end p)
  && bool_decide (proration_behavior p = Some "always_invoice")
  && present (su_item p).

Definition is_not_logger {A : Type} (e : event A) : bool := negb (is_logger e).

Definition is_by_slug {A : Type} (e : event A) : bool :=
  match e with
  | GetPublicExplorerParamsBySlug _ => true
  | _ => false
  end.

(** [P] holds of the domain of the call if it stores a custom domain. *)
Definition domain_with (P : string -> bool) (i : interaction) : bool :=
  match i with
  | Interaction e _ =>
      match e with
      | CreateExplorerDomain _ d => P d
      | _ => true
      end
  end.

(** A domain [createDomain] lets through: not empty and not under the
    platform's root domain. *)
Definition custom_domain_allowed (cfg : Config) (d : string) : bool :=
  negb (String.eqb d EmptyString) && negb (endsWith d (appDomain cfg)).

(** The message for a reserved domain. *)
Definition reserved_domain_message (cfg : Config) : string :=
  "You can only have one " ++ appDomain cfg
    ++ " domain. If you'd like a different one, update the "
    ++ dquote ++ "Ethernal Domain" ++ dquote ++ " field, in the "
    ++ dquote ++ "Settings" ++ dquote ++ " panel.".

(** An invoiced subscription due in [days] days, without trial. *)
Definition invoiced_in (days : Z) (p : SubscriptionParams) : bool :=
  match collection_method p, days_until_due p with
  | Some method, Some due =>
      String.eqb method "send_invoice" && Z.eqb due days
      && negb (present (trial_period_days p))
      && negb (cancel_on_missing_payment_method p)
  | _, _ => false
  end.

(** A string without a dot. *)
Fixpoint dot_free (s : string) : bool :=
  match s with
  | EmptyString => true
  | String c s' => negb (Ascii.eqb c "."%char) && dot_free s'
  end.

(** The explorer respects the capabilities of its own plan: without the
    capability, the native token is [ether], the total supply is absent
    and the themes are the default ones. *)
Definition within_capabilities (e : Explorer) : Prop :=
  exists subscription : StripeSubscription,
    stripeSubscription e = Some subscription
    /\ (nativeToken (capabilities (stripePlan subscription)) = false ->
        token e = "ether")
    /\ (totalSupply (capabilities (stripePlan subscription)) = false ->
        ex_totalSupply e = None)
    /\ (branding (capabilities (stripePlan subscription)) = false ->
        themes e = DefaultThemes).

(** Bob asks for a domain on explorer 20; Alice asks for one on hers, and
    for an invoiced subscription. *)
Definition domainRequest (u : User) (d : string) : Request :=
  {| params_id := "20"; query_startSubscription := false; query_domain := None;
     uid := firebaseUserId u; user := u;
     stripePlanSlug := Some "explorer-150"; newStripePlanSlug := None;
     workspaceId := None; rpcServer := None; name := None; tracing := None;
     plan := None; domain := Some d; data_workspace := None;
     page := None; itemsPerPage := None; order := None; orderBy := None |}.

Definition is_repoint {A : Type} (e : event A) : bool :=
  match e with
  | UpdateExplorerWorkspace _ _ => true
  | _ => false
  end.

Definition is_settings_write {A : Type} (e : event A) : bool :=
  match e with
  | UpdateExplorerSettings _ _ => true
  | _ => false
  end.

(** The jobs [syncExplorers] enqueues for a list of explorers. *)
Definition sync_jobs (l : list Explorer) : list Job :=
  map (fun explorer =>
         {| job_name := "updateExplorerSyncingProcess-" ++ show_int (ex_id explorer);
            explorerSlug := slug explorer |}) l.

(** The workspace a settings update names differs from the explorer's. *)
Definition names_other_workspace (req : Request) (ws : Workspace) : bool :=
  truthy_str (data_workspace req)
  && negb (String.eqb (default EmptyString (data_workspace req)) (ws_name ws)).

Definition invalid_workspace : string := "Invalid workspace.".

(** Alice updates the settings of explorer 21, naming workspace [n]. *)
Definition settingsRequest (n : option string) : Request :=
  {| params_id := "21"; query_startSubscription := false; query_domain := None;
     uid := "alice"; user := Sample.alice;
     stripePlanSlug := None; newStripePlanSlug := None;
     workspaceId := None; rpcServer := None; name := None; tracing := None;
     plan := None; domain := None; data_workspace := n;
     page := None; itemsPerPage := None; order := None; orderBy := None |}.

Definition is_external_create {A : Type} (e : event A) : bool :=
  match e with
  | SubscriptionsCreate _ => true
  | _ => false
  end.

(** A trial subscription of [days] days that is cancelled when no payment
    method is on file at its end; charged, not invoiced. *)
Definition trial_of (days : Z) (p : SubscriptionParams) : bool :=
  match trial_period_days p with
  | Some d => Z.eqb d days
  | None => false
  end
  && cancel_on_missing_payment_method p
  && negb (present (collection_method p))
  && negb (present (days_until_due p)).

(** The call is a customer retrieval that resolved to a customer with a
    default payment source. *)
Definition card_on_file (i : interaction) : bool :=
  match i with
  | Interaction e o =>
      match e in event T return outcome T -> bool with
      | CustomersRetrieve _ => fun o =>
          match o with
          | Ok c => truthy_str (default_source c)
          | Raised _ => false
          end
      | _ => fun _ => false
      end o
  end.

(** The call is a user lookup that resolved to no user. *)
Definition no_user_seen (i : interaction) : bool :=
  match i with
  | Interaction e o =>
      match e in event T return outcome T -> bool with
      | GetUser _ _ => fun o =>
          match o with
          | Ok None => true
          | _ => false
          end
      | _ => fun _ => false
      end o
  end.

(** The call created explorer [x]. *)
Definition creates (x : Explorer) (i : interaction) : Prop :=
  match i with
  | Interaction e o =>
      match e in event T return outcome T -> Prop with
      | CreateExplorerFromWorkspace _ _ => fun o => o = Ok (Some x)
      | CreateExplorerWithWorkspace _ _ => fun o => o = Ok (Some x)
      | _ => fun _ => False
      end o
  end.

(** The parameters of the trial subscription [startTrial] creates. *)
Definition trialParams (cfg : Config) (u : User) (p : StripePlan) (x : Explorer) :
    SubscriptionParams :=
  {| sp_customer := stripeCustomerId u;
     sp_price := stripePriceId p;
     sp_explorerId := ex_id x;
     trial_period_days := Some (defaultExplorerTrialDays cfg);
     cancel_on_missing_payment_method := true;
     collection_method := None;
     days_until_due := None |}.

(** Alice asks for a trial of the plan [self-hosted], which is not
    public, on explorer 21. *)
Definition privateTrial : Request :=
  Sample.with_slugs (Some "self-hosted") None (Sample.request Sample.alice "21").

(** A creation request by someone the user lookup does not know. *)
Definition strangerCreates : Request :=
  {| params_id := EmptyString; query_startSubscription := false; query_domain := None;
     uid := "nobody"; user := Sample.alice;
     stripePlanSlug := None; newStripePlanSlug := None;
     workspaceId := Some 12; rpcServer := None; name := None; tracing := None;
     plan := None; domain := None; data_workspace := None;
     page := None; itemsPerPage := None; order := None; orderBy := None |}.

(** ** Checks that come first *)

(** The call is an explorer lookup that resolved to an explorer whose
    subscription is pending cancelation. *)
Definition pending_seen (i : interaction) : bool :=
  match i with
  | Interaction e o =>
      match e in event T return outcome T -> bool with
      | GetExplorerById _ _ _ => fun o =>
          match o with
          | Ok (Some x) =>
              match stripeSubscription x with
              | Some s => isPendingCancelation s
              | None => false
              end
          | _ => false
          end
      | _ => fun _ => false
      end o
  end.

(** The two local writes [updateSubscription] ends with: one or the
    other. *)
Definition is_plan_update {A : Type} (e : event A) : bool :=
  match e with
  | UpdateExplorerSubscription _ _ _ _ => true
  | _ => false
  end.

Definition is_revert {A : Type} (e : event A) : bool :=
  match e with
  | RevertExplorerSubscriptionCancelation _ _ => true
  | _ => false
  end.

Definition is_plan_lookup {A : Type} (e : event A) : bool :=
  match e with
  | GetStripePlan _ => true
  | _ => false
  end.

Definition revert_first : string := "Revert plan cancelation before choosing a new plan.".

(** Alice starts a trial of the plan [self-hosted], which is not public,
    on her explorer 21, then cancels that subscription, then selects
    [self-hosted] again. *)
Definition cancelIdle : Request := Sample.request Sample.alice "21".

Definition reselectPrivate : Request :=
  Sample.with_slugs None (Some "self-hosted") (Sample.request Sample.alice "21").

Definition w0_private_trial : World :=
  state_of (run world (startTrial Sample.cfg privateTrial) Sample.w0).

Definition w0_private_cancelled : World :=
  state_of (run world (cancelSubscription cancelIdle) w0_private_trial).

(** The call is a user lookup that resolved to user [id] with the trial
    still available. *)
Definition trial_available_seen (id : Z) (i : interaction) : bool :=
  match i with
  | Interaction e o =>
      match e in event T return outcome T -> bool with
      | GetUser _ _ => fun o =>
          match o with
          | Ok (Some u) => Z.eqb (user_id u) id && canTrial u
          | _ => false
          end
      | _ => fun _ => false
      end o
  end.

(** The call flips the trial flag of user [id]. *)
Definition flips (id : Z) (i : interaction) : bool :=
  match i with
  | Interaction e _ =>
      match e with
      | DisableUserTrial userId => Z.eqb userId id
      | _ => false
      end
  end.

Definition startTrial_location : string := "post.api.explorers.startTrial".

Definition trial_missing_parameter : string := "Missing parameter".

(** Bob, who has used his trial, asks for one on explorer 21 without
    naming a plan. *)
Definition trialWithoutPlan : Request := Sample.request Sample.bob "21".

(** The sample deployment after Alice's trial of [explorer-150] on
    explorer 21 has started. *)
Definition w0_trial_started : World :=
  state_of (run world (startTrial Sample.cfg trialRequest) Sample.w0).




(** ** The user model (models/user.js)

    The class methods [safeCreate] and [safeCreateWorkspace] of the
    Sequelize model.  Attribute objects are lists of keys and values;
    the queries and inserts of the ORM are calls, as for the handlers;
    [sanitize] comes from [lib/utils] and is a parameter. *)

Inductive value :=
| VNull
| VBool (b : bool)
| VNum (n : Z)
| VStr (s : string).

Definition fields : Type := list (string * value).

(** A string argument that may be absent, as a value. *)
Definition str_value (o : option string) : value :=
  match o with
  | Some s => VStr s
  | None => VNull
  end.

Inductive ormCall : Type -> Type :=
| UserFindOne (firebaseUserId email : string) : ormCall (option fields)
| UserCreate (attributes : fields) : ormCall fields
| CreateWorkspace (attributes : fields) : ormCall fields.

Inductive mprog (R : Type) : Type :=
| MRet (r : R)
| MThrow (thrown : string)
| MCall {A : Type} (c : ormCall A) (k : outcome A -> mprog R).
Arguments MRet {R} r.
Arguments MThrow {R} thrown.
Arguments MCall {R A} c k.

Inductive ormInteraction :=
| OrmInteraction {A : Type} (c : ormCall A) (o : outcome A).

Definition ormEnvironment (W : Type) : Type :=
  forall A : Type, ormCall A -> W -> outcome A * W.

Fixpoint mrun {W R : Type} (env : ormEnvironment W) (p : mprog R) (w : W) :
    result R * W * list ormInteraction :=
  match p with
  | MRet r => (Responded r, w, [])
  | MThrow m => (Unhandled m, w, [])
  | MCall c k =>
      let '(o, w1) := env _ c w in
      let '(r, w2, t) := mrun env (k o) w1 in
      (r, w2, OrmInteraction c o :: t)
  end.

(** [every_orm_run p Q]: [Q] holds of the trace and the result of [p]
    whatever the ORM answers. *)
Fixpoint every_orm_run {R : Type} (p : mprog R)
    (Q : list ormInteraction -> result R -> Prop) : Prop :=
  match p with
  | MRet r => Q [] (Responded r)
  | MThrow m => Q [] (Unhandled m)
  | MCall c k => forall o, every_orm_run (k o) (fun t r => Q (OrmInteraction c o :: t) r)
  end.

Definition is_user_create (i : ormInteraction) : bool :=
  match i with
  | OrmInteraction (UserCreate _) _ => true
  | _ => false
  end.

(** The call is the lookup of an existing user, and it found one. *)
Definition existing_user_found (i : ormInteraction) : bool :=
  match i with
  | OrmInteraction c o =>
      match c in ormCall T return outcome T -> bool with
      | UserFindOne _ _ => fun o =>
          match o with
          | Ok (Some _) => true
          | _ => false
          end
      | _ => fun _ => false
      end o
  end.

Definition missing_parameter : string := "[User.createUser] Missing parameter".

Section UserModel.

Variable sanitize : fields -> fields.

(** The attributes [safeCreate] hands to [User.create], before
    [sanitize]. *)
Definition userAttributes
    (firebaseUserId email apiKey stripeCustomerId plan explorerSubscriptionId : option string) :
    fields :=
  [ ("firebaseUserId", str_value firebaseUserId);
    ("email", str_value email);
    ("apiKey", str_value apiKey);
    ("stripeCustomerId", str_value stripeCustomerId);
    ("plan", str_value plan);
    ("explorerSubscriptionId", str_value explorerSubscriptionId) ].

(** [static async safeCreate(firebaseUserId, email, apiKey,
    stripeCustomerId, plan, explorerSubscriptionId, transaction)].  It
    throws a string, not an [Error]; it resolves to [undefined] ([None])
    when a user exists. *)
Definition safeCreate
    (firebaseUserId email apiKey stripeCustomerId plan explorerSubscriptionId : option string)
    (transaction : option string) : mprog (option fields) :=
  if negb (truthy_str firebaseUserId) || negb (truthy_str email)
     || negb (truthy_str apiKey) || negb (truthy_str stripeCustomerId)
     || negb (truthy_str plan)
  then MThrow missing_parameter
  else
    MCall (UserFindOne (default EmptyString firebaseUserId) (default EmptyString email))
      (fun o =>
         match o with
         | Raised m => MThrow m
         | Ok (Some existingUser) => MRet None
         | Ok None =>
             MCall (UserCreate (sanitize
                      (userAttributes firebaseUserId email apiKey stripeCustomerId plan
                         explorerSubscriptionId)))
               (fun o =>
                  match o with
                  | Ok created => MRet (Some created)
                  | Raised m => MThrow m
                  end)
         end).

(** [Array.prototype.indexOf]: the first index of [x], or [-1]. *)
Fixpoint indexOf (l : list string) (x : string) : Z :=
  match l with
  | [] => -1
  | y :: l' =>
      if String.eqb y x then 0
      else let r := indexOf l' x in if Z.ltb r 0 then -1 else r + 1
  end.

Record WorkspaceSettings := {
  defaultAccount : value;
  gasLimit : value;
  gasPrice : value
}.

(** The [data] object of [safeCreateWorkspace]. *)
Record WorkspaceInput := {
  in_name : value;
  in_public : value;
  in_chain : value;
  in_networkId : value;
  in_rpcServer : value;
  in_settings : option WorkspaceSettings;
  in_integrations : option (list string)
}.

(** [data.settings && data.settings.f]. *)
Definition setting (data : WorkspaceInput) (f : WorkspaceSettings -> value) : value :=
  match in_settings data with
  | Some s => f s
  | None => VNull
  end.

(** [data.integrations && data.integrations.indexOf(x) > -1]. *)
Definition integration (data : WorkspaceInput) (x : string) : value :=
  match in_integrations data with
  | Some l => VBool (Z.ltb (-1) (indexOf l x))
  | None => VNull
  end.

Definition workspaceAttributes (data : WorkspaceInput) : fields :=
  [ ("name", in_name data);
    ("public", in_public data);
    ("chain", in_chain data);
    ("networkId", in_networkId data);
    ("rpcServer", in_rpcServer data);
    ("defaultAccount", setting data defaultAccount);
    ("gasLimit", setting data gasLimit);
    ("gasPrice", setting data gasPrice);
    ("apiEnabled", integration data "api");
    ("alchemyIntegrationEnabled", integration data "alchemy") ].

(** [safeCreateWorkspace(data)]. *)
Definition safeCreateWorkspace (data : WorkspaceInput) : mprog fields :=
  MCall (CreateWorkspace (sanitize (workspaceAttributes data)))
    (fun o =>
       match o with
       | Ok created => MRet created
       | Raised m => MThrow m
       end).

End UserModel.

(** The value under key [k] of an attribute object. *)
Definition attribute (k : string) (o : fields) : option value :=
  snd <$> find (fun kv => String.eqb (fst kv) k) o.

(** *** An in-memory user table, for running the model *)

(** What the repository's test of [sanitize] shows: null keys are
    cleared. *)
Definition clear_null (o : fields) : fields :=
  List.filter (fun kv => match snd kv with VNull => false | _ => true end) o.

Definition has_attribute (k v : string) (row : fields) : bool :=
  match attribute k row with
  | Some (VStr s) => String.eqb s v
  | _ => false
  end.

Definition userTable : ormEnvironment (list fields) :=
  fun A c rows =>
    match c in ormCall T return outcome T * list fields with
    | UserFindOne fid mail =>
        (Ok (find (fun row => has_attribute "firebaseUserId" fid row
                              || has_attribute "email" mail row) rows), rows)
    | UserCreate attributes => (Ok attributes, List.app rows [attributes])
    | CreateWorkspace attributes => (Ok attributes, rows)
    end.

Definition aliceRow : fields :=
  [ ("firebaseUserId", VStr "alice"); ("email", VStr "alice@example.org") ].

(** * Properties *)

(** ** String helpers on concrete inputs *)

Example endsWith_root :
  endsWith "demo.tryethernal.com" "tryethernal.com" = true
  /\ endsWith "explorer.example.org" "tryethernal.com" = false
  /\ endsWith "com" "tryethernal.com" = false.
Proof. repeat split. Qed.

Example split_head_slug :
  split_head ".tryethernal.com" "demo.tryethernal.com" = "demo"
  /\ split_head ".tryethernal.com" "a.b.tryethernal.com" = "a.b"
  /\ split_head ".tryethernal.com" "xtryethernal.com" = "xtryethernal.com".
Proof. repeat split. Qed.

Example show_int_decimal : show_int 42 = "42" /\ show_int 0 = "0".
Proof. split; reflexivity. Qed.

(** ** Reasoning about runs *)

Section RunFacts.

Context {W : Type}.
Variable env : environment W.

Lemma run_call {R A : Type} (e : event A) (k : outcome A -> prog R) (w w1 : W)
    (o : outcome A) :
  answers env e w o w1 ->
  run env (Call e k) w =
    (response_of (run env (k o) w1), state_of (run env (k o) w1),
     Interaction e o :: trace_of (run env (k o) w1)).
Proof.
  unfold answers. intros H. simpl. rewrite H.
  destruct (run env (k o) w1) as [[r w2] t]. reflexivity.
Qed.

Lemma every_run_sound {R : Type} (p : prog R) :
  forall (Q : list interaction -> result R -> Prop) (w : W),
    every_run p Q ->
    Q (trace_of (run env p w)) (response_of (run env p w)).
Proof.
  induction p as [r | m | A e k IH]; intros Q w H; simpl in *.
  - exact H.
  - exact H.
  - destruct (env A e w) as [o w1].
    specialize (IH o _ w1 (H o)).
    destruct (run env (k o) w1) as [[r w2] t]. exact IH.
Qed.

End RunFacts.

(** Evaluate one call of a run whose answer is a hypothesis. *)
Ltac answer_with H :=
  let E := fresh "E" in
  pose proof H as E; unfold answers in E; cbn; rewrite E; clear E; cbn.


(** ** Sync status *)

(** C4. For a [syncStatus] call on an existing explorer the status is
    decided in a fixed order.  If the cached health check of the
    explorer's workspace says the RPC is not reachable, the result is
    [unreachable] and neither the quota evaluator nor the process
    supervisor is consulted (so a reached quota does not matter).
    Otherwise, if the quota evaluator answers [true], the result is
    [transactionQuotaReached] and the supervisor is not consulted.
    Otherwise the result is the state the supervisor reports, [stopped]
    when it knows no such process. *)
Theorem syncStatus_evaluation_order :
  forall (W : Type) (env : environment W) (req : Request) (explorer : Explorer)
         (ws : Workspace) (w w1 : W),
    params_id req <> EmptyString ->
    answers env (GetExplorerById (user_id (user req)) (params_id req) false) w
      (Ok (Some explorer)) w1 ->
    workspace explorer = Some ws ->
    (unreachable ws = true ->
       run env (syncStatus req) w =
         (Responded (send 200 (JsonStatus "unreachable")), w1,
          [Interaction (GetExplorerById (user_id (user req)) (params_id req) false)
             (Ok (Some explorer))]))
    /\ (unreachable ws = false ->
        forall w2,
          answers env (HasReachedTransactionQuota (ex_id explorer)) w1 (Ok true) w2 ->
          run env (syncStatus req) w =
            (Responded (send 200 (JsonStatus "transactionQuotaReached")), w2,
             [Interaction (GetExplorerById (user_id (user req)) (params_id req) false)
                (Ok (Some explorer));
              Interaction (HasReachedTransactionQuota (ex_id explorer)) (Ok true)]))
    /\ (unreachable ws = false ->
        forall w2 w3 pm2Process,
          answers env (HasReachedTransactionQuota (ex_id explorer)) w1 (Ok false) w2 ->
          answers env (Pm2Find (slug explorer)) w2 (Ok pm2Process) w3 ->
          run env (syncStatus req) w =
            (Responded (send 200 (JsonStatus
               (match pm2Process with Some p => status p | None => "stopped" end))), w3,
             [Interaction (GetExplorerById (user_id (user req)) (params_id req) false)
                (Ok (Some explorer));
              Interaction (HasReachedTransactionQuota (ex_id explorer)) (Ok false);
              Interaction (Pm2Find (slug explorer)) (Ok pm2Process)])).
Proof.
  intros W env req explorer ws w w1 Hid Hget Hws.
  assert (Hne : String.eqb (params_id req) EmptyString = false)
    by (apply String.eqb_neq; exact Hid).
  unfold syncStatus, handler, unreachable.
  rewrite Hne. answer_with Hget. rewrite Hws. cbn.
  repeat split.
  - intros Hu. destruct (rpcHealthCheck ws) as [[[|]]|]; try discriminate. reflexivity.
  - intros Hu w2 Hq.
    destruct (rpcHealthCheck ws) as [[[|]]|]; try discriminate; cbn;
      answer_with Hq; reflexivity.
  - intros Hu w2 w3 p Hq Hp.
    destruct (rpcHealthCheck ws) as [[[|]]|]; try discriminate; cbn;
      answer_with Hq; cbn; answer_with Hp; reflexivity.
Qed.

Lemma syncStatus_evaluation_order_witness :
  response_of (run world (syncStatus (Sample.request Sample.alice "21")) Sample.w0)
  = Responded (send 200 (JsonStatus "unreachable")).
Proof.
  pose proof (syncStatus_evaluation_order World world
                (Sample.request Sample.alice "21") idleExplorer idleWorkspace
                Sample.w0 Sample.w0) as H.
  destruct H as [H _].
  - discriminate.
  - vm_compute. reflexivity.
  - reflexivity.
  - rewrite H; reflexivity.
Defined.

(** ** Explorer creation: input shapes *)




(** ** Starting a trial *)

(** Explore every answer the collaborators can give to a handler. *)
Ltac explore :=
  repeat (cbn;
    match goal with
    | |- forall _ : outcome _, _ => intros [?|?]
    | |- every_run ?p _ =>
        match p with
        | context [match ?x with _ => _ end] => destruct x eqn:?
        | context [if ?x then _ else _] => destruct x eqn:?
        end
    end).

Ltac trace_facts :=
  cbn; repeat split; intros; try discriminate; try reflexivity; try assumption.




(** ** Changing the plan of a subscription *)

(** C3, as the code has it.  On an explorer whose subscription is pending
    cancelation, [updateSubscription] (the [PUT /:id/subscription] route)
    with a slug other than the current plan's fails with [Conflict] right
    after the explorer lookup, with no call to the billing provider and no
    write.  With the current plan's slug the plan is looked up first.  If
    the lookup resolves to no plan, or to a plan that is not public, the
    call fails with [NotFound] and nothing is reverted.  If it resolves to
    a public plan, and the collaborators answer, the call succeeds and the
    one local write is [revertExplorerSubscriptionCancelation], not
    [updateExplorerSubscription]: both when the record carries an external
    subscription id (which is then retrieved and updated first) and when
    it does not.  Whatever the collaborators answer, a run in which the
    explorer lookup showed a subscription pending cancelation never calls
    [updateExplorerSubscription], and reports success only after a public
    plan was found and the revert went through. *)
Theorem updateSubscription_pending_cancelation :
  forall (W : Type) (env : environment W) (req : Request) (newSlug : string)
         (explorer : Explorer) (current : StripeSubscription) (w w1 : W),
    newStripePlanSlug req = Some newSlug ->
    newSlug <> EmptyString ->
    answers env (GetExplorerById (user_id (user req)) (params_id req) false) w
      (Ok (Some explorer)) w1 ->
    stripeSubscription explorer = Some current ->
    isPendingCancelation current = true ->
    let lookup :=
      Interaction (GetExplorerById (user_id (user req)) (params_id req) false)
        (Ok (Some explorer)) in
    let conflict := "Revert plan cancelation before choosing a new plan." in
    let location := "post.api.explorers.id.updateSubscription" in
    let revert :=
      RevertExplorerSubscriptionCancelation (user_id (user req)) (ex_id explorer) in
    (plan_slug (stripePlan current) <> newSlug ->
     forall w2,
       answers env (LoggerError conflict location) w1 (Ok tt) w2 ->
       run env (updateSubscription req) w =
         (Responded (send 400 (Text conflict)), w2,
          [lookup; Interaction (LoggerError conflict location) (Ok tt)])
       /\ kind_of conflict = Some Conflict)
    /\ (plan_slug (stripePlan current) = newSlug ->
        forall (found : option StripePlan) (w2 : W),
          answers env (GetStripePlan newSlug) w1 (Ok found) w2 ->
          (match found with
           | Some p => public p = false
           | None => True
           end ->
           forall w3,
             answers env (LoggerError plan_not_found location) w2 (Ok tt) w3 ->
             run env (updateSubscription req) w =
               (Responded (send 400 (Text plan_not_found)), w3,
                [lookup;
                 Interaction (GetStripePlan newSlug) (Ok found);
                 Interaction (LoggerError plan_not_found location) (Ok tt)])
             /\ kind_of plan_not_found = Some NotFound)
          /\ (forall target : StripePlan,
                found = Some target ->
                public target = true ->
                (truthy_str (stripeId current) = false ->
                 forall w3,
                   answers env revert w2 (Ok tt) w3 ->
                   run env (updateSubscription req) w =
                     (Responded (sendStatus 200), w3,
                      [lookup;
                       Interaction (GetStripePlan newSlug) (Ok (Some target));
                       Interaction revert (Ok tt)]))
                /\ (forall (sid item : string) (retrieved : BillingSubscription)
                           (w3 w4 w5 : W),
                      stripeId current = Some sid ->
                      sid <> EmptyString ->
                      answers env (SubscriptionsRetrieve sid true) w2 (Ok retrieved) w3 ->
                      head (sub_items retrieved) = Some item ->
                      let update :=
                        SubscriptionsUpdate (sub_id retrieved)
                          {| cancel_at_period_end := false;
                             proration_behavior := Some "always_invoice";
                             su_item := Some (item, stripePriceId target) |} in
                      answers env update w3 (Ok tt) w4 ->
                      answers env revert w4 (Ok tt) w5 ->
                      run env (updateSubscription req) w =
                        (Responded (sendStatus 200), w5,
                         [lookup;
                          Interaction (GetStripePlan newSlug) (Ok (Some target));
                          Interaction (SubscriptionsRetrieve sid true) (Ok retrieved);
                          Interaction update (Ok tt);
                          Interaction revert (Ok tt)]))))
    /\ (forall (req' : Request) (w' : W),
          let t := trace_of (run env (updateSubscription req') w') in
          let r := response_of (run env (updateSubscription req') w') in
          existsb pending_seen t = true ->
          calls (@is_plan_update) t = false
          /\ (succeeded r = true ->
              existsb public_plan_found t = true /\ commits (@is_revert) t = true)).
Proof.
  intros W env req newSlug explorer current w w1 Hslug Hne Hget Hsub Hpending.
  assert (Hne' : String.eqb newSlug EmptyString = false)
    by (apply String.eqb_neq; exact Hne).
  cbv zeta. split; [| split].
  - intros Hdiff w2 Hlog.
    unfold updateSubscription, handler, require_str.
    rewrite Hslug, Hne'. answer_with Hget. rewrite Hsub. cbn. rewrite Hpending.
    apply String.eqb_neq in Hdiff. rewrite Hdiff. cbn.
    answer_with Hlog. split; reflexivity.
  - intros Hsame found w2 Hplan.
    apply String.eqb_eq in Hsame.
    unfold plan_not_found, updateSubscription, handler, require_str, deref_first.
    rewrite Hslug, Hne'. answer_with Hget. rewrite Hsub. cbn. rewrite Hpending.
    rewrite Hsame. cbn. answer_with Hplan.
    split.
    + intros Hfound w3 Hlog.
      destruct found as [p |]; cbn; [rewrite Hfound; cbn |];
        answer_with Hlog; split; reflexivity.
    + intros target -> Hpublic. cbn. rewrite Hpublic. cbn.
      split.
      * intros Hnone w3 Hrevert. rewrite Hnone. cbn.
        answer_with Hrevert. reflexivity.
      * intros sid item retrieved w3 w4 w5 Hsid Hsidne Hretrieve Hitem Hupdate Hrevert.
        apply String.eqb_neq in Hsidne.
        rewrite Hsid. cbn. rewrite Hsidne. cbn.
        answer_with Hretrieve. rewrite Hitem. cbn.
        answer_with Hupdate. answer_with Hrevert. reflexivity.
  - intros req' w'.
    apply (every_run_sound env (updateSubscription req')
      (fun t r =>
         existsb pending_seen t = true ->
         calls (@is_plan_update) t = false
         /\ (succeeded r = true ->
             existsb public_plan_found t = true /\ commits (@is_revert) t = true))).
    unfold updateSubscription, handler, invoke, deref_first, require_str, require, throw_if.
    explore; cbn; intros Hseen;
      repeat match goal with
      | H : ?x = _, H' : context [?x] |- _ => rewrite H in H'
      | H : ?x = _ |- context [?x] => rewrite H
      end;
      cbn in *; try discriminate; repeat split; intros; try discriminate;
      repeat match goal with
      | H : context [public ?p] |- _ => destruct (public p)
      end;
      cbn in *; try discriminate; reflexivity.
Qed.

Lemma updateSubscription_pending_cancelation_witness :
  response_of (run world (updateSubscription (changeTo "explorer-500")) w0_cancelled)
  = Responded (send 400 (Text "Revert plan cancelation before choosing a new plan."))
  /\ response_of (run world (updateSubscription (changeTo "explorer-150")) w0_cancelled)
     = Responded (sendStatus 200)
  /\ s_isPendingCancelation <$>
       subscriptions (state_of (run world (updateSubscription (changeTo "explorer-150"))
                                  w0_cancelled)) !! 20
     = Some false.
Proof.
  pose proof (updateSubscription_pending_cancelation World world (changeTo "explorer-500")
                "explorer-500" (demoExplorer true) (demoSubscription true)
                w0_cancelled w0_cancelled) as A.
  pose proof (updateSubscription_pending_cancelation World world (changeTo "explorer-150")
                "explorer-150" (demoExplorer true) (demoSubscription true)
                w0_cancelled w0_cancelled) as B.
  cbv zeta in A, B.
  destruct A as [A _];
    [reflexivity | discriminate | vm_compute; reflexivity | reflexivity | reflexivity |].
  destruct B as [_ [B _]];
    [reflexivity | discriminate | vm_compute; reflexivity | reflexivity | reflexivity |].
  split; [| split].
  - destruct (A ltac:(discriminate)
                (set_logged (cons ("Revert plan cancelation before choosing a new plan.",
                                   "post.api.explorers.id.updateSubscription"))
                   w0_cancelled)) as [A1 _]; [reflexivity |].
    rewrite A1. reflexivity.
  - destruct (B eq_refl (Some Sample.explorer150) w0_cancelled) as [_ B1].
    + vm_compute; reflexivity.
    + destruct (B1 Sample.explorer150 eq_refl eq_refl) as [_ B2].
      pose (upd := SubscriptionsUpdate "sub_1"
                     {| cancel_at_period_end := false;
                        proration_behavior := Some "always_invoice";
                        su_item := Some ("si_1", "price_150") |}).
      pose (w4 := snd (world _ upd w0_cancelled)).
      pose (w5 := snd (world _ (RevertExplorerSubscriptionCancelation 1 20) w4)).
      rewrite (B2 "sub_1" "si_1" Sample.sub1 w0_cancelled w4 w5);
        try reflexivity; try discriminate; vm_compute; reflexivity.
  - vm_compute. reflexivity.
Defined.

(** C3 in the specification's wording fails when the current plan is not
    public.  Alice starts a trial of [self-hosted] on explorer 21 and
    cancels it; both calls succeed and leave the subscription pending
    cancelation.  Selecting [self-hosted] again, the current plan's own
    slug, is then answered [Can't find plan.], and the subscription stays
    pending cancelation. *)
Lemma updateSubscription_same_plan_not_public :
  response_of (run world (startTrial Sample.cfg privateTrial) Sample.w0)
  = Responded (sendStatus 200)
  /\ response_of (run world (cancelSubscription cancelIdle) w0_private_trial)
     = Responded (sendStatus 200)
  /\ (fun s => (plan_slug (stripePlan s), isPendingCancelation s))
       <$> subscription_view w0_private_cancelled 21
     = Some ("self-hosted", true)
  /\ newStripePlanSlug reselectPrivate = Some "self-hosted"
  /\ response_of (run world (updateSubscription reselectPrivate) w0_private_cancelled)
     = Responded (send 400 (Text plan_not_found))
  /\ succeeded (response_of (run world (updateSubscription reselectPrivate)
                               w0_private_cancelled)) = false
  /\ s_isPendingCancelation <$>
       subscriptions (state_of (run world (updateSubscription reselectPrivate)
                                  w0_private_cancelled)) !! 21
     = Some true.
Proof.
  repeat split; vm_compute; reflexivity.
Qed.

(** ** Public lookup by domain *)

(** In the reference persistence layer the custom-domain lookup only ever
    returns an explorer whose plan has the custom-domain capability (the
    behaviour the comment at the call site describes). *)
Lemma world_custom_domain_gated (w : World) (d : string) (explorer : Explorer) :
  fst (world _ (GetPublicExplorerParamsByDomain d) w) = Ok (Some explorer) ->
  has_custom_domain explorer = true.
Proof.
  unfold world. cbn [op_name].
  destruct (existsb _ (outages w)); cbn; [discriminate |].
  intros H. injection H as H. apply find_some in H. apply H.
Qed.

(** C5. A public lookup of a domain other than the platform's app
    subdomain resolves in a fixed order.  When the domain ends in the
    platform root, the slug lookup comes first and a hit is final (an
    explorer without subscription fails with [Inactive]); when it misses,
    or when the domain does not end in the platform root, the
    custom-domain lookup decides: nothing found fails with [NotFound], an
    explorer without subscription fails with [Inactive], and an explorer
    with a subscription is returned filtered by its plan's capabilities.
    The custom-domain lookup of the reference persistence layer yields
    nothing for an explorer whose plan lacks the custom-domain
    capability. *)
Theorem search_resolution :
  forall (W : Type) (env : environment W) (cfg : Config) (req : Request)
         (queried : string) (w : W),
    query_domain req = Some queried ->
    queried <> EmptyString ->
    queried <> "app." ++ appDomain cfg ->
    let bySlug :=
      GetPublicExplorerParamsBySlug (split_head ("." ++ appDomain cfg) queried) in
    (endsWith queried (appDomain cfg) = true ->
     forall (explorer : Explorer) (w1 : W),
       answers env bySlug w (Ok (Some explorer)) w1 ->
       (forall subscription : StripeSubscription,
          stripeSubscription explorer = Some subscription ->
          run env (search cfg req) w =
            (Responded (send 200 (JsonExplorer
               (filterByCapabilities (capabilities (stripePlan subscription)) explorer))),
             w1, [Interaction bySlug (Ok (Some explorer))]))
       /\ (stripeSubscription explorer = None ->
           forall w2 : W,
             answers env (LoggerError explorer_inactive search_location) w1 (Ok tt) w2 ->
             run env (search cfg req) w =
               (Responded (send 400 (Text explorer_inactive)), w2,
                [Interaction bySlug (Ok (Some explorer));
                 Interaction (LoggerError explorer_inactive search_location) (Ok tt)])))
    /\ (endsWith queried (appDomain cfg) = true ->
        forall w1 : W,
          answers env bySlug w (Ok None) w1 ->
          custom_domain_fallback env cfg req queried w w1 [Interaction bySlug (Ok None)])
    /\ (endsWith queried (appDomain cfg) = false ->
        custom_domain_fallback env cfg req queried w w [])
    /\ kind_of explorer_not_found = Some NotFound
    /\ kind_of explorer_inactive = Some Inactive
    /\ (forall (w0 : World) (d : string) (explorer : Explorer),
          fst (world _ (GetPublicExplorerParamsByDomain d) w0) = Ok (Some explorer) ->
          has_custom_domain explorer = true).
Proof.
  intros W env cfg req queried w Hq Hne Happ.
  apply String.eqb_neq in Hne. apply String.eqb_neq in Happ.
  cbv zeta.
  unfold custom_domain_fallback, explorer_inactive, explorer_not_found, search_location,
    search, handler, require_str.
  rewrite Hq. cbn. rewrite Hne. cbn. cbn in Happ. rewrite Happ.
  repeat split; try (intros; eapply world_custom_domain_gated; eassumption).
  - intros s Hs. rewrite H. answer_with H0. rewrite Hs. reflexivity.
  - intros Hs w2 Hlog. rewrite H. answer_with H0. rewrite Hs. cbn.
    answer_with Hlog. reflexivity.
  - intros w2 w3 Hd Hlog. rewrite H. answer_with H0. answer_with Hd.
    answer_with Hlog. reflexivity.
  - intros ex w2 w3 Hd Hs Hlog. rewrite H. answer_with H0. answer_with Hd.
    rewrite Hs. cbn. answer_with Hlog. reflexivity.
  - intros ex s w2 Hd Hs. rewrite H. answer_with H0. answer_with Hd.
    rewrite Hs. reflexivity.
  - intros w2 w3 Hd Hlog. rewrite H. answer_with Hd. answer_with Hlog. reflexivity.
  - intros ex w2 w3 Hd Hs Hlog. rewrite H. answer_with Hd.
    rewrite Hs. cbn. answer_with Hlog. reflexivity.
  - intros ex s w2 Hd Hs. rewrite H. answer_with Hd. rewrite Hs. reflexivity.
Qed.

Lemma search_resolution_witness :
  response_of (run world (search Sample.cfg (lookup "nope.tryethernal.com")) Sample.w0)
  = Responded (send 400 (Text explorer_not_found)).
Proof.
  pose proof (search_resolution World world Sample.cfg (lookup "nope.tryethernal.com")
                "nope.tryethernal.com" Sample.w0) as H.
  cbv zeta in H.
  destruct H as (_ & H & _).
  - reflexivity.
  - discriminate.
  - intros E. vm_compute in E. discriminate E.
  - specialize (H eq_refl Sample.w0).
    destruct H as [H _]; [vm_compute; reflexivity |].
    rewrite (H Sample.w0
               (set_logged (cons (explorer_not_found, search_location)) Sample.w0));
      [reflexivity | vm_compute; reflexivity | vm_compute; reflexivity].
Defined.

(** ** One explorer per workspace *)

















(** ** The trial flag *)

Lemma find_user_after_flip (l : list User) (id flipped : Z) :
  canTrial <$> find (fun u => Z.eqb (user_id u) id) l = Some false ->
  canTrial <$> find (fun u => Z.eqb (user_id u) id)
                 (map (fun u => if Z.eqb (user_id u) flipped then disable_trial u else u) l)
  = Some false.
Proof.
  induction l as [| u l IH]; cbn; [discriminate |].
  destruct (Z.eqb (user_id u) flipped); cbn;
    destruct (Z.eqb (user_id u) id); cbn; auto.
Qed.

(** No call to the reference collaborators gives a used trial back. *)
Lemma world_keeps_trial_used {A : Type} (e : event A) (w : World) (id : Z) :
  trial_used w id -> trial_used (snd (world _ e w)) id.
Proof.
  unfold trial_used, find_user_by_id, world. intros H.
  destruct (existsb _ (outages w)); [exact H |].
  destruct e; cbn; repeat case_match; cbn; try exact H.
  apply find_user_after_flip. exact H.
Qed.

Lemma run_keeps_trial_used {R : Type} (p : prog R) :
  forall (w : World) (id : Z),
    trial_used w id -> trial_used (state_of (run world p w)) id.
Proof.
  induction p as [r | m | A e k IH]; intros w id H; cbn.
  - exact H.
  - exact H.
  - pose proof (world_keeps_trial_used e w id H) as H1.
    destruct (world A e w) as [o w1]. cbn in H1.
    specialize (IH o w1 id H1).
    destruct (run world (k o) w1) as [[r w2] t]. exact IH.
Qed.

(** A trial flip that goes through marks the user's trial as used. *)
Lemma world_flip_uses_trial (w : World) (id : Z) :
  is_Some (find_user_by_id w id) ->
  fst (world _ (DisableUserTrial id) w) = Ok tt ->
  trial_used (snd (world _ (DisableUserTrial id) w)) id.
Proof.
  unfold trial_used, find_user_by_id, world. cbn [op_name].
  destruct (existsb _ (outages w)); [discriminate |]. cbn.
  intros [u Hu] _. revert Hu.
  induction (users w) as [| x l IH]; cbn; [discriminate |].
  destruct (Z.eqb (user_id x) id) eqn:E; cbn; [rewrite E; reflexivity |].
  rewrite E. exact IH.
Qed.

(** Only [startTrial] flips the flag, after the subscription record has
    been persisted, and the flip going through is the same as
    [startTrial] succeeding. *)
Lemma flip_only_in_startTrial (W : Type) (env : environment W) (cfg : Config)
    (route : string) (h : Request -> prog Response) (req : Request) (w : W) :
  In (route, h) (routes cfg) ->
  let t := trace_of (run env (h req) w) in
  let r := response_of (run env (h req) w) in
  (calls (@is_trial_flip) t = true ->
     route = "startTrial" /\ commits (@is_subscription_record) t = true)
  /\ (route = "startTrial" -> succeeded r = true -> commits (@is_trial_flip) t = true)
  /\ (commits (@is_trial_flip) t = true -> succeeded r = true).
Proof.
  intros Hin.
  apply (every_run_sound env (h req)
    (fun t r =>
       (calls (@is_trial_flip) t = true ->
          route = "startTrial" /\ commits (@is_subscription_record) t = true)
       /\ (route = "startTrial" -> succeeded r = true -> commits (@is_trial_flip) t = true)
       /\ (commits (@is_trial_flip) t = true -> succeeded r = true))).
  cbn in Hin.
  repeat (destruct Hin as [Hin | Hin]; [injection Hin as <- <- |]); [.. | contradiction].
  all: unfold startTrial, syncExplorers, stopSync, startSync, syncStatus,
         updateSubscription, cancelSubscription, startCryptoSubscription,
         deleteExplorer, getPlans, createDomain, updateBranding, updateSettings,
         createExplorer, createFromWorkspace, createWithWorkspace, setupSubscription,
         search, getExplorer, listExplorers,
         handler, invoke, deref, deref_first, require_str, require, throw_if.
  all: explore; trace_facts.
Qed.

(** Across the module a trial flag is only flipped for a user whose
    lookup, earlier in the same run, showed the trial still available;
    and no run flips twice. *)
Lemma flip_follows_lookup (W : Type) (env : environment W) (cfg : Config)
    (route : string) (h : Request -> prog Response) (req : Request) (w : W) :
  In (route, h) (routes cfg) ->
  let t := trace_of (run env (h req) w) in
  (forall id : Z,
     existsb (flips id) t = true -> existsb (trial_available_seen id) t = true)
  /\ (count_calls (@is_trial_flip) t <= 1)%nat.
Proof.
  intros Hin.
  apply (every_run_sound env (h req)
    (fun t _ =>
       (forall id : Z,
          existsb (flips id) t = true -> existsb (trial_available_seen id) t = true)
       /\ (count_calls (@is_trial_flip) t <= 1)%nat)).
  cbn in Hin.
  repeat (destruct Hin as [Hin | Hin]; [injection Hin as <- <- |]); [.. | contradiction].
  all: unfold startTrial, syncExplorers, stopSync, startSync, syncStatus,
         updateSubscription, cancelSubscription, startCryptoSubscription,
         deleteExplorer, getPlans, createDomain, updateBranding, updateSettings,
         createExplorer, createFromWorkspace, createWithWorkspace, setupSubscription,
         search, getExplorer, listExplorers,
         handler, invoke, deref, deref_first, require_str, require, throw_if.
  all: explore; cbn; (split; [intros id Hflip | lia]);
    try discriminate;
    repeat match goal with
    | H : context [canTrial ?x] |- _ => destruct (canTrial x)
    end;
    cbn in *; try discriminate;
    repeat match goal with
    | |- context [Z.eqb ?a ?b] => destruct (Z.eqb a b)
    end;
    cbn in *; try discriminate; reflexivity.
Qed.

(** C7, as the code has it.  Take a [startTrial] call whose user lookup
    would resolve to a user with [canTrial] false.  If the call names a
    plan, it fails with [Forbidden] right after the user lookup, before
    any subscription is created, locally or at the billing provider.  If
    it names none, it fails with [InvalidInput] before the user is looked
    up.  In no run of [startTrial] in which the user lookup resolves to
    such a user is a subscription created, the flag touched or success
    reported.

    The flip itself: when the user's trial is available, and explorer and
    plan are found and the collaborators answer, [startTrial] succeeds and
    its last call is [disableUserTrial] for that user.  Across the module
    only [startTrial] flips the flag, once the subscription record is
    persisted, so that the flip going through and [startTrial] succeeding
    are the same event; it flips at most once in a run, and only for a
    user whose lookup showed the trial available.  Against the reference
    collaborators the flip marks the user's trial as used, and no route
    ever gives a used trial back: [disableUserTrial] is the only call the
    module makes on the flag. *)
Theorem canTrial_flips_once :
  forall (W : Type) (env : environment W) (cfg : Config) (req : Request)
         (u : User) (w w1 : W),
    answers env (GetUser (uid req) ["stripeCustomerId"; "canTrial"]) w (Ok (Some u)) w1 ->
    canTrial u = false ->
    (truthy_str (stripePlanSlug req) = true ->
     forall w2 : W,
       answers env (LoggerError trial_used_message startTrial_location) w1 (Ok tt) w2 ->
       run env (startTrial cfg req) w =
         (Responded (send 400 (Text trial_used_message)), w2,
          [Interaction (GetUser (uid req) ["stripeCustomerId"; "canTrial"]) (Ok (Some u));
           Interaction (LoggerError trial_used_message startTrial_location) (Ok tt)])
       /\ kind_of trial_used_message = Some Forbidden
       /\ calls (@is_create_subscription) (trace_of (run env (startTrial cfg req) w)) = false)
    /\ (truthy_str (stripePlanSlug req) = false ->
        forall w2 : W,
          answers env (LoggerError trial_missing_parameter startTrial_location) w (Ok tt) w2 ->
          run env (startTrial cfg req) w =
            (Responded (send 400 (Text trial_missing_parameter)), w2,
             [Interaction (LoggerError trial_missing_parameter startTrial_location) (Ok tt)])
          /\ kind_of trial_missing_parameter = Some InvalidInput)
    /\ (forall (req' : Request) (w' : W),
          let t := trace_of (run env (startTrial cfg req') w') in
          let r := response_of (run env (startTrial cfg req') w') in
          existsb used_trial_seen t = true ->
          calls (@is_create_subscription) t = false
          /\ calls (@is_trial_flip) t = false
          /\ succeeded r = false)
    /\ (forall (req' : Request) (planSlug : string) (u' : User) (explorer : Explorer)
               (p : StripePlan) (subscription : BillingSubscription)
               (customer : BillingCustomer) (v v1 v2 v3 v4 v5 v6 v7 : W),
          stripePlanSlug req' = Some planSlug ->
          planSlug <> EmptyString ->
          answers env (GetUser (uid req') ["stripeCustomerId"; "canTrial"]) v
            (Ok (Some u')) v1 ->
          canTrial u' = true ->
          answers env (GetExplorerById (user_id u') (params_id req') false) v1
            (Ok (Some explorer)) v2 ->
          answers env (GetStripePlan planSlug) v2 (Ok (Some p)) v3 ->
          answers env (SubscriptionsCreate (trialParams cfg u' p explorer)) v3
            (Ok (Some subscription)) v4 ->
          answers env (CustomersRetrieve (Some (sub_customer subscription))) v4
            (Ok customer) v5 ->
          answers env (CreateExplorerSubscription (user_id u') (ex_id explorer) (plan_id p)
                         (Some (subscription, customer))) v5 (Ok tt) v6 ->
          answers env (DisableUserTrial (user_id u')) v6 (Ok tt) v7 ->
          response_of (run env (startTrial cfg req') v) = Responded (sendStatus 200)
          /\ state_of (run env (startTrial cfg req') v) = v7
          /\ list.last (trace_of (run env (startTrial cfg req') v))
             = Some (Interaction (DisableUserTrial (user_id u')) (Ok tt)))
    /\ (forall (route : string) (h : Request -> prog Response) (req' : Request) (w' : W),
          In (route, h) (routes cfg) ->
          let t := trace_of (run env (h req') w') in
          let r := response_of (run env (h req') w') in
          (calls (@is_trial_flip) t = true ->
             route = "startTrial" /\ commits (@is_subscription_record) t = true)
          /\ (route = "startTrial" -> succeeded r = true ->
              commits (@is_trial_flip) t = true)
          /\ (commits (@is_trial_flip) t = true -> succeeded r = true)
          /\ (forall id : Z,
                existsb (flips id) t = true ->
                existsb (trial_available_seen id) t = true)
          /\ (count_calls (@is_trial_flip) t <= 1)%nat)
    /\ (forall (w0 : World) (id : Z),
          is_Some (find_user_by_id w0 id) ->
          fst (world _ (DisableUserTrial id) w0) = Ok tt ->
          trial_used (snd (world _ (DisableUserTrial id) w0)) id)
    /\ (forall (route : string) (h : Request -> prog Response) (req' : Request)
               (w0 : World) (id : Z),
          In (route, h) (routes cfg) ->
          trial_used w0 id ->
          trial_used (state_of (run world (h req') w0)) id).
Proof.
  intros W env cfg req u w w1 Huser Hused.
  split; [| split; [| split; [| split; [| split; [| split]]]]].
  - intros Hslug w2 Hlog.
    assert (Hrun : run env (startTrial cfg req) w =
       (Responded (send 400 (Text trial_used_message)), w2,
        [Interaction (GetUser (uid req) ["stripeCustomerId"; "canTrial"]) (Ok (Some u));
         Interaction (LoggerError trial_used_message startTrial_location) (Ok tt)])).
    { unfold trial_used_message, startTrial_location in *.
      unfold startTrial, handler, require_str.
      destruct (stripePlanSlug req) as [planSlug |]; [| discriminate Hslug].
      cbn in Hslug. apply Bool.negb_true_iff in Hslug. rewrite Hslug.
      answer_with Huser. rewrite Hused. cbn.
      answer_with Hlog. reflexivity. }
    rewrite Hrun. repeat split.
  - intros Hslug w2 Hlog.
    unfold trial_missing_parameter, startTrial_location in *.
    split; [| reflexivity].
    unfold startTrial, handler, require_str.
    destruct (stripePlanSlug req) as [planSlug |].
    + cbn in Hslug. apply Bool.negb_false_iff in Hslug. rewrite Hslug.
      answer_with Hlog. reflexivity.
    + answer_with Hlog. reflexivity.
  - intros req' w'.
    apply (every_run_sound env (startTrial cfg req')
      (fun t r =>
         existsb used_trial_seen t = true ->
         calls (@is_create_subscription) t = false
         /\ calls (@is_trial_flip) t = false
         /\ succeeded r = false)).
    unfold startTrial, handler, invoke, require_str, require, throw_if.
    explore; cbn; intros Hseen;
      repeat match goal with
      | H : context [canTrial ?x] |- _ => destruct (canTrial x)
      end;
      cbn in *; try discriminate; repeat split.
  - intros req' planSlug u' explorer p subscription customer v v1 v2 v3 v4 v5 v6 v7
      Hslug Hne Hu Htrial Hexplorer Hplan Hcreate Hcustomer Hrecord Hflip.
    apply String.eqb_neq in Hne.
    assert (Hrun : run env (startTrial cfg req') v =
      (Responded (sendStatus 200), v7,
       [Interaction (GetUser (uid req') ["stripeCustomerId"; "canTrial"]) (Ok (Some u'));
        Interaction (GetExplorerById (user_id u') (params_id req') false)
          (Ok (Some explorer));
        Interaction (GetStripePlan planSlug) (Ok (Some p));
        Interaction (SubscriptionsCreate (trialParams cfg u' p explorer))
          (Ok (Some subscription));
        Interaction (CustomersRetrieve (Some (sub_customer subscription))) (Ok customer);
        Interaction (CreateExplorerSubscription (user_id u') (ex_id explorer) (plan_id p)
                       (Some (subscription, customer))) (Ok tt);
        Interaction (DisableUserTrial (user_id u')) (Ok tt)])).
    { unfold startTrial, handler, require_str, trialParams in *.
      rewrite Hslug. cbn. rewrite Hne.
      answer_with Hu. rewrite Htrial. cbn.
      answer_with Hexplorer. answer_with Hplan. answer_with Hcreate.
      answer_with Hcustomer. answer_with Hrecord. answer_with Hflip. reflexivity. }
    rewrite Hrun. repeat split.
  - intros route h req' w' Hin. cbv zeta.
    pose proof (flip_only_in_startTrial W env cfg route h req' w' Hin) as (A & B & C).
    pose proof (flip_follows_lookup W env cfg route h req' w' Hin) as (D & E).
    split; [exact A | split; [exact B | split; [exact C | split; [exact D | exact E]]]].
  - apply world_flip_uses_trial.
  - intros route h req' w0 id _. apply run_keeps_trial_used.
Qed.

Lemma canTrial_flips_once_witness :
  canTrial <$> find_user Sample.w0 "alice" = Some true
  /\ response_of (run world (startTrial Sample.cfg trialRequest) Sample.w0)
     = Responded (sendStatus 200)
  /\ canTrial <$> find_user w0_trial_started "alice" = Some false
  /\ response_of (run world (startTrial Sample.cfg trialRequest) w0_trial_started)
     = Responded (send 400 (Text trial_used_message))
  /\ trial_used
       (state_of (run world (startTrial Sample.cfg trialRequest) w0_trial_started)) 1.
Proof.
  pose proof (canTrial_flips_once World world Sample.cfg trialRequest
                (disable_trial Sample.alice) w0_trial_started w0_trial_started) as H.
  destruct H as (Forbidden_run & _ & _ & Flip & _ & _ & Kept);
    [vm_compute; reflexivity | reflexivity |].
  pose (create := SubscriptionsCreate
                    (trialParams Sample.cfg Sample.alice Sample.explorer150 idleExplorer)).
  pose (subscription := {| sub_id := "sub_100"; sub_customer := "cus_1";
                           sub_items := ["si_100"] |}).
  pose (customer := {| cus_id := "cus_1"; default_source := Some "card_1" |}).
  pose (w4 := snd (world _ create Sample.w0)).
  pose (w6 := snd (world _ (CreateExplorerSubscription 1 21 2
                              (Some (subscription, customer))) w4)).
  pose (w7 := snd (world _ (DisableUserTrial 1) w6)).
  destruct (Flip trialRequest "explorer-150" Sample.alice idleExplorer Sample.explorer150
              subscription customer
              Sample.w0 Sample.w0 Sample.w0 Sample.w0 w4 w4 w6 w7)
    as (Started & Final & _);
    [reflexivity | discriminate | vm_compute; reflexivity | reflexivity
    | vm_compute; reflexivity | vm_compute; reflexivity | vm_compute; reflexivity
    | vm_compute; reflexivity | vm_compute; reflexivity | vm_compute; reflexivity |].
  destruct (Forbidden_run eq_refl
              (set_logged (cons (trial_used_message, startTrial_location))
                 w0_trial_started))
    as (Refused & _); [vm_compute; reflexivity |].
  split; [vm_compute; reflexivity |].
  split; [exact Started |].
  split; [unfold w0_trial_started; rewrite Final; vm_compute; reflexivity |].
  split; [rewrite Refused; reflexivity |].
  apply (Kept "startTrial" (startTrial Sample.cfg)).
  - left. reflexivity.
  - unfold w0_trial_started. rewrite Final. vm_compute. reflexivity.
Defined.

(** C7 in the specification's wording fails on a call that names no
    plan.  Bob has used his trial; his call without [stripePlanSlug] is
    answered [Missing parameter], an [InvalidInput], not [Forbidden]. *)
Lemma startTrial_missing_plan_before_trial_check :
  canTrial <$> find_user Sample.w0 "bob" = Some false
  /\ stripePlanSlug trialWithoutPlan = None
  /\ response_of (run world (startTrial Sample.cfg trialWithoutPlan) Sample.w0)
     = Responded (send 400 (Text trial_missing_parameter))
  /\ kind_of trial_missing_parameter = Some InvalidInput
  /\ ~ fails_with Forbidden
         (response_of (run world (startTrial Sample.cfg trialWithoutPlan) Sample.w0)).
Proof.
  repeat split; try (vm_compute; reflexivity).
  intros [m [H K]]. vm_compute in H. injection H as <-. vm_compute in K. discriminate K.
Qed.

(** C8, as the code has it.  Take an [updateSubscription] call that names
    a slug, on an explorer that has a subscription.  If the subscription
    is pending cancelation and the slug is not the current plan's, the
    call fails with [Conflict] before any plan is looked up, whatever the
    slug resolves to.  Otherwise the plan is looked up, and if the slug
    resolves to no plan, or to a plan that is not public, the call fails
    with [NotFound].  Either run consists of lookups and the logger call,
    so no billing call (no subscription retrieve or update) and no write
    is made.  More generally, in every run of [updateSubscription] in
    which no plan lookup resolves to a public plan, there is no billing
    call, no write, and no success report. *)
Theorem updateSubscription_unknown_plan :
  forall (W : Type) (env : environment W) (req : Request) (newSlug : string)
         (explorer : Explorer) (current : StripeSubscription) (w w1 : W),
    newStripePlanSlug req = Some newSlug ->
    newSlug <> EmptyString ->
    answers env (GetExplorerById (user_id (user req)) (params_id req) false) w
      (Ok (Some explorer)) w1 ->
    stripeSubscription explorer = Some current ->
    let lookup :=
      Interaction (GetExplorerById (user_id (user req)) (params_id req) false)
        (Ok (Some explorer)) in
    let location := "post.api.explorers.id.updateSubscription" in
    let switch_while_pending :=
      negb (String.eqb (plan_slug (stripePlan current)) newSlug)
      && isPendingCancelation current in
    (switch_while_pending = false ->
     forall (found : option StripePlan) (w2 w3 : W),
       answers env (GetStripePlan newSlug) w1 (Ok found) w2 ->
       match found with
       | Some p => public p = false
       | None => True
       end ->
       answers env (LoggerError plan_not_found location) w2 (Ok tt) w3 ->
       run env (updateSubscription req) w =
         (Responded (send 400 (Text plan_not_found)), w3,
          [lookup;
           Interaction (GetStripePlan newSlug) (Ok found);
           Interaction (LoggerError plan_not_found location) (Ok tt)])
       /\ kind_of plan_not_found = Some NotFound
       /\ calls (@is_billing) (trace_of (run env (updateSubscription req) w)) = false
       /\ calls (@is_write) (trace_of (run env (updateSubscription req) w)) = false)
    /\ (switch_while_pending = true ->
        forall w2 : W,
          answers env (LoggerError revert_first location) w1 (Ok tt) w2 ->
          run env (updateSubscription req) w =
            (Responded (send 400 (Text revert_first)), w2,
             [lookup; Interaction (LoggerError revert_first location) (Ok tt)])
          /\ kind_of revert_first = Some Conflict
          /\ calls (@is_plan_lookup) (trace_of (run env (updateSubscription req) w)) = false
          /\ calls (@is_billing) (trace_of (run env (updateSubscription req) w)) = false
          /\ calls (@is_write) (trace_of (run env (updateSubscription req) w)) = false)
    /\ (forall (req' : Request) (w' : W),
          let t := trace_of (run env (updateSubscription req') w') in
          let r := response_of (run env (updateSubscription req') w') in
          existsb public_plan_found t = false ->
          calls (@is_billing) t = false /\ calls (@is_write) t = false
          /\ succeeded r = false).
Proof.
  intros W env req newSlug explorer current w w1 Hslug Hne Hget Hsub.
  apply String.eqb_neq in Hne.
  cbv zeta. split; [| split].
  - intros Hguard found w2 w3 Hplan Hfound Hlog.
    assert (Hrun : run env (updateSubscription req) w =
       (Responded (send 400 (Text plan_not_found)), w3,
        [Interaction (GetExplorerById (user_id (user req)) (params_id req) false)
           (Ok (Some explorer));
         Interaction (GetStripePlan newSlug) (Ok found);
         Interaction (LoggerError plan_not_found "post.api.explorers.id.updateSubscription")
           (Ok tt)])).
    { unfold plan_not_found in *.
      unfold updateSubscription, handler, require_str.
      rewrite Hslug. cbn. rewrite Hne.
      answer_with Hget. rewrite Hsub. cbn. rewrite Hguard. cbn.
      answer_with Hplan.
      destruct found as [p|]; cbn; [rewrite Hfound; cbn |];
        answer_with Hlog; reflexivity. }
    rewrite Hrun. repeat split.
  - intros Hguard w2 Hlog.
    assert (Hrun : run env (updateSubscription req) w =
       (Responded (send 400 (Text revert_first)), w2,
        [Interaction (GetExplorerById (user_id (user req)) (params_id req) false)
           (Ok (Some explorer));
         Interaction (LoggerError revert_first "post.api.explorers.id.updateSubscription")
           (Ok tt)])).
    { unfold revert_first in *.
      unfold updateSubscription, handler, require_str.
      rewrite Hslug. cbn. rewrite Hne.
      answer_with Hget. rewrite Hsub. cbn. rewrite Hguard. cbn.
      answer_with Hlog. reflexivity. }
    rewrite Hrun. repeat split.
  - intros req' w'.
    apply (every_run_sound env (updateSubscription req')
      (fun t r =>
         existsb public_plan_found t = false ->
         calls (@is_billing) t = false /\ calls (@is_write) t = false
         /\ succeeded r = false)).
    unfold updateSubscription, handler, invoke, deref, deref_first, require_str, require,
      throw_if.
    explore; cbn; intros Hnone;
      repeat match goal with
      | H : context [public ?p] |- _ => destruct (public p)
      end;
      cbn in *; try discriminate; repeat split.
Qed.

Lemma updateSubscription_unknown_plan_witness :
  response_of (run world (updateSubscription (changeTo "self-hosted")) Sample.w0)
  = Responded (send 400 (Text plan_not_found))
  /\ calls (@is_billing)
       (trace_of (run world (updateSubscription (changeTo "self-hosted")) Sample.w0))
     = false
  /\ response_of (run world (updateSubscription (changeTo "self-hosted")) w0_cancelled)
     = Responded (send 400 (Text revert_first))
  /\ calls (@is_billing)
       (trace_of (run world (updateSubscription (changeTo "self-hosted")) w0_cancelled))
     = false.
Proof.
  pose proof (updateSubscription_unknown_plan World world (changeTo "self-hosted")
                "self-hosted" (demoExplorer false) (demoSubscription false)
                Sample.w0 Sample.w0) as H.
  pose proof (updateSubscription_unknown_plan World world (changeTo "self-hosted")
                "self-hosted" (demoExplorer true) (demoSubscription true)
                w0_cancelled w0_cancelled) as K.
  cbv zeta in H, K.
  destruct H as [H _];
    [reflexivity | discriminate | vm_compute; reflexivity | reflexivity |].
  destruct K as [_ [K _]];
    [reflexivity | discriminate | vm_compute; reflexivity | reflexivity |].
  destruct (H eq_refl (Some Sample.selfHosted) Sample.w0
              (set_logged (cons (plan_not_found, "post.api.explorers.id.updateSubscription"))
                 Sample.w0))
    as (H1 & _ & H2 & _);
    [vm_compute; reflexivity | reflexivity | vm_compute; reflexivity |].
  destruct (K eq_refl
              (set_logged (cons (revert_first, "post.api.explorers.id.updateSubscription"))
                 w0_cancelled))
    as (K1 & _ & _ & K2 & _);
    [vm_compute; reflexivity |].
  split; [rewrite H1; reflexivity |].
  split; [exact H2 |].
  split; [rewrite K1; reflexivity | exact K2].
Defined.

(** C8 in the specification's wording fails while the subscription is
    pending cancelation.  On the sample deployment after Alice has
    cancelled the subscription of explorer 20, a change to [no-such-plan],
    which resolves to no plan, and a change to [self-hosted], which
    resolves to a plan that is not public, are both answered with the
    [Conflict] message, not [NotFound]. *)
Lemma updateSubscription_conflict_before_lookup :
  find_plan w0_cancelled "no-such-plan" = None
  /\ public <$> find_plan w0_cancelled "self-hosted" = Some false
  /\ response_of (run world (updateSubscription (changeTo "no-such-plan")) w0_cancelled)
     = Responded (send 400 (Text revert_first))
  /\ response_of (run world (updateSubscription (changeTo "self-hosted")) w0_cancelled)
     = Responded (send 400 (Text revert_first))
  /\ kind_of revert_first = Some Conflict
  /\ ~ fails_with NotFound
         (response_of (run world (updateSubscription (changeTo "no-such-plan"))
                         w0_cancelled))
  /\ ~ fails_with NotFound
         (response_of (run world (updateSubscription (changeTo "self-hosted"))
                         w0_cancelled)).
Proof.
  repeat split; try (vm_compute; reflexivity);
    intros [m [H K]]; vm_compute in H; injection H as <-; vm_compute in K; discriminate K.
Qed.

(** ** Explorer creation: no rollback *)




(** ** Explorer creation: the RPC probe *)

(** C10. The two creation paths read the probe differently.  With a fresh
    workspace, a probe that rejects and a probe that resolves to a null
    (or zero) network id both fail the creation with
    [UpstreamUnreachable] and nothing is created.  On the
    workspace-attach path only a rejected probe fails the creation; when
    the probe resolves, whatever it resolves to (a null network id
    included), the explorer is created, and the request succeeds when no
    subscription step follows. *)
Theorem createExplorer_probe_asymmetry :
  forall (W : Type) (env : environment W) (cfg : Config) (req : Request)
         (requester : option User) (w w1 : W),
    answers env (GetUser (uid req) ["stripeCustomerId"; "canUseDemoPlan"]) w
      (Ok requester) w1 ->
    let lookup :=
      Interaction (GetUser (uid req) ["stripeCustomerId"; "canUseDemoPlan"])
        (Ok requester) in
    let failure :=
      Interaction (LoggerError rpc_unreachable "post.api.explorers") (Ok tt) in
    (truthy_num (workspaceId req) = false ->
     truthy_str (rpcServer req) && truthy_str (name req) = true ->
     forall (o : outcome (option Z)) (w2 w3 : W),
       answers env (FetchNetworkId (rpcServer req)) w1 o w2 ->
       probe_failed o ->
       answers env (LoggerError rpc_unreachable "post.api.explorers") w2 (Ok tt) w3 ->
       run env (createExplorer cfg req) w =
         (Responded (send 400 (Text rpc_unreachable)), w3,
          [lookup; Interaction (FetchNetworkId (rpcServer req)) o; failure])
       /\ kind_of rpc_unreachable = Some UpstreamUnreachable)
    /\ (forall (wid : Z) (ws : Workspace) (w2 : W),
          workspaceId req = Some wid ->
          wid <> 0 ->
          answers env (GetWorkspaceById wid) w1 (Ok (Some ws)) w2 ->
          present (ws_explorer ws) = false ->
          let found := Interaction (GetWorkspaceById wid) (Ok (Some ws)) in
          let probe := FetchNetworkId (Some (ws_rpcServer ws)) in
          (forall (m : string) (w3 w4 : W),
             answers env probe w2 (Raised m) w3 ->
             answers env (LoggerError rpc_unreachable "post.api.explorers") w3 (Ok tt) w4 ->
             run env (createExplorer cfg req) w =
               (Responded (send 400 (Text rpc_unreachable)), w4,
                [lookup; found; Interaction probe (Raised m); failure]))
          /\ (forall (networkId : option Z) (u : User) (explorer : Explorer) (w3 w4 : W),
                answers env probe w2 (Ok networkId) w3 ->
                requester = Some u ->
                answers env (CreateExplorerFromWorkspace (user_id u) (ws_id ws)) w3
                  (Ok (Some explorer)) w4 ->
                commits (@is_create_explorer)
                  (trace_of (run env (createExplorer cfg req) w)) = true
                /\ (stripeEnabled cfg = true ->
                    canUseDemoPlan u = false ->
                    query_startSubscription req = false ->
                    run env (createExplorer cfg req) w =
                      (Responded (send 200 (JsonExplorer explorer)), w4,
                       [lookup; found; Interaction probe (Ok networkId);
                        Interaction (CreateExplorerFromWorkspace (user_id u) (ws_id ws))
                          (Ok (Some explorer))])))).
Proof.
  intros W env cfg req requester w w1 Huser. cbv zeta. split.
  - intros Hid Hpair o w2 w3 Hprobe Hfailed Hlog.
    unfold createExplorer, handler, createWithWorkspace.
    rewrite Hid, Hpair. cbn.
    answer_with Huser. answer_with Hprobe.
    destruct o as [networkId | m]; cbn in Hfailed |- *.
    + rewrite Hfailed. cbn. answer_with Hlog. split; reflexivity.
    + answer_with Hlog. split; reflexivity.
  - intros wid ws w2 Hwid Hne Hws Hfree.
    apply Z.eqb_neq in Hne.
    unfold createExplorer, handler, createFromWorkspace, truthy_num.
    rewrite Hwid, Hne. cbn.
    answer_with Huser. answer_with Hws. rewrite Hfree. cbn.
    split.
    + intros m w3 w4 Hprobe Hlog.
      answer_with Hprobe. answer_with Hlog. reflexivity.
    + intros networkId u explorer w3 w4 Hprobe Hu Hcreate. subst requester.
      answer_with Hprobe. answer_with Hcreate.
      split.
      * match goal with
        | |- context [run env ?p w4] => destruct (run env p w4) as [[r w5] t]
        end.
        reflexivity.
      * intros Hstripe Hdemo Hstart.
        unfold setupSubscription. rewrite Hstripe, Hdemo, Hstart. reflexivity.
Qed.

Lemma createExplorer_probe_asymmetry_witness :
  response_of (run world (createExplorer Sample.cfg freshNullProbe) Sample.w0)
  = Responded (send 400 (Text rpc_unreachable))
  /\ response_of (run world (createExplorer Sample.cfg attachNullProbe) Sample.w0)
     = Responded (send 200 (JsonExplorer attachedExplorer)).
Proof.
  pose (logged0 := set_logged (cons (rpc_unreachable, "post.api.explorers")) Sample.w0).
  pose (w4 := snd (world _ (CreateExplorerFromWorkspace 1 11) Sample.w0)).
  pose proof (createExplorer_probe_asymmetry World world Sample.cfg freshNullProbe
                (Some Sample.alice) Sample.w0 Sample.w0) as A.
  pose proof (createExplorer_probe_asymmetry World world Sample.cfg attachNullProbe
                (Some Sample.alice) Sample.w0 Sample.w0) as B.
  cbv zeta in A, B.
  destruct A as [A _]; [vm_compute; reflexivity |].
  destruct B as [_ B]; [vm_compute; reflexivity |].
  split.
  - destruct (A eq_refl eq_refl (Ok None) Sample.w0 logged0) as [A1 _];
      [vm_compute; reflexivity | reflexivity | vm_compute; reflexivity |].
    rewrite A1. reflexivity.
  - destruct (B 11 secondWorkspace Sample.w0) as [_ B1];
      [reflexivity | discriminate | vm_compute; reflexivity | reflexivity |].
    destruct (B1 None Sample.alice attachedExplorer Sample.w0 w4) as [_ B2];
      [vm_compute; reflexivity | reflexivity | vm_compute; reflexivity |].
    rewrite B2; reflexivity.
Defined.

(** ** The specification's scenarios on the sample deployment *)

(** A first trial goes through: the record is persisted and the flag
    flipped. *)
Example startTrial_succeeds :
  response_of (run world (startTrial Sample.cfg trialRequest) Sample.w0)
  = Responded (sendStatus 200)
  /\ s_planId <$> subscriptions (state_of (run world (startTrial Sample.cfg trialRequest)
                                             Sample.w0)) !! 21 = Some 2
  /\ trial_used (state_of (run world (startTrial Sample.cfg trialRequest) Sample.w0)) 1.
Proof. repeat split; vm_compute; reflexivity. Qed.

(** Creation with a fresh workspace, the probe answering network id 1,
    billing disabled: the workspace carries network id 1 and the default
    plan's subscription is attached without any billing call. *)
Example createExplorer_free_subscription :
  succeeded (response_of (run world (createExplorer cfgNoBilling createFresh) Sample.w0))
  = true
  /\ w_networkId <$> workspaces (state_of (run world (createExplorer cfgNoBilling createFresh)
                                             Sample.w0)) !! 100 = Some 1
  /\ s_planId <$> subscriptions (state_of (run world (createExplorer cfgNoBilling createFresh)
                                             Sample.w0)) !! 101 = Some 1
  /\ calls (@is_billing)
       (trace_of (run world (createExplorer cfgNoBilling createFresh) Sample.w0)) = false.
Proof. repeat split; vm_compute; reflexivity. Qed.

(** Cancelling the subscription of explorer 20 schedules the cancelation
    at the billing provider, marks the local record, and keeps the
    explorer. *)
Example cancelSubscription_schedules :
  response_of (run world (cancelSubscription (Sample.request Sample.alice "20")) Sample.w0)
  = Responded (sendStatus 200)
  /\ s_isPendingCancelation <$>
       subscriptions (state_of (run world (cancelSubscription
                                             (Sample.request Sample.alice "20"))
                                  Sample.w0)) !! 20 = Some true
  /\ map ps_cancel_at_period_end
       (provider (state_of (run world (cancelSubscription
                                         (Sample.request Sample.alice "20"))
                              Sample.w0))) = [true]
  /\ is_Some (explorers (state_of (run world (cancelSubscription
                                                (Sample.request Sample.alice "20"))
                                     Sample.w0)) !! 20).
Proof.
  repeat split; try (vm_compute; reflexivity).
  eexists. vm_compute. reflexivity.
Qed.

(** * Further properties of the handlers *)

(** ** The error boundary *)

Ltac unfold_handlers :=
  unfold startTrial, syncExplorers, stopSync, startSync, syncStatus,
    updateSubscription, cancelSubscription, startCryptoSubscription,
    deleteExplorer, getPlans, createDomain, updateBranding, updateSettings,
    createExplorer, createFromWorkspace, createWithWorkspace, setupSubscription,
    search, getExplorer, listExplorers,
    handler, invoke, deref, deref_first, require_str, require, throw_if.

(** X1. Every route ends in one of three ways, whatever the collaborators
    answer: status 200 without any logger call; status 400 carrying an
    error message, the last call of the run being the logger's with that
    same message, from which it returned (the logger is not awaited, so
    this includes a logger that hands back a promise that rejects later);
    or, when the logger call itself throws, no response and the thrown
    error escaping.  No other status is ever sent and no failure is
    reported without having been logged. *)
Theorem routes_report_failures :
  forall (W : Type) (env : environment W) (cfg : Config) (route : string)
         (h : Request -> prog Response) (req : Request) (w : W),
    In (route, h) (routes cfg) ->
    reported (trace_of (run env (h req) w)) (response_of (run env (h req) w)).
Proof.
  intros W env cfg route h req w Hin.
  apply (every_run_sound env (h req) reported).
  cbn in Hin.
  repeat (destruct Hin as [Hin | Hin]; [injection Hin as <- <- |]); [.. | contradiction].
  all: unfold_handlers.
  all: explore; cbn;
    repeat match goal with
           | a : unit |- _ => destruct a
           end;
    first [ left; split; reflexivity
          | right; do 2 eexists; split; reflexivity
          | do 2 eexists; reflexivity ].
Qed.

Lemma routes_report_failures_witness :
  reported
    (trace_of (run world (startTrial Sample.cfg secondTrial) Sample.w0))
    (response_of (run world (startTrial Sample.cfg secondTrial) Sample.w0))
  /\ response_of (run world (startTrial Sample.cfg secondTrial) Sample.w0)
     = Responded (send 400 (Text trial_used_message)).
Proof.
  split.
  - apply (routes_report_failures World world Sample.cfg "startTrial").
    left. reflexivity.
  - vm_compute. reflexivity.
Defined.

(** ** Routes that only read *)

(** X2. The five [GET] routes never change a record, never call the billing
    provider and never enqueue a job, whatever the collaborators answer. *)
Theorem read_routes_only_read :
  forall (W : Type) (env : environment W) (cfg : Config) (route : string)
         (h : Request -> prog Response) (req : Request) (w : W),
    In (route, h) (read_routes cfg) ->
    calls (@is_write) (trace_of (run env (h req) w)) = false
    /\ calls (@is_billing) (trace_of (run env (h req) w)) = false
    /\ calls (@is_enqueue) (trace_of (run env (h req) w)) = false.
Proof.
  intros W env cfg route h req w Hin.
  apply (every_run_sound env (h req)
    (fun t _ =>
       calls (@is_write) t = false /\ calls (@is_billing) t = false
       /\ calls (@is_enqueue) t = false)).
  cbn in Hin.
  repeat (destruct Hin as [Hin | Hin]; [injection Hin as <- <- |]); [.. | contradiction].
  all: unfold_handlers.
  all: explore; repeat split.
Qed.

Lemma read_routes_only_read_witness :
  calls (@is_write)
    (trace_of (run world (search Sample.cfg (lookup "demo.tryethernal.com")) Sample.w0))
  = false.
Proof.
  apply (read_routes_only_read World world Sample.cfg "search" (search Sample.cfg)
           (lookup "demo.tryethernal.com") Sample.w0).
  right. right. left. reflexivity.
Defined.

(** ** The process supervisor *)

(** X3. Across the module only [syncStatus] consults the process supervisor,
    and it does so only after an explorer was found and the quota
    evaluator has answered [false]; in particular [startSync] and
    [stopSync] never talk to the supervisor. *)
Theorem supervisor_only_in_syncStatus :
  forall (W : Type) (env : environment W) (cfg : Config) (route : string)
         (h : Request -> prog Response) (req : Request) (w : W),
    In (route, h) (routes cfg) ->
    calls (@is_supervisor) (trace_of (run env (h req) w)) = true ->
    route = "syncStatus"
    /\ existsb quota_cleared (trace_of (run env (h req) w)) = true.
Proof.
  intros W env cfg route h req w Hin.
  apply (every_run_sound env (h req)
    (fun t _ =>
       calls (@is_supervisor) t = true ->
       route = "syncStatus" /\ existsb quota_cleared t = true)).
  cbn in Hin.
  repeat (destruct Hin as [Hin | Hin]; [injection Hin as <- <- |]); [.. | contradiction].
  all: unfold_handlers.
  all: explore; cbn; intros Hcall; try discriminate; split; reflexivity.
Qed.

Lemma supervisor_only_in_syncStatus_witness :
  existsb quota_cleared
    (trace_of (run world (syncStatus (Sample.request Sample.alice "20")) Sample.w0))
  = true.
Proof.
  apply (supervisor_only_in_syncStatus World world Sample.cfg "syncStatus" syncStatus
           (Sample.request Sample.alice "20") Sample.w0).
  - right. right. right. right. left. reflexivity.
  - vm_compute. reflexivity.
Defined.

(** ** Starting and stopping the sync *)

(** Rewrite with the equations the exploration has collected. *)
Ltac use_equations :=
  repeat match goal with
         | H : ?x = _ |- context [?x] => rewrite H
         end.

(** X4. Whatever the collaborators answer, [startSync] asks the persistence
    layer to start the sync only after it has found an explorer with a
    subscription, the quota evaluator has answered [false] and the RPC
    probe has resolved; and it reports success only when that request
    went through. *)
Theorem startSync_guards :
  forall (W : Type) (env : environment W) (req : Request) (w : W),
    let t := trace_of (run env (startSync req) w) in
    let r := response_of (run env (startSync req) w) in
    (calls (@is_start_sync) t = true ->
       existsb (explorer_seen true) t = true
       /\ existsb quota_cleared t = true
       /\ commits (@is_probe) t = true)
    /\ (succeeded r = true -> commits (@is_start_sync) t = true).
Proof.
  intros W env req w.
  apply (every_run_sound env (startSync req)
    (fun t r =>
       (calls (@is_start_sync) t = true ->
          existsb (explorer_seen true) t = true
          /\ existsb quota_cleared t = true
          /\ commits (@is_probe) t = true)
       /\ (succeeded r = true -> commits (@is_start_sync) t = true))).
  unfold_handlers.
  explore; cbn; use_equations; cbn; repeat split; intros; try discriminate; reflexivity.
Qed.

Lemma startSync_guards_witness :
  commits (@is_start_sync)
    (trace_of (run world (startSync (syncRequest "20")) Sample.w0)) = true.
Proof.
  apply (startSync_guards World world (syncRequest "20") Sample.w0).
  vm_compute. reflexivity.
Defined.

(** X5. The checks of [startSync] come in a fixed order once the explorer is
    found: no subscription fails with [NoActiveSubscription] before the
    quota is evaluated; a reached quota fails with [QuotaExceeded] before
    the RPC is probed; a rejected probe fails with [UpstreamUnreachable]
    and the sync is not started; a probe that resolves, to whatever value
    (a null network id included), lets the sync start. *)
Theorem startSync_check_order :
  forall (W : Type) (env : environment W) (req : Request) (explorer : Explorer)
         (w w1 : W),
    params_id req <> EmptyString ->
    answers env (GetExplorerById (user_id (user req)) (params_id req) false) w
      (Ok (Some explorer)) w1 ->
    let found :=
      Interaction (GetExplorerById (user_id (user req)) (params_id req) false)
        (Ok (Some explorer)) in
    let location := "put.api.explorers.id.startSync" in
    let quota := HasReachedTransactionQuota (ex_id explorer) in
    (stripeSubscription explorer = None ->
     forall w2 : W,
       answers env (LoggerError no_active_subscription location) w1 (Ok tt) w2 ->
       run env (startSync req) w =
         (Responded (send 400 (Text no_active_subscription)), w2,
          [found; Interaction (LoggerError no_active_subscription location) (Ok tt)]))
    /\ (present (stripeSubscription explorer) = true ->
        (forall w2 w3 : W,
           answers env quota w1 (Ok true) w2 ->
           answers env (LoggerError quota_reached location) w2 (Ok tt) w3 ->
           run env (startSync req) w =
             (Responded (send 400 (Text quota_reached)), w3,
              [found; Interaction quota (Ok true);
               Interaction (LoggerError quota_reached location) (Ok tt)]))
        /\ (forall (ws : Workspace) (w2 : W),
              answers env quota w1 (Ok false) w2 ->
              workspace explorer = Some ws ->
              let probe := FetchNetworkId (Some (ws_rpcServer ws)) in
              (forall (m : string) (w3 w4 : W),
                 answers env probe w2 (Raised m) w3 ->
                 answers env (LoggerError sync_rpc_unreachable location) w3 (Ok tt) w4 ->
                 run env (startSync req) w =
                   (Responded (send 400 (Text sync_rpc_unreachable)), w4,
                    [found; Interaction quota (Ok false); Interaction probe (Raised m);
                     Interaction (LoggerError sync_rpc_unreachable location) (Ok tt)]))
              /\ (forall (networkId : option Z) (w3 w4 : W),
                    answers env probe w2 (Ok networkId) w3 ->
                    answers env (StartExplorerSync (ex_id explorer)) w3 (Ok tt) w4 ->
                    run env (startSync req) w =
                      (Responded (sendStatus 200), w4,
                       [found; Interaction quota (Ok false);
                        Interaction probe (Ok networkId);
                        Interaction (StartExplorerSync (ex_id explorer)) (Ok tt)]))))
    /\ kind_of no_active_subscription = Some NoActiveSubscription
    /\ kind_of quota_reached = Some QuotaExceeded
    /\ kind_of sync_rpc_unreachable = Some UpstreamUnreachable.
Proof.
  intros W env req explorer w w1 Hid Hget.
  apply String.eqb_neq in Hid.
  cbv zeta. unfold no_active_subscription, quota_reached, sync_rpc_unreachable.
  unfold startSync, handler, throw_if.
  rewrite Hid. answer_with Hget.
  split; [| split; [| repeat split]].
  - intros Hsub w2 Hlog. rewrite Hsub. cbn. answer_with Hlog. reflexivity.
  - intros Hsub. destruct (stripeSubscription explorer) as [sub|]; [| discriminate].
    cbn. split.
    + intros w2 w3 Hquota Hlog. answer_with Hquota. answer_with Hlog. reflexivity.
    + intros ws w2 Hquota Hws. answer_with Hquota. rewrite Hws. cbn. split.
      * intros m w3 w4 Hprobe Hlog. answer_with Hprobe. answer_with Hlog. reflexivity.
      * intros networkId w3 w4 Hprobe Hstart. answer_with Hprobe. answer_with Hstart.
        reflexivity.
Qed.

Lemma startSync_check_order_witness :
  response_of (run world (startSync (syncRequest "21")) Sample.w0)
  = Responded (send 400 (Text no_active_subscription)).
Proof.
  pose proof (startSync_check_order World world (syncRequest "21") idleExplorer
                Sample.w0 Sample.w0) as H.
  cbv zeta in H.
  destruct H as [H _]; [discriminate | vm_compute; reflexivity |].
  rewrite (H eq_refl
             (set_logged (cons (no_active_subscription, "put.api.explorers.id.startSync"))
                Sample.w0));
    [reflexivity | vm_compute; reflexivity].
Defined.

(** X6. [stopSync] has no guard beyond the explorer lookup: once the explorer
    is found, with or without a subscription, it asks the persistence
    layer to stop the sync and answers 200.  It never evaluates the quota,
    never probes the RPC and never calls the billing provider. *)
Theorem stopSync_unguarded :
  forall (W : Type) (env : environment W) (req : Request) (explorer : Explorer)
         (w w1 w2 : W),
    params_id req <> EmptyString ->
    answers env (GetExplorerById (user_id (user req)) (params_id req) false) w
      (Ok (Some explorer)) w1 ->
    answers env (StopExplorerSync (ex_id explorer)) w1 (Ok tt) w2 ->
    run env (stopSync req) w =
      (Responded (sendStatus 200), w2,
       [Interaction (GetExplorerById (user_id (user req)) (params_id req) false)
          (Ok (Some explorer));
        Interaction (StopExplorerSync (ex_id explorer)) (Ok tt)])
    /\ (forall (req' : Request) (w' : W),
          calls (@is_quota) (trace_of (run env (stopSync req') w')) = false
          /\ calls (@is_probe) (trace_of (run env (stopSync req') w')) = false
          /\ calls (@is_billing) (trace_of (run env (stopSync req') w')) = false).
Proof.
  intros W env req explorer w w1 w2 Hid Hget Hstop.
  apply String.eqb_neq in Hid. split.
  - unfold stopSync, handler, throw_if. rewrite Hid.
    answer_with Hget. answer_with Hstop. reflexivity.
  - intros req' w'.
    apply (every_run_sound env (stopSync req')
      (fun t _ =>
         calls (@is_quota) t = false /\ calls (@is_probe) t = false
         /\ calls (@is_billing) t = false)).
    unfold_handlers. explore; repeat split.
Qed.

Lemma stopSync_unguarded_witness :
  response_of (run world (stopSync (syncRequest "21")) Sample.w0)
  = Responded (sendStatus 200)
  /\ e_shouldSync <$>
       explorers (state_of (run world (stopSync (syncRequest "21")) Sample.w0)) !! 21
     = Some false.
Proof.
  pose proof (stopSync_unguarded World world (syncRequest "21") idleExplorer
                Sample.w0 Sample.w0
                (snd (world _ (StopExplorerSync 21) Sample.w0))) as H.
  destruct H as [H _];
    [discriminate | vm_compute; reflexivity | vm_compute; reflexivity |].
  rewrite H. split; vm_compute; reflexivity.
Defined.

(** ** Cancelling a subscription *)

(** X7. [cancelSubscription] on an explorer whose record carries an external
    subscription id retrieves that subscription, schedules its
    cancelation at the period's end, and then marks the local record;
    without an external id it only marks the local record.  Whatever the
    collaborators answer: an external update only ever schedules the
    cancelation (it never cancels at once and never touches the price);
    when a billing call rejects, nothing is written and failure is
    reported; the explorer is never deleted; success means the local
    record was marked. *)
Theorem cancelSubscription_schedules_then_marks :
  forall (W : Type) (env : environment W) (req : Request) (explorer : Explorer)
         (current : StripeSubscription) (w w1 : W),
    answers env (GetExplorerById (user_id (user req)) (params_id req) false) w
      (Ok (Some explorer)) w1 ->
    stripeSubscription explorer = Some current ->
    let found :=
      Interaction (GetExplorerById (user_id (user req)) (params_id req) false)
        (Ok (Some explorer)) in
    let mark := CancelExplorerSubscription (user_id (user req)) (ex_id explorer) in
    (truthy_str (stripeId current) = false ->
     forall w2 : W,
       answers env mark w1 (Ok tt) w2 ->
       run env (cancelSubscription req) w =
         (Responded (sendStatus 200), w2, [found; Interaction mark (Ok tt)]))
    /\ (forall (sid : string) (retrieved : BillingSubscription) (w2 w3 w4 : W),
          stripeId current = Some sid ->
          sid <> EmptyString ->
          answers env (SubscriptionsRetrieve sid false) w1 (Ok retrieved) w2 ->
          let schedule :=
            SubscriptionsUpdate (sub_id retrieved)
              {| cancel_at_period_end := true; proration_behavior := None;
                 su_item := None |} in
          answers env schedule w2 (Ok tt) w3 ->
          answers env mark w3 (Ok tt) w4 ->
          run env (cancelSubscription req) w =
            (Responded (sendStatus 200), w4,
             [found; Interaction (SubscriptionsRetrieve sid false) (Ok retrieved);
              Interaction schedule (Ok tt); Interaction mark (Ok tt)]))
    /\ (forall (req' : Request) (w' : W),
          let t := trace_of (run env (cancelSubscription req') w') in
          let r := response_of (run env (cancelSubscription req') w') in
          forallb (update_with schedules_cancelation) t = true
          /\ (rejects (@is_billing) t = true ->
              calls (@is_write) t = false /\ succeeded r = false)
          /\ calls (@is_delete) t = false
          /\ (succeeded r = true -> commits (@is_local_cancel) t = true)).
Proof.
  intros W env req explorer current w w1 Hget Hsub. cbv zeta.
  split; [| split].
  - intros Hnone w2 Hmark.
    unfold cancelSubscription, handler.
    answer_with Hget. rewrite Hsub. cbn. rewrite Hnone. cbn.
    answer_with Hmark. reflexivity.
  - intros sid retrieved w2 w3 w4 Hsid Hne Hretrieve Hschedule Hmark.
    apply String.eqb_neq in Hne.
    unfold cancelSubscription, handler.
    answer_with Hget. rewrite Hsub. cbn. rewrite Hsid. cbn. rewrite Hne. cbn.
    answer_with Hretrieve. answer_with Hschedule. answer_with Hmark. reflexivity.
  - intros req' w'.
    apply (every_run_sound env (cancelSubscription req')
      (fun t r =>
         forallb (update_with schedules_cancelation) t = true
         /\ (rejects (@is_billing) t = true ->
             calls (@is_write) t = false /\ succeeded r = false)
         /\ calls (@is_delete) t = false
         /\ (succeeded r = true -> commits (@is_local_cancel) t = true))).
    unfold_handlers.
    explore; cbn; repeat split; intros; try discriminate; reflexivity.
Qed.

Lemma cancelSubscription_schedules_then_marks_witness :
  response_of (run world (cancelSubscription (Sample.request Sample.alice "20")) Sample.w0)
  = Responded (sendStatus 200).
Proof.
  pose (schedule := SubscriptionsUpdate "sub_1"
                      {| cancel_at_period_end := true; proration_behavior := None;
                         su_item := None |}).
  pose (w3 := snd (world _ schedule Sample.w0)).
  pose (w4 := snd (world _ (CancelExplorerSubscription 1 20) w3)).
  pose proof (cancelSubscription_schedules_then_marks World world
                (Sample.request Sample.alice "20") (demoExplorer false)
                (demoSubscription false) Sample.w0 Sample.w0) as H.
  cbv zeta in H.
  destruct H as (_ & H & _); [vm_compute; reflexivity | reflexivity |].
  rewrite (H "sub_1" Sample.sub1 Sample.w0 w3 w4);
    [reflexivity | reflexivity | discriminate | vm_compute; reflexivity
    | vm_compute; reflexivity | vm_compute; reflexivity].
Defined.

(** ** Changing the plan: the billing provider comes first *)

(** X8. Whatever the collaborators answer, [updateSubscription] writes at
    most one local record per run, and only after every billing call it
    made has resolved: when a billing call rejects, nothing is written
    locally and failure is reported.  Every update it sends to the
    billing provider clears a scheduled cancelation, invoices the
    proration at once and swaps the price of one billed item. *)
Theorem updateSubscription_billing_first :
  forall (W : Type) (env : environment W) (req : Request) (w : W),
    let t := trace_of (run env (updateSubscription req) w) in
    let r := response_of (run env (updateSubscription req) w) in
    (rejects (@is_billing) t = true ->
       calls (@is_write) t = false /\ succeeded r = false)
    /\ (count_calls (@is_write) t <= 1)%nat
    /\ forallb (update_with swaps_price) t = true
    /\ (succeeded r = true -> commits (@is_write) t = true).
Proof.
  intros W env req w.
  apply (every_run_sound env (updateSubscription req)
    (fun t r =>
       (rejects (@is_billing) t = true ->
          calls (@is_write) t = false /\ succeeded r = false)
       /\ (count_calls (@is_write) t <= 1)%nat
       /\ forallb (update_with swaps_price) t = true
       /\ (succeeded r = true -> commits (@is_write) t = true))).
  unfold_handlers.
  explore; cbn; repeat split; intros; try discriminate; try reflexivity; lia.
Qed.

Lemma updateSubscription_billing_first_witness :
  calls (@is_write)
    (trace_of (run world (updateSubscription (changeTo "explorer-500"))
                 (Sample.failing "stripe.subscriptions.update" Sample.w0))) = false
  /\ succeeded
       (response_of (run world (updateSubscription (changeTo "explorer-500"))
                       (Sample.failing "stripe.subscriptions.update" Sample.w0))) = false.
Proof.
  apply (updateSubscription_billing_first World world (changeTo "explorer-500")
           (Sample.failing "stripe.subscriptions.update" Sample.w0)).
  vm_compute. reflexivity.
Defined.

(** X9. A plan switch on a subscription that is not pending cancelation, to
    a public plan.  With an external subscription id, the subscription is
    retrieved, its first item is moved to the new plan's price, and the
    local record gets the new plan and the retrieved subscription; when
    the retrieved subscription has no item at all, the handler fails
    before updating anything, at the provider or locally.  Without an external id, only the local
    record gets the new plan. *)
Theorem updateSubscription_plan_switch :
  forall (W : Type) (env : environment W) (req : Request) (newSlug : string)
         (explorer : Explorer) (current : StripeSubscription) (target : StripePlan)
         (w w1 w2 : W),
    newStripePlanSlug req = Some newSlug ->
    newSlug <> EmptyString ->
    answers env (GetExplorerById (user_id (user req)) (params_id req) false) w
      (Ok (Some explorer)) w1 ->
    stripeSubscription explorer = Some current ->
    isPendingCancelation current = false ->
    answers env (GetStripePlan newSlug) w1 (Ok (Some target)) w2 ->
    public target = true ->
    let found :=
      Interaction (GetExplorerById (user_id (user req)) (params_id req) false)
        (Ok (Some explorer)) in
    let planFound := Interaction (GetStripePlan newSlug) (Ok (Some target)) in
    (truthy_str (stripeId current) = false ->
     forall w3 : W,
       answers env (UpdateExplorerSubscription (user_id (user req)) (ex_id explorer)
                      (plan_id target) None) w2 (Ok tt) w3 ->
       run env (updateSubscription req) w =
         (Responded (sendStatus 200), w3,
          [found; planFound;
           Interaction (UpdateExplorerSubscription (user_id (user req)) (ex_id explorer)
                          (plan_id target) None) (Ok tt)]))
    /\ (forall (sid : string) (retrieved : BillingSubscription) (w3 : W),
          stripeId current = Some sid ->
          sid <> EmptyString ->
          answers env (SubscriptionsRetrieve sid true) w2 (Ok retrieved) w3 ->
          let retrieval := Interaction (SubscriptionsRetrieve sid true) (Ok retrieved) in
          (forall (item : string) (w4 w5 : W),
             head (sub_items retrieved) = Some item ->
             let swap :=
               SubscriptionsUpdate (sub_id retrieved)
                 {| cancel_at_period_end := false;
                    proration_behavior := Some "always_invoice";
                    su_item := Some (item, stripePriceId target) |} in
             let record :=
               UpdateExplorerSubscription (user_id (user req)) (ex_id explorer)
                 (plan_id target) (Some retrieved) in
             answers env swap w3 (Ok tt) w4 ->
             answers env record w4 (Ok tt) w5 ->
             run env (updateSubscription req) w =
               (Responded (sendStatus 200), w5,
                [found; planFound; retrieval; Interaction swap (Ok tt);
                 Interaction record (Ok tt)]))
          /\ (sub_items retrieved = [] ->
              succeeded (response_of (run env (updateSubscription req) w)) = false
              /\ calls (@is_subscription_update)
                   (trace_of (run env (updateSubscription req) w)) = false
              /\ calls (@is_write) (trace_of (run env (updateSubscription req) w)) = false)).
Proof.
  intros W env req newSlug explorer current target w w1 w2
    Hslug Hne Hget Hsub Hpending Hplan Hpublic.
  apply String.eqb_neq in Hne. cbv zeta.
  unfold updateSubscription, handler, require_str, deref, deref_first.
  rewrite Hslug. cbn. rewrite Hne.
  answer_with Hget. rewrite Hsub. cbn. rewrite Hpending.
  rewrite Bool.andb_false_r. cbn.
  answer_with Hplan. rewrite Hpublic. cbn.
  split.
  - intros Hnone w3 Hrecord. rewrite Hnone. cbn.
    answer_with Hrecord. reflexivity.
  - intros sid retrieved w3 Hsid Hsidne Hretrieve.
    apply String.eqb_neq in Hsidne.
    rewrite Hsid. cbn. rewrite Hsidne. cbn.
    answer_with Hretrieve. split.
    + intros item w4 w5 Hitem Hswap Hrecord. rewrite Hitem. cbn.
      answer_with Hswap. answer_with Hrecord. reflexivity.
    + intros Hempty. rewrite Hempty. cbn.
      match goal with
      | |- context [env unit (LoggerError ?m ?loc) w3] =>
          destruct (env unit (LoggerError m loc) w3) as [[u | m'] w4]
      end; cbn; repeat split.
Qed.

Lemma updateSubscription_plan_switch_witness :
  response_of (run world (updateSubscription (changeTo "explorer-500")) Sample.w0)
  = Responded (sendStatus 200)
  /\ s_planId <$>
       subscriptions (state_of (run world (updateSubscription (changeTo "explorer-500"))
                                  Sample.w0)) !! 20 = Some 3.
Proof.
  pose (swap := SubscriptionsUpdate "sub_1"
                  {| cancel_at_period_end := false;
                     proration_behavior := Some "always_invoice";
                     su_item := Some ("si_1", "price_500") |}).
  pose (w4 := snd (world _ swap Sample.w0)).
  pose (w5 := snd (world _ (UpdateExplorerSubscription 1 20 3 (Some Sample.sub1)) w4)).
  pose proof (updateSubscription_plan_switch World world (changeTo "explorer-500")
                "explorer-500" (demoExplorer false) (demoSubscription false)
                Sample.explorer500 Sample.w0 Sample.w0 Sample.w0) as H.
  cbv zeta in H.
  destruct H as [_ H];
    [reflexivity | discriminate | vm_compute; reflexivity | reflexivity | reflexivity
    | vm_compute; reflexivity | reflexivity |].
  destruct (H "sub_1" Sample.sub1 Sample.w0) as [H1 _];
    [reflexivity | discriminate | vm_compute; reflexivity |].
  rewrite (H1 "si_1" w4 w5);
    [split; vm_compute; reflexivity | reflexivity | vm_compute; reflexivity
    | vm_compute; reflexivity].
Defined.

(** ** Suffixes and slugs *)

(** Unfold one step of string concatenation. *)
Ltac step_append := cbv beta iota delta [String.append]; fold String.append.

Lemma length_append (p t : string) :
  String.length (p ++ t) = (String.length p + String.length t)%nat.
Proof.
  induction p as [| c p IH]; step_append; cbn; [reflexivity | f_equal; exact IH].
Qed.

Lemma substring_whole (t : string) : String.substring 0 (String.length t) t = t.
Proof. induction t as [| c t IH]; cbn; [reflexivity | f_equal; exact IH]. Qed.

Lemma substring_skip (p t : string) (m : nat) :
  String.substring (String.length p) m (p ++ t) = String.substring 0 m t.
Proof. induction p as [| c p IH]; step_append; cbn; [reflexivity | exact IH]. Qed.

Lemma substring_split (s : string) :
  forall k : nat,
    (k <= String.length s)%nat ->
    s = String.substring 0 k s ++ String.substring k (String.length s - k) s.
Proof.
  induction s as [| c s IH]; intros k Hk; cbn in *.
  - destruct k; reflexivity.
  - destruct k as [| k]; cbn; step_append.
    + rewrite substring_whole. reflexivity.
    + rewrite <- (IH k) by lia. reflexivity.
Qed.

(** [endsWith s t] holds exactly when [s] is some string followed by [t]. *)
Lemma endsWith_spec (s t : string) :
  endsWith s t = true <-> exists p : string, s = p ++ t.
Proof.
  unfold endsWith. split.
  - intros H. apply andb_prop in H as [Hle Heq].
    apply Nat.leb_le in Hle. apply String.eqb_eq in Heq.
    exists (String.substring 0 (String.length s - String.length t) s).
    pose proof (substring_split s (String.length s - String.length t)%nat) as Hs.
    replace (String.length s - (String.length s - String.length t))%nat
      with (String.length t) in Hs by lia.
    rewrite Heq in Hs. apply Hs. lia.
  - intros [p ->]. rewrite length_append.
    replace (String.length p + String.length t - String.length t)%nat
      with (String.length p) by lia.
    rewrite substring_skip, substring_whole, String.eqb_refl.
    replace (Nat.leb (String.length t) (String.length p + String.length t)) with true;
      [reflexivity |].
    symmetry. apply Nat.leb_le. lia.
Qed.

Lemma prefix_append (sep r : string) : String.prefix sep (sep ++ r) = true.
Proof.
  induction sep as [| c sep IH]; step_append; cbn.
  - destruct r; reflexivity.
  - destruct (ascii_dec c c); [exact IH | contradiction].
Qed.

(** Cutting [slug.rest] at the first [.rest] gives back a slug without
    dots. *)
Lemma split_head_dot_free (slug rest tail : string) :
  dot_free slug = true ->
  split_head (String "."%char rest) (slug ++ String "."%char rest ++ tail) = slug.
Proof.
  intros Hfree. induction slug as [| c slug IH]; step_append.
  - cbn [split_head].
    change (String "." (rest ++ tail)) with (String "." rest ++ tail).
    rewrite prefix_append. reflexivity.
  - cbn in Hfree. apply andb_prop in Hfree as [Hc Hfree].
    apply Bool.negb_true_iff in Hc. apply Ascii.eqb_neq in Hc.
    cbn [split_head String.prefix].
    destruct (ascii_dec "." c) as [E | _]; [congruence |].
    f_equal. apply IH. exact Hfree.
Qed.

Lemma append_inv_tail (t : string) :
  forall p q : string, p ++ t = q ++ t -> p = q.
Proof.
  intros p q H.
  assert (Hlen : String.length p = String.length q).
  { apply (f_equal String.length) in H. rewrite !length_append in H. lia. }
  revert q H Hlen.
  induction p as [| c p IH]; intros [| d q] H Hlen; cbn in Hlen;
    try discriminate; [reflexivity |].
  revert H. step_append. intros H.
  injection H as -> H. f_equal. apply IH; [exact H | lia].
Qed.

(** ** Custom domains *)

(** X10. [createDomain] rejects every domain under the platform's root domain
    before looking anything up, and whatever the collaborators answer the
    only domains it ever stores are non-empty and not under the
    platform's root. *)
Theorem createDomain_reserves_root :
  forall (W : Type) (env : environment W) (cfg : Config) (req : Request)
         (label : string) (w w1 : W),
    domain req = Some (label ++ appDomain cfg) ->
    label ++ appDomain cfg <> EmptyString ->
    answers env (LoggerError (reserved_domain_message cfg) "post.api.explorers.id.domains")
      w (Ok tt) w1 ->
    run env (createDomain cfg req) w =
      (Responded (send 400 (Text (reserved_domain_message cfg))), w1,
       [Interaction (LoggerError (reserved_domain_message cfg)
                       "post.api.explorers.id.domains") (Ok tt)])
    /\ (forall (req' : Request) (w' : W),
          forallb (domain_with (custom_domain_allowed cfg))
            (trace_of (run env (createDomain cfg req') w')) = true).
Proof.
  intros W env cfg req label w w1 Hdomain Hne Hlog. split.
  - assert (Hends : endsWith (label ++ appDomain cfg) (appDomain cfg) = true)
      by (apply endsWith_spec; eauto).
    apply String.eqb_neq in Hne.
    unfold createDomain, handler, require_str, throw_if.
    rewrite Hdomain. cbn. rewrite Hne. cbn. rewrite Hends. cbn.
    unfold reserved_domain_message in Hlog |- *.
    answer_with Hlog. reflexivity.
  - intros req' w'.
    apply (every_run_sound env (createDomain cfg req')
      (fun t _ => forallb (domain_with (custom_domain_allowed cfg)) t = true)).
    unfold_handlers. unfold custom_domain_allowed.
    explore; cbn; use_equations; reflexivity.
Qed.

Lemma createDomain_reserves_root_witness :
  response_of (run world (createDomain Sample.cfg
                            (domainRequest Sample.alice "blog.tryethernal.com")) Sample.w0)
  = Responded (send 400 (Text (reserved_domain_message Sample.cfg))).
Proof.
  pose proof (createDomain_reserves_root World world Sample.cfg
                (domainRequest Sample.alice "blog.tryethernal.com") "blog." Sample.w0
                (set_logged (cons (reserved_domain_message Sample.cfg,
                                   "post.api.explorers.id.domains")) Sample.w0)) as H.
  destruct H as [H _]; [reflexivity | discriminate | vm_compute; reflexivity |].
  rewrite H. reflexivity.
Defined.

(** ** Public lookup: slugs and capabilities *)

Lemma append_empty_r (s : string) : s ++ EmptyString = s.
Proof. induction s as [| c s IH]; step_append; [reflexivity | f_equal; exact IH]. Qed.

Lemma append_assoc (p q r : string) : (p ++ q) ++ r = p ++ q ++ r.
Proof. induction p as [| c p IH]; step_append; [reflexivity | f_equal; exact IH]. Qed.

(** X11. The platform gives explorer [slug] the domain [slug.root].  Looking
    that domain up recovers the slug: for a slug without dots, other than
    [app], the first and only lookup is the lookup by that slug, and an
    explorer it finds with a subscription is returned, filtered by its
    plan's capabilities. *)
Theorem search_recovers_slug :
  forall (W : Type) (env : environment W) (cfg : Config) (req : Request)
         (sl : string) (explorer : Explorer) (subscription : StripeSubscription)
         (w w1 : W),
    query_domain req = Some (sl ++ "." ++ appDomain cfg) ->
    dot_free sl = true ->
    sl <> "app" ->
    answers env (GetPublicExplorerParamsBySlug sl) w (Ok (Some explorer)) w1 ->
    stripeSubscription explorer = Some subscription ->
    run env (search cfg req) w =
      (Responded (send 200 (JsonExplorer
         (filterByCapabilities (capabilities (stripePlan subscription)) explorer))),
       w1, [Interaction (GetPublicExplorerParamsBySlug sl) (Ok (Some explorer))]).
Proof.
  intros W env cfg req sl explorer subscription w w1 Hq Hfree Hnotapp Hget Hsub.
  set (queried := sl ++ "." ++ appDomain cfg) in *.
  assert (Hne : String.eqb queried EmptyString = false).
  { apply String.eqb_neq. unfold queried. destruct sl; step_append; discriminate. }
  assert (Happ : String.eqb queried ("app." ++ appDomain cfg) = false).
  { apply String.eqb_neq. unfold queried. intros E. apply Hnotapp.
    apply (append_inv_tail ("." ++ appDomain cfg)). exact E. }
  assert (Hends : endsWith queried (appDomain cfg) = true).
  { apply endsWith_spec. exists (sl ++ "."). unfold queried.
    rewrite append_assoc. reflexivity. }
  assert (Hsplit : split_head ("." ++ appDomain cfg) queried = sl).
  { unfold queried.
    rewrite <- (append_empty_r ("." ++ appDomain cfg)) at 2.
    apply (split_head_dot_free sl (appDomain cfg) EmptyString). exact Hfree. }
  unfold search, handler, require_str.
  rewrite Hq. cbn. rewrite Hne. cbn. rewrite Happ, Hends, Hsplit.
  answer_with Hget. rewrite Hsub. reflexivity.
Qed.

Lemma search_recovers_slug_witness :
  response_of (run world (search Sample.cfg (lookup "demo.tryethernal.com")) Sample.w0)
  = Responded (send 200 (JsonExplorer
      (filterByCapabilities (Sample.caps false) (demoExplorer false)))).
Proof.
  rewrite (search_recovers_slug World world Sample.cfg (lookup "demo.tryethernal.com")
             "demo" (demoExplorer false) (demoSubscription false) Sample.w0 Sample.w0);
    [reflexivity | reflexivity | reflexivity | discriminate | vm_compute; reflexivity
    | reflexivity].
Defined.

(** X12. Whatever the collaborators answer, an explorer that the public lookup
    returns has a subscription and shows nothing beyond its plan's
    capabilities (without the capability: token [ether], no total supply,
    default themes).  The bare 200 is only sent for the platform's own
    app subdomain, without any call.  A domain that [createDomain] lets
    through is never looked up by slug. *)
Theorem search_within_capabilities :
  forall (W : Type) (env : environment W) (cfg : Config) (req : Request) (w : W),
    let t := trace_of (run env (search cfg req) w) in
    let r := response_of (run env (search cfg req) w) in
    (forall e : Explorer,
       r = Responded (send 200 (JsonExplorer e)) -> within_capabilities e)
    /\ (r = Responded (sendStatus 200) ->
        query_domain req = Some ("app." ++ appDomain cfg) /\ t = [])
    /\ (forall d : string,
          query_domain req = Some d ->
          custom_domain_allowed cfg d = true ->
          calls (@is_by_slug) t = false).
Proof.
  intros W env cfg req w.
  apply (every_run_sound env (search cfg req)
    (fun t r =>
       (forall e : Explorer,
          r = Responded (send 200 (JsonExplorer e)) -> within_capabilities e)
       /\ (r = Responded (sendStatus 200) ->
           query_domain req = Some ("app." ++ appDomain cfg) /\ t = [])
       /\ (forall d : string,
             query_domain req = Some d ->
             custom_domain_allowed cfg d = true ->
             calls (@is_by_slug) t = false))).
  unfold_handlers. unfold custom_domain_allowed, within_capabilities.
  destruct (query_domain req) as [queried |] eqn:Hq.
  2: { explore; repeat split; intros; discriminate. }
  assert (Hd : forall d : string,
             Some queried = Some d ->
             negb (String.eqb d EmptyString) && negb (endsWith d (appDomain cfg)) = true ->
             endsWith queried (appDomain cfg) = false).
  { intros d E H. injection E as <-. apply andb_prop in H as [_ H].
    apply Bool.negb_true_iff in H. exact H. }
  explore; cbn; repeat split; intros;
    repeat match goal with
           | H : Responded _ = Responded _ |- _ => injection H as H
           | H : {| code := _; body := _ |} = _ |- _ => injection H as H
           | H : JsonExplorer _ = JsonExplorer _ |- _ => injection H as H; subst
           end;
    try discriminate; try reflexivity;
    try (match goal with
         | H : String.eqb _ _ = true |- _ => apply String.eqb_eq in H; subst; reflexivity
         end);
    try (eapply Hd; eassumption);
    try (subst; eexists; split; [cbn; eassumption |];
         cbn; repeat split; intros Hcap; rewrite Hcap; reflexivity).
Qed.

Lemma search_within_capabilities_witness :
  within_capabilities
    (filterByCapabilities (Sample.caps false) (demoExplorer false)).
Proof.
  apply (search_within_capabilities World world Sample.cfg
           (lookup "demo.tryethernal.com") Sample.w0).
  vm_compute. reflexivity.
Defined.

(** ** Invoiced subscriptions *)

(** X13. Whatever the collaborators answer, [startCryptoSubscription] never
    writes a local record; every subscription it creates at the billing
    provider is invoiced, due in the configured number of days, and is
    created only after the plan lookup resolved to a public plan; and for
    a requester without crypto payment it makes no call but the logger's
    and reports failure. *)
Theorem startCryptoSubscription_only_invoices :
  forall (W : Type) (env : environment W) (cfg : Config) (req : Request) (w : W),
    let t := trace_of (run env (startCryptoSubscription cfg req) w) in
    let r := response_of (run env (startCryptoSubscription cfg req) w) in
    calls (@is_write) t = false
    /\ forallb (create_with (invoiced_in (defaultExplorerTrialDays cfg))) t = true
    /\ (calls (@is_create_subscription) t = true -> existsb public_plan_found t = true)
    /\ (cryptoPaymentEnabled (user req) = false ->
        calls (@is_not_logger) t = false /\ succeeded r = false).
Proof.
  intros W env cfg req w.
  apply (every_run_sound env (startCryptoSubscription cfg req)
    (fun t r =>
       calls (@is_write) t = false
       /\ forallb (create_with (invoiced_in (defaultExplorerTrialDays cfg))) t = true
       /\ (calls (@is_create_subscription) t = true ->
           existsb public_plan_found t = true)
       /\ (cryptoPaymentEnabled (user req) = false ->
           calls (@is_not_logger) t = false /\ succeeded r = false))).
  unfold_handlers. unfold invoiced_in.
  explore; cbn; rewrite ?Z.eqb_refl; repeat split; intros;
    repeat match goal with
           | H : negb ?b = _, E : ?b = _ |- _ => rewrite E in H; cbn in H
           | H : negb (public ?p) = false |- _ =>
               apply Bool.negb_false_iff in H; rewrite H
           end;
    try discriminate; reflexivity.
Qed.

Lemma startCryptoSubscription_only_invoices_witness :
  calls (@is_not_logger)
    (trace_of (run world (startCryptoSubscription Sample.cfg
                            (domainRequest Sample.alice "x")) Sample.w0)) = false
  /\ succeeded
       (response_of (run world (startCryptoSubscription Sample.cfg
                                  (domainRequest Sample.alice "x")) Sample.w0)) = false.
Proof.
  apply (startCryptoSubscription_only_invoices World world Sample.cfg
           (domainRequest Sample.alice "x") Sample.w0).
  reflexivity.
Defined.

(** ** Settings *)

(** X14. [updateSettings] looks a workspace up only when the request names one
    other than the explorer's own; otherwise it just updates the
    settings.  When the named workspace is not found it fails without
    writing anything.  When it is found, the explorer is re-pointed to it,
    whether or not that workspace already has an explorer (the handler
    makes no such check), and then the settings are updated.  Whatever
    the collaborators answer, the settings are not written when the
    re-pointing rejects. *)
Theorem updateSettings_workspace_switch :
  forall (W : Type) (env : environment W) (req : Request) (explorer : Explorer)
         (ws : Workspace) (w w1 : W),
    answers env (GetExplorerById (user_id (user req)) (params_id req) false) w
      (Ok (Some explorer)) w1 ->
    workspace explorer = Some ws ->
    let found :=
      Interaction (GetExplorerById (user_id (user req)) (params_id req) false)
        (Ok (Some explorer)) in
    let settings := UpdateExplorerSettings (ex_id explorer) req in
    (names_other_workspace req ws = false ->
     forall w2 : W,
       answers env settings w1 (Ok tt) w2 ->
       run env (updateSettings req) w =
         (Responded (sendStatus 200), w2, [found; Interaction settings (Ok tt)]))
    /\ (forall n : string,
          data_workspace req = Some n ->
          n <> EmptyString ->
          n <> ws_name ws ->
          let byName := GetWorkspaceByName (uid req) n in
          (forall w2 w3 : W,
             answers env byName w1 (Ok None) w2 ->
             answers env (LoggerError invalid_workspace "post.api.explorers.settings") w2
               (Ok tt) w3 ->
             run env (updateSettings req) w =
               (Responded (send 400 (Text invalid_workspace)), w3,
                [found; Interaction byName (Ok None);
                 Interaction (LoggerError invalid_workspace "post.api.explorers.settings")
                   (Ok tt)]))
          /\ (forall (target : Workspace) (w2 w3 w4 : W),
                answers env byName w1 (Ok (Some target)) w2 ->
                answers env (UpdateExplorerWorkspace (ex_id explorer) (ws_id target)) w2
                  (Ok tt) w3 ->
                answers env settings w3 (Ok tt) w4 ->
                run env (updateSettings req) w =
                  (Responded (sendStatus 200), w4,
                   [found; Interaction byName (Ok (Some target));
                    Interaction (UpdateExplorerWorkspace (ex_id explorer) (ws_id target))
                      (Ok tt);
                    Interaction settings (Ok tt)])))
    /\ (forall (req' : Request) (w' : W),
          let t := trace_of (run env (updateSettings req') w') in
          let r := response_of (run env (updateSettings req') w') in
          (rejects (@is_repoint) t = true ->
             calls (@is_settings_write) t = false /\ succeeded r = false)
          /\ (succeeded r = true -> commits (@is_settings_write) t = true)).
Proof.
  intros W env req explorer ws w w1 Hget Hws. cbv zeta.
  unfold names_other_workspace, invalid_workspace.
  split; [| split].
  - intros Hsame w2 Hsettings.
    unfold updateSettings, handler.
    answer_with Hget. rewrite Hws. cbn. rewrite Hsame. cbn.
    answer_with Hsettings. reflexivity.
  - intros n Hn Hne Hother.
    apply String.eqb_neq in Hne. apply String.eqb_neq in Hother.
    unfold updateSettings, handler.
    answer_with Hget. rewrite Hws. cbn. rewrite Hn. cbn. rewrite Hne, Hother. cbn.
    split.
    + intros w2 w3 Hname Hlog. answer_with Hname. answer_with Hlog. reflexivity.
    + intros target w2 w3 w4 Hname Hrepoint Hsettings.
      answer_with Hname. answer_with Hrepoint. answer_with Hsettings. reflexivity.
  - intros req' w'.
    apply (every_run_sound env (updateSettings req')
      (fun t r =>
         (rejects (@is_repoint) t = true ->
            calls (@is_settings_write) t = false /\ succeeded r = false)
         /\ (succeeded r = true -> commits (@is_settings_write) t = true))).
    unfold_handlers.
    explore; cbn; repeat split; intros; try discriminate; reflexivity.
Qed.

Lemma updateSettings_workspace_switch_witness :
  response_of (run world (updateSettings (settingsRequest (Some "main"))) Sample.w0)
  = Responded (sendStatus 200)
  /\ e_workspaceId <$>
       explorers (state_of (run world (updateSettings (settingsRequest (Some "main")))
                              Sample.w0)) !! 21 = Some 10.
Proof.
  pose (w3 := snd (world _ (UpdateExplorerWorkspace 21 10) Sample.w0)).
  pose proof (updateSettings_workspace_switch World world (settingsRequest (Some "main"))
                idleExplorer idleWorkspace Sample.w0 Sample.w0) as H.
  cbv zeta in H.
  destruct H as (_ & H & _); [vm_compute; reflexivity | reflexivity |].
  destruct (H "main") as [_ H1]; [reflexivity | discriminate | discriminate |].
  rewrite (H1 demoWorkspace Sample.w0 w3 w3);
    [split; vm_compute; reflexivity | vm_compute; reflexivity | vm_compute; reflexivity
    | vm_compute; reflexivity].
Defined.

(** ** Refreshing every sync process *)

Lemma show_int_inj (a b : Z) : show_int a = show_int b -> a = b.
Proof.
  unfold show_int. intros H.
  assert (Hnonnil : forall z : Z,
            Z.to_int z <> Decimal.Pos Decimal.Nil
            /\ Z.to_int z <> Decimal.Neg Decimal.Nil).
  { intros [| p | p]; cbn; split; try discriminate;
      intros E; injection E as E; exact (DecimalPos.Unsigned.to_uint_nonnil p E). }
  pose proof (NilZero.isi (Z.to_int a) (proj1 (Hnonnil a)) (proj2 (Hnonnil a))) as Ha.
  pose proof (NilZero.isi (Z.to_int b) (proj1 (Hnonnil b)) (proj2 (Hnonnil b))) as Hb.
  rewrite H in Ha. rewrite Ha in Hb. injection Hb as Hb.
  apply DecimalZ.to_int_inj. exact Hb.
Qed.

Lemma append_inv_head (p a b : string) : p ++ a = p ++ b -> a = b.
Proof.
  induction p as [| c p IH]; step_append; intros H; [exact H |].
  injection H as H. apply IH. exact H.
Qed.

(** X15. [syncExplorers] enqueues, in one batch on the
    [updateExplorerSyncingProcess] queue, exactly one job per explorer, in
    the order of the explorers and carrying each explorer's slug; the
    batch is enqueued even when there is no explorer.  Explorers with
    distinct ids get distinct job names. *)
Theorem syncExplorers_one_job_each :
  forall (W : Type) (env : environment W) (req : Request) (l : list Explorer)
         (w w1 w2 : W),
    answers env ExplorerFindAll w (Ok l) w1 ->
    answers env (BulkEnqueue "updateExplorerSyncingProcess" (sync_jobs l)) w1 (Ok tt) w2 ->
    run env (syncExplorers req) w =
      (Responded (sendStatus 200), w2,
       [Interaction ExplorerFindAll (Ok l);
        Interaction (BulkEnqueue "updateExplorerSyncingProcess" (sync_jobs l)) (Ok tt)])
    /\ length (sync_jobs l) = length l
    /\ map explorerSlug (sync_jobs l) = map slug l
    /\ (NoDup (map ex_id l) -> NoDup (map job_name (sync_jobs l))).
Proof.
  intros W env req l w w1 w2 Hall Henqueue. repeat split.
  - unfold syncExplorers, handler, sync_jobs in *.
    answer_with Hall. answer_with Henqueue. reflexivity.
  - unfold sync_jobs. apply length_map.
  - unfold sync_jobs. rewrite map_map. reflexivity.
  - intros Hids. unfold sync_jobs. rewrite map_map. cbn.
    rewrite <- (map_map ex_id
                  (fun id => "updateExplorerSyncingProcess-" ++ show_int id)).
    apply NoDup_fmap_2; [| exact Hids].
    intros a b E. apply show_int_inj.
    apply (append_inv_head "updateExplorerSyncingProcess-"). exact E.
Qed.

Lemma syncExplorers_one_job_each_witness :
  response_of (run world (syncExplorers (Sample.request Sample.alice EmptyString)) Sample.w0)
  = Responded (sendStatus 200)
  /\ map job_name
       (enqueued (state_of (run world (syncExplorers
                                         (Sample.request Sample.alice EmptyString))
                              Sample.w0)))
     = ["updateExplorerSyncingProcess-21"; "updateExplorerSyncingProcess-20"].
Proof.
  pose (l := all_explorers Sample.w0).
  pose (w2 := snd (world _ (BulkEnqueue "updateExplorerSyncingProcess" (sync_jobs l))
                     Sample.w0)).
  pose proof (syncExplorers_one_job_each World world
                (Sample.request Sample.alice EmptyString) l Sample.w0 Sample.w0 w2) as H.
  destruct H as [H _]; [vm_compute; reflexivity | vm_compute; reflexivity |].
  rewrite H. split; vm_compute; reflexivity.
Defined.

(** ** Starting a trial: the plan *)

(** X16. [startTrial] goes through for any plan the lookup resolves to, public
    or not: user with [canTrial], explorer and plan found, the trial
    subscription created for the user's customer at the plan's price, the
    customer retrieved, the record persisted with that snapshot, the flag
    flipped.  Whatever the collaborators answer, every subscription it
    creates is a trial of the configured length that is cancelled when no
    payment method is on file at its end. *)
Theorem startTrial_any_plan :
  forall (W : Type) (env : environment W) (cfg : Config) (req : Request)
         (planSlug : string) (u : User) (explorer : Explorer) (p : StripePlan)
         (subscription : BillingSubscription) (customer : BillingCustomer)
         (w w1 w2 w3 w4 w5 w6 w7 : W),
    stripePlanSlug req = Some planSlug ->
    planSlug <> EmptyString ->
    answers env (GetUser (uid req) ["stripeCustomerId"; "canTrial"]) w (Ok (Some u)) w1 ->
    canTrial u = true ->
    answers env (GetExplorerById (user_id u) (params_id req) false) w1
      (Ok (Some explorer)) w2 ->
    answers env (GetStripePlan planSlug) w2 (Ok (Some p)) w3 ->
    answers env (SubscriptionsCreate (trialParams cfg u p explorer)) w3
      (Ok (Some subscription)) w4 ->
    answers env (CustomersRetrieve (Some (sub_customer subscription))) w4 (Ok customer) w5 ->
    answers env (CreateExplorerSubscription (user_id u) (ex_id explorer) (plan_id p)
                   (Some (subscription, customer))) w5 (Ok tt) w6 ->
    answers env (DisableUserTrial (user_id u)) w6 (Ok tt) w7 ->
    run env (startTrial cfg req) w =
      (Responded (sendStatus 200), w7,
       [Interaction (GetUser (uid req) ["stripeCustomerId"; "canTrial"]) (Ok (Some u));
        Interaction (GetExplorerById (user_id u) (params_id req) false)
          (Ok (Some explorer));
        Interaction (GetStripePlan planSlug) (Ok (Some p));
        Interaction (SubscriptionsCreate (trialParams cfg u p explorer))
          (Ok (Some subscription));
        Interaction (CustomersRetrieve (Some (sub_customer subscription))) (Ok customer);
        Interaction (CreateExplorerSubscription (user_id u) (ex_id explorer) (plan_id p)
                       (Some (subscription, customer))) (Ok tt);
        Interaction (DisableUserTrial (user_id u)) (Ok tt)])
    /\ (forall (req' : Request) (w' : W),
          forallb (create_with (trial_of (defaultExplorerTrialDays cfg)))
            (trace_of (run env (startTrial cfg req') w')) = true).
Proof.
  intros W env cfg req planSlug u explorer p subscription customer
    w w1 w2 w3 w4 w5 w6 w7 Hslug Hne Huser Htrial Hexplorer Hplan Hcreate Hcustomer
    Hrecord Hflip.
  apply String.eqb_neq in Hne. split.
  - unfold startTrial, handler, require_str, trialParams in *.
    rewrite Hslug. cbn. rewrite Hne.
    answer_with Huser. rewrite Htrial. cbn.
    answer_with Hexplorer. answer_with Hplan. answer_with Hcreate.
    answer_with Hcustomer. answer_with Hrecord. answer_with Hflip. reflexivity.
  - intros req' w'.
    apply (every_run_sound env (startTrial cfg req')
      (fun t _ =>
         forallb (create_with (trial_of (defaultExplorerTrialDays cfg))) t = true)).
    unfold_handlers. unfold trial_of.
    explore; cbn; rewrite ?Z.eqb_refl; reflexivity.
Qed.

Lemma startTrial_any_plan_witness :
  response_of (run world (startTrial Sample.cfg privateTrial) Sample.w0)
  = Responded (sendStatus 200)
  /\ public Sample.selfHosted = false.
Proof.
  pose (create := SubscriptionsCreate
                    (trialParams Sample.cfg Sample.alice Sample.selfHosted idleExplorer)).
  pose (subscription := {| sub_id := "sub_100"; sub_customer := "cus_1";
                           sub_items := ["si_100"] |}).
  pose (customer := {| cus_id := "cus_1"; default_source := Some "card_1" |}).
  pose (w4 := snd (world _ create Sample.w0)).
  pose (w6 := snd (world _ (CreateExplorerSubscription 1 21 1
                              (Some (subscription, customer))) w4)).
  pose (w7 := snd (world _ (DisableUserTrial 1) w6)).
  pose proof (startTrial_any_plan World world Sample.cfg privateTrial "self-hosted"
                Sample.alice idleExplorer Sample.selfHosted subscription customer
                Sample.w0 Sample.w0 Sample.w0 Sample.w0 w4 w4 w6 w7) as H.
  destruct H as [H _];
    [reflexivity | discriminate | vm_compute; reflexivity | reflexivity
    | vm_compute; reflexivity | vm_compute; reflexivity | vm_compute; reflexivity
    | vm_compute; reflexivity | vm_compute; reflexivity | vm_compute; reflexivity |].
  rewrite H. split; reflexivity.
Defined.

(** ** Explorer creation: subscriptions and the user *)

(** X17. With billing disabled, [createExplorer] never calls the billing
    provider, and it only reports success once it has created the
    explorer and recorded a subscription for it. *)
Theorem createExplorer_billing_disabled :
  forall (W : Type) (env : environment W) (cfg : Config) (req : Request) (w : W),
    stripeEnabled cfg = false ->
    let t := trace_of (run env (createExplorer cfg req) w) in
    let r := response_of (run env (createExplorer cfg req) w) in
    calls (@is_billing) t = false
    /\ (succeeded r = true ->
        commits (@is_create_explorer) t = true
        /\ commits (@is_subscription_record) t = true).
Proof.
  intros W env cfg req w Hstripe.
  apply (every_run_sound env (createExplorer cfg req)
    (fun t r =>
       calls (@is_billing) t = false
       /\ (succeeded r = true ->
           commits (@is_create_explorer) t = true
           /\ commits (@is_subscription_record) t = true))).
  unfold_handlers. rewrite Hstripe. cbn.
  explore; cbn; repeat split; intros; try discriminate; reflexivity.
Qed.

Lemma createExplorer_billing_disabled_witness :
  calls (@is_billing)
    (trace_of (run world (createExplorer cfgNoBilling createFresh) Sample.w0)) = false
  /\ commits (@is_subscription_record)
       (trace_of (run world (createExplorer cfgNoBilling createFresh) Sample.w0)) = true.
Proof.
  pose proof (createExplorer_billing_disabled World world cfgNoBilling createFresh
                Sample.w0 eq_refl) as H.
  cbv zeta in H. destruct H as [H1 H2]. split; [exact H1 |].
  apply H2. vm_compute. reflexivity.
Defined.

(** X18. Whatever the collaborators answer, [createExplorer] creates at most
    one explorer per run, a success is always a 200 carrying an explorer,
    and the explorer it carries is the one the creation call returned. *)
Theorem createExplorer_returns_created :
  forall (W : Type) (env : environment W) (cfg : Config) (req : Request) (w : W),
    let t := trace_of (run env (createExplorer cfg req) w) in
    let r := response_of (run env (createExplorer cfg req) w) in
    (count_calls (@is_create_explorer) t <= 1)%nat
    /\ (succeeded r = true ->
        exists x : Explorer,
          r = Responded (send 200 (JsonExplorer x))
          /\ exists i : interaction, In i t /\ creates x i).
Proof.
  intros W env cfg req w.
  apply (every_run_sound env (createExplorer cfg req)
    (fun t r =>
       (count_calls (@is_create_explorer) t <= 1)%nat
       /\ (succeeded r = true ->
           exists x : Explorer,
             r = Responded (send 200 (JsonExplorer x))
             /\ exists i : interaction, In i t /\ creates x i))).
  unfold_handlers.
  explore; cbn; (split; [lia |]); intros Hok; try discriminate;
    eexists; (split; [reflexivity |]);
    first [ solve [eexists; split; [left; reflexivity | reflexivity]]
          | solve [eexists; split; [right; left; reflexivity | reflexivity]]
          | solve [eexists; split; [right; right; left; reflexivity | reflexivity]]
          | solve [eexists; split; [right; right; right; left; reflexivity | reflexivity]]
          | solve [eexists; split;
                   [right; right; right; right; left; reflexivity | reflexivity]] ].
Qed.

Lemma createExplorer_returns_created_witness :
  exists x : Explorer,
    response_of (run world (createExplorer Sample.cfg attachNullProbe) Sample.w0)
    = Responded (send 200 (JsonExplorer x))
    /\ exists i : interaction,
         In i (trace_of (run world (createExplorer Sample.cfg attachNullProbe) Sample.w0))
         /\ creates x i.
Proof.
  apply (createExplorer_returns_created World world Sample.cfg attachNullProbe Sample.w0).
  vm_compute. reflexivity.
Defined.

(** X19. In a run of [createExplorer] in which the user lookup resolves to no
    user, nothing is ever written (no explorer, no workspace, no
    subscription) and the request is not reported as a success. *)
Theorem createExplorer_needs_user :
  forall (W : Type) (env : environment W) (cfg : Config) (req : Request) (w : W),
    let t := trace_of (run env (createExplorer cfg req) w) in
    let r := response_of (run env (createExplorer cfg req) w) in
    existsb no_user_seen t = true ->
    calls (@is_write) t = false /\ calls (@is_billing) t = false
    /\ succeeded r = false.
Proof.
  intros W env cfg req w.
  apply (every_run_sound env (createExplorer cfg req)
    (fun t r =>
       existsb no_user_seen t = true ->
       calls (@is_write) t = false /\ calls (@is_billing) t = false
       /\ succeeded r = false)).
  unfold_handlers.
  explore; cbn; intros Hnone; subst; cbn in *; try discriminate; repeat split.
Qed.

Lemma createExplorer_needs_user_witness :
  calls (@is_write)
    (trace_of (run world (createExplorer Sample.cfg strangerCreates) Sample.w0)) = false
  /\ succeeded
       (response_of (run world (createExplorer Sample.cfg strangerCreates) Sample.w0))
     = false.
Proof.
  pose proof (createExplorer_needs_user World world Sample.cfg strangerCreates Sample.w0)
    as H.
  cbv zeta in H. destruct H as (H1 & _ & H2); [vm_compute; reflexivity |].
  split; [exact H1 | exact H2].
Defined.

(** X20. Whatever the collaborators answer, [createExplorer] creates a
    subscription at the billing provider only after the explorer has been
    created and the plan lookup has resolved to a public plan; and that
    subscription is either invoiced with seven days to pay, or charged to
    a customer whose retrieval showed a default payment source. *)
Theorem createExplorer_external_subscription :
  forall (W : Type) (env : environment W) (cfg : Config) (req : Request) (w : W),
    let t := trace_of (run env (createExplorer cfg req) w) in
    calls (@is_external_create) t = true ->
    commits (@is_create_explorer) t = true
    /\ existsb public_plan_found t = true
    /\ (forallb (create_with (invoiced_in 7)) t = true
        \/ existsb card_on_file t = true).
Proof.
  intros W env cfg req w.
  apply (every_run_sound env (createExplorer cfg req)
    (fun t _ =>
       calls (@is_external_create) t = true ->
       commits (@is_create_explorer) t = true
       /\ existsb public_plan_found t = true
       /\ (forallb (create_with (invoiced_in 7)) t = true
           \/ existsb card_on_file t = true))).
  unfold_handlers. unfold invoiced_in.
  explore; cbn; intros Hcall; try discriminate;
    repeat match goal with
           | H : negb ?b = false |- _ => apply Bool.negb_false_iff in H; rewrite H
           end;
    cbn; repeat split; auto.
Qed.

Lemma createExplorer_external_subscription_witness :
  existsb card_on_file
    (trace_of (run world (createExplorer Sample.cfg
                            (Sample.with_create None (Some "https://x") (Some "paid") true
                               (Some "explorer-150")
                               (Sample.request Sample.alice EmptyString)))
                 Sample.w0)) = true.
Proof.
  pose proof (createExplorer_external_subscription World world Sample.cfg
                (Sample.with_create None (Some "https://x") (Some "paid") true
                   (Some "explorer-150") (Sample.request Sample.alice EmptyString))
                Sample.w0) as H.
  cbv zeta in H. destruct H as (_ & _ & [H | H]); [vm_compute; reflexivity | | exact H].
  vm_compute in H. discriminate H.
Defined.

(** * The user model *)

Lemma every_orm_run_sound {W R : Type} (env : ormEnvironment W) (p : mprog R) :
  forall (Q : list ormInteraction -> result R -> Prop) (w : W),
    every_orm_run p Q ->
    Q (snd (mrun env p w)) (fst (fst (mrun env p w))).
Proof.
  induction p as [r | m | A c k IH]; intros Q w H; cbn in *.
  - exact H.
  - exact H.
  - destruct (env A c w) as [o w1].
    specialize (IH o _ w1 (H o)).
    destruct (mrun env (k o) w1) as [[r w2] t]. exact IH.
Qed.

(** X21. [safeCreate] throws the string [[User.createUser] Missing parameter]
    without querying anything as soon as one of its five required
    arguments is missing or empty.  Otherwise it looks for a user with
    the same external id or the same email: when one exists it resolves
    to nothing and creates nothing; when none exists it creates one user
    from the sanitized attributes and resolves to it.  Whatever the ORM
    answers, at most one user is created, and none when the lookup found
    one.  The [transaction] argument plays no part. *)
Theorem safeCreate_creates_once :
  forall (sanitize : fields -> fields)
         (firebaseUserId email apiKey stripeCustomerId plan explorerSubscriptionId
            transaction : option string),
    (truthy_str firebaseUserId && truthy_str email && truthy_str apiKey
       && truthy_str stripeCustomerId && truthy_str plan = false ->
     safeCreate sanitize firebaseUserId email apiKey stripeCustomerId plan
       explorerSubscriptionId transaction = MThrow missing_parameter)
    /\ (forall (W : Type) (env : ormEnvironment W) (fid mail : string) (w w1 : W),
          truthy_str firebaseUserId && truthy_str email && truthy_str apiKey
            && truthy_str stripeCustomerId && truthy_str plan = true ->
          firebaseUserId = Some fid ->
          email = Some mail ->
          (forall existing : fields,
             env _ (UserFindOne fid mail) w = (Ok (Some existing), w1) ->
             mrun env (safeCreate sanitize firebaseUserId email apiKey stripeCustomerId
                         plan explorerSubscriptionId transaction) w
             = (Responded None, w1,
                [OrmInteraction (UserFindOne fid mail) (Ok (Some existing))]))
          /\ (forall (created : fields) (w2 : W),
                env _ (UserFindOne fid mail) w = (Ok None, w1) ->
                env _ (UserCreate (sanitize
                         (userAttributes firebaseUserId email apiKey stripeCustomerId plan
                            explorerSubscriptionId))) w1 = (Ok created, w2) ->
                mrun env (safeCreate sanitize firebaseUserId email apiKey stripeCustomerId
                            plan explorerSubscriptionId transaction) w
                = (Responded (Some created), w2,
                   [OrmInteraction (UserFindOne fid mail) (Ok None);
                    OrmInteraction
                      (UserCreate (sanitize
                         (userAttributes firebaseUserId email apiKey stripeCustomerId plan
                            explorerSubscriptionId))) (Ok created)])))
    /\ (forall (W : Type) (env : ormEnvironment W) (w : W),
          let t := snd (mrun env (safeCreate sanitize firebaseUserId email apiKey
                                    stripeCustomerId plan explorerSubscriptionId
                                    transaction) w) in
          (length (List.filter is_user_create t) <= 1)%nat
          /\ (existsb existing_user_found t = true -> existsb is_user_create t = false))
    /\ (forall other : option string,
          safeCreate sanitize firebaseUserId email apiKey stripeCustomerId plan
            explorerSubscriptionId other
          = safeCreate sanitize firebaseUserId email apiKey stripeCustomerId plan
              explorerSubscriptionId transaction).
Proof.
  intros sanitize firebaseUserId email apiKey stripeCustomerId plan
    explorerSubscriptionId transaction.
  split; [| split; [| split]].
  - intros Hmissing. unfold safeCreate.
    destruct (truthy_str firebaseUserId), (truthy_str email), (truthy_str apiKey),
      (truthy_str stripeCustomerId), (truthy_str plan);
      cbn in *; try discriminate; reflexivity.
  - intros W env fid mail w w1 Hall -> ->. unfold safeCreate.
    destruct (truthy_str (Some fid)), (truthy_str (Some mail)), (truthy_str apiKey),
      (truthy_str stripeCustomerId), (truthy_str plan);
      cbn in Hall; try discriminate.
    split.
    + intros existing Hfound. cbn. rewrite Hfound. reflexivity.
    + intros created w2 Hnone Hcreate. cbn. rewrite Hnone. cbn.
      rewrite Hcreate. reflexivity.
  - intros W env w.
    apply (every_orm_run_sound env
             (safeCreate sanitize firebaseUserId email apiKey stripeCustomerId plan
                explorerSubscriptionId transaction)
             (fun t _ =>
                (length (List.filter is_user_create t) <= 1)%nat
                /\ (existsb existing_user_found t = true ->
                    existsb is_user_create t = false))).
    unfold safeCreate.
    destruct (negb (truthy_str firebaseUserId) || negb (truthy_str email)
              || negb (truthy_str apiKey) || negb (truthy_str stripeCustomerId)
              || negb (truthy_str plan)); cbn.
    + split; [lia | discriminate].
    + intros [[existing |] | m]; cbn.
      * split; [lia | reflexivity].
      * intros [created | m]; cbn; (split; [lia | discriminate]).
      * split; [lia | discriminate].
  - intros other. reflexivity.
Qed.

Lemma safeCreate_creates_once_witness :
  fst (fst (mrun userTable
              (safeCreate clear_null (Some "alice") (Some "other@example.org") (Some "key")
                 (Some "cus_9") (Some "free") None None) [aliceRow]))
  = Responded None
  /\ safeCreate clear_null (Some "carol") None (Some "key") (Some "cus_9") (Some "free")
       None None = MThrow missing_parameter.
Proof.
  pose proof (safeCreate_creates_once clear_null (Some "alice") (Some "other@example.org")
                (Some "key") (Some "cus_9") (Some "free") None None) as A.
  pose proof (safeCreate_creates_once clear_null (Some "carol") None (Some "key")
                (Some "cus_9") (Some "free") None None) as B.
  destruct A as (_ & A & _). destruct B as (B & _).
  split.
  - destruct (A (list fields) userTable "alice" "other@example.org" [aliceRow] [aliceRow])
      as [A1 _]; [reflexivity | reflexivity | reflexivity |].
    rewrite (A1 aliceRow); reflexivity.
  - apply B. reflexivity.
Defined.

Lemma indexOf_bounds (l : list string) (x : string) :
  -1 <= indexOf l x < Z.of_nat (length l).
Proof.
  induction l as [| y l IH]; cbn; [lia |].
  destruct (String.eqb y x); [lia |].
  destruct (Z.ltb (indexOf l x) 0) eqn:E; [lia |].
  apply Z.ltb_ge in E. lia.
Qed.

Lemma indexOf_found (l : list string) (x : string) :
  -1 < indexOf l x <-> In x l.
Proof.
  induction l as [| y l IH]; cbn; [split; [lia | contradiction] |].
  destruct (String.eqb y x) eqn:Eyx.
  - apply String.eqb_eq in Eyx. split; [auto | lia].
  - apply String.eqb_neq in Eyx.
    destruct (Z.ltb (indexOf l x) 0) eqn:E.
    + apply Z.ltb_lt in E. split; [lia |].
      intros [H | H]; [contradiction |]. apply IH in H. lia.
    + apply Z.ltb_ge in E. split.
      * intros _. right. apply IH. lia.
      * intros _. lia.
Qed.

(** X22. The workspace [safeCreateWorkspace] creates carries [apiEnabled]
    (resp. [alchemyIntegrationEnabled]) [true] exactly when [data] has an
    integrations list that contains [api] (resp. [alchemy]), [false] when
    the list is there without it, and null when [data] has no
    integrations at all; the three account settings are null when [data]
    has no settings.  The one call made is the creation, with these
    attributes sanitized. *)
Theorem safeCreateWorkspace_flags :
  forall (sanitize : fields -> fields) (data : WorkspaceInput) (x : string),
    (integration data x = VBool true
       <-> exists l : list string, in_integrations data = Some l /\ In x l)
    /\ (integration data x = VBool false
        <-> exists l : list string, in_integrations data = Some l /\ ~ In x l)
    /\ (integration data x = VNull <-> in_integrations data = None)
    /\ (in_settings data = None ->
        attribute "defaultAccount" (workspaceAttributes data) = Some VNull
        /\ attribute "gasLimit" (workspaceAttributes data) = Some VNull
        /\ attribute "gasPrice" (workspaceAttributes data) = Some VNull)
    /\ attribute "apiEnabled" (workspaceAttributes data) = Some (integration data "api")
    /\ attribute "alchemyIntegrationEnabled" (workspaceAttributes data)
       = Some (integration data "alchemy")
    /\ (forall (W : Type) (env : ormEnvironment W) (created : fields) (w w1 : W),
          env _ (CreateWorkspace (sanitize (workspaceAttributes data))) w
          = (Ok created, w1) ->
          mrun env (safeCreateWorkspace sanitize data) w
          = (Responded created, w1,
             [OrmInteraction (CreateWorkspace (sanitize (workspaceAttributes data)))
                (Ok created)])).
Proof.
  intros sanitize data x. unfold integration, setting.
  repeat split.
  - destruct (in_integrations data) as [l |]; [| discriminate].
    intros H. injection H as H. apply Z.ltb_lt in H.
    exists l. split; [reflexivity | apply indexOf_found; exact H].
  - intros (l & -> & Hin). f_equal. apply Z.ltb_lt. apply indexOf_found. exact Hin.
  - destruct (in_integrations data) as [l |]; [| discriminate].
    intros H. injection H as H. apply Z.ltb_ge in H.
    exists l. split; [reflexivity |]. intros Hin. apply indexOf_found in Hin. lia.
  - intros (l & -> & Hin). f_equal. apply Z.ltb_ge.
    destruct (Z.lt_ge_cases (-1) (indexOf l x)) as [H | H]; [| lia].
    apply indexOf_found in H. contradiction.
  - destruct (in_integrations data); [discriminate | reflexivity].
  - intros ->. reflexivity.
  - cbn. unfold setting. rewrite H. reflexivity.
  - cbn. unfold setting. rewrite H. reflexivity.
  - cbn. unfold setting. rewrite H. reflexivity.
  - intros W env created w w1 Hcreate. cbn. rewrite Hcreate. reflexivity.
Qed.

Lemma safeCreateWorkspace_flags_witness :
  integration
    {| in_name := VStr "main"; in_public := VBool false; in_chain := VStr "ethereum";
       in_networkId := VNum 1; in_rpcServer := VStr "https://x";
       in_settings := None; in_integrations := Some ["alchemy"; "api"] |} "api"
  = VBool true.
Proof.
  apply (safeCreateWorkspace_flags clear_null).
  exists ["alchemy"; "api"]. split; [reflexivity |]. right. left. reflexivity.
Defined.
